(** * Time-series forecast plugin: dataset builder and forecast reconstructor

    A shallow embedding of the Python library code of the plugin
    ([dku_io_utils/dku_checks_utils.py], [gluonts_forecasts/gluon_dataset.py],
    [gluonts_forecasts/utils.py], [gluonts_forecasts/trained_model.py])
    together with the part of pandas the code calls, followed by the
    properties of the specification that are settled on it.

    Conventions.
    - Python exceptions are the [Raise] case of [result].
    - A Python object mutated in place is threaded explicitly: a function
      that assigns into its argument returns the argument's final state.
    - Timestamps are integers, nanoseconds since 1970-01-01T00:00:00. *)

From Stdlib Require Import ZArith QArith Qround Lia Ascii.
From stdpp Require Import base list strings gmap pretty.
Close Scope Q_scope.

(** ** Python values and exceptions *)

Inductive exn :=
  | ValueError (msg : string)
  | KeyError (key : string)
  | IndexError
  | AssertionError
  | AttributeError
  | TypeError.

Inductive result (A : Type) :=
  | Ok (a : A)
  | Raise (e : exn).
Arguments Ok {A} a.
Arguments Raise {A} e.

(** Sequencing of statements that may raise. *)
Definition bindR {A B : Type} (m : result A) (f : A → result B) : result B :=
  match m with
  | Ok a => f a
  | Raise e => Raise e
  end.

Notation "'let!' x ':=' m 'in' k" := (bindR m (λ x, k))
  (at level 10, x pattern, m at level 200, k at level 200).

Definition mapOk {A B : Type} (f : A → B) (m : result A) : result B :=
  let! a := m in Ok (f a).

(** [for x in l: f(x)] collecting the results, stopping at the first
    exception. *)
Fixpoint mapR {A B : Type} (f : A → result B) (l : list A) : result (list B) :=
  match l with
  | [] => Ok []
  | x :: l' => let! y := f x in let! ys := mapR f l' in Ok (y :: ys)
  end.

(** A scalar as Python sees it: what a recipe parameter or a cell of a
    table may hold. *)
Inductive pyval :=
  | PyNone
  | PyInt (n : Z)
  | PyStr (s : string).

(** [str(v)], as used by [str.format] and f-strings. *)
Definition py_str (v : pyval) : string :=
  match v with
  | PyNone => "None"
  | PyInt n => pretty n
  | PyStr s => s
  end.

(** [a == b] on scalars: values of different types are never equal. *)
Definition py_eq (a b : pyval) : bool :=
  match a, b with
  | PyNone, PyNone => true
  | PyInt x, PyInt y => (x =? y)%Z
  | PyStr x, PyStr y => String.eqb x y
  | _, _ => false
  end.

(** [x in l] for a list of strings. *)
Definition str_in (x : string) (l : list string) : bool :=
  existsb (String.eqb x) l.

(** [sub in s] for strings. *)
Fixpoint str_contains (sub s : string) : bool :=
  String.prefix sub s ||
  match s with
  | EmptyString => false
  | String _ s' => str_contains sub s'
  end.

(** ** Tables

    A cell of a pandas table. [VTime t] is a timezone-naive timestamp whose
    wall clock reads [t]; [VTimeTz utc off] is a timezone-aware timestamp at
    instant [utc] in a zone [off] nanoseconds east of UTC; [VNaN] is the
    missing value (NaN, and NaT in a datetime column). *)
Inductive value :=
  | VNaN
  | VNum (x : Z)
  | VStr (s : string)
  | VTime (t : Z)
  | VTimeTz (utc off : Z).

#[global] Instance value_eq_dec : EqDecision value.
Proof. solve_decision. Defined.

(** A DataFrame with the default integer index: named columns and rows. *)
Record DataFrame := mkDataFrame {
  columns : list string;
  rows : list (list value);
}.

(** Position of the first column called [name]. *)
Fixpoint column_index (name : string) (cols : list string) : option nat :=
  match cols with
  | [] => None
  | c :: cols' =>
      if String.eqb c name then Some 0%nat
      else S <$> column_index name cols'
  end.

Definition cell (i : nat) (row : list value) : value := nth i row VNaN.
Arguments cell : simpl never.

(** [df[name]]: the values of a column, or [KeyError]. *)
Definition get_column (df : DataFrame) (name : string) : result (list value) :=
  match column_index name (columns df) with
  | Some i => Ok (cell i <$> rows df)
  | None => Raise (KeyError name)
  end.

(** [df[name] = vals] for a series [vals] aligned with the rows of [df]:
    the column is overwritten in place when it exists and appended
    otherwise. *)
Definition set_column (df : DataFrame) (name : string) (vals : list value) : DataFrame :=
  match column_index name (columns df) with
  | Some i =>
      {| columns := columns df;
         rows := zip_with (λ row v, <[i := v]> row) (rows df) vals |}
  | None =>
      {| columns := columns df ++ [name];
         rows := zip_with (λ row v, row ++ [v]) (rows df) vals |}
  end.

(** [len(df.index)]. *)
Definition nrows (df : DataFrame) : nat := length (rows df).

(** ** The pandas calendar

    Days are counted from 1970-01-01; months from January 1970. *)

Definition NS_PER_SECOND : Z := 1000000000.
Definition NS_PER_DAY : Z := 86400 * NS_PER_SECOND.

Definition day_of (t : Z) : Z := (t / NS_PER_DAY)%Z.
Definition time_of_day (t : Z) : Z := (t mod NS_PER_DAY)%Z.
Definition at_day (d tod : Z) : Z := (d * NS_PER_DAY + tod)%Z.

(** First day of month [k]. Months are renumbered from March of year 0 so
    that the leap day falls at the end of the year. *)
Definition month_start (k : Z) : Z :=
  (let k2 := k + 23638 in
   let y := k2 / 12 in
   let mp := k2 mod 12 in
   365 * y + y / 4 - y / 100 + y / 400 + (153 * mp + 2) / 5 - 719468)%Z.

(** The month a day falls in: the last month that starts on or before it,
    found by walking forward from a month known to start early enough. *)
Fixpoint month_scan (fuel : nat) (k d : Z) : Z :=
  match fuel with
  | O => k
  | S fuel' =>
      if (month_start (k + 1) <=? d)%Z then month_scan fuel' (k + 1)%Z d else k
  end.

Definition month_of_day (d : Z) : Z :=
  (let k0 := if 0 <=? d then d / 31 else d / 28 in
   month_scan (Z.to_nat (d - month_start k0)) k0 d)%Z.

(** [days_from_civil y m d]: the day number of a calendar date. *)
Definition days_from_civil (y m d : Z) : Z :=
  (month_start ((y - 1970) * 12 + (m - 1)) + (d - 1))%Z.

(** ** pandas date offsets

    What [pandas.tseries.offsets] gives [date_range]: whether a timestamp
    lies on the offset, the next on-offset timestamp for one that does not
    ([rollforward]), and the timestamp one step later ([apply_offset]).
    [resolution] is the least amount of time a step of the offset spans; it
    only serves to bound the number of turns of the generating loop. *)
Record DateOffset := mkOffset {
  is_on_offset : Z → bool;
  rollforward : Z → Z;
  apply_offset : Z → Z;
  resolution : Z;
}.

(** Fixed-duration frequencies (seconds, minutes, hours, days): every
    timestamp is on the offset. *)
Definition Tick (d : Z) : DateOffset :=
  {| is_on_offset := λ _, true;
     rollforward := λ t, t;
     apply_offset := λ t, (t + d)%Z;
     resolution := d |}.

(** Anchored frequencies (week, month end, quarter end, year end): the
    calendar is cut at boundary days [boundary k], [k_of d] is the first
    boundary on or after day [d], the time of day is kept. A timestamp off
    the boundary first moves to the next boundary, which uses up one of the
    [n] steps. *)
Definition anchored_on (boundary k_of : Z → Z) (t : Z) : bool :=
  (boundary (k_of (day_of t)) =? day_of t)%Z.

Definition anchored_apply (boundary k_of : Z → Z) (n t : Z) : Z :=
  (let k := k_of (day_of t) in
   let steps := if anchored_on boundary k_of t then n else n - 1 in
   at_day (boundary (k + steps)) (time_of_day t))%Z.

Definition Anchored (boundary k_of : Z → Z) (n : Z) : DateOffset :=
  {| is_on_offset := anchored_on boundary k_of;
     rollforward := anchored_apply boundary k_of 1;
     apply_offset := anchored_apply boundary k_of n;
     resolution := NS_PER_DAY |}.

(** Last day of month [k]. *)
Definition month_end (k : Z) : Z := (month_start (k + 1) - 1)%Z.

(** Weeks end on Sunday; 1970-01-04 was one. *)
Definition week_end (k : Z) : Z := (7 * k + 3)%Z.
Definition week_of_day (d : Z) : Z := ((d + 3) / 7)%Z.

Definition Week := Anchored week_end week_of_day.
Definition MonthEnd := Anchored month_end month_of_day.
Definition QuarterEnd :=
  Anchored (λ k, month_end (3 * k + 2)) (λ d, month_of_day d / 3)%Z.
Definition YearEnd :=
  Anchored (λ k, month_end (12 * k + 11)) (λ d, month_of_day d / 12)%Z.

(** *** Frequency strings *)

Definition is_digit (a : ascii) : bool :=
  let n := nat_of_ascii a in (48 <=? n)%nat && (n <=? 57)%nat.

Fixpoint span_digits (s : string) : string * string :=
  match s with
  | EmptyString => (EmptyString, EmptyString)
  | String a s' =>
      if is_digit a then
        let '(ds, rest) := span_digits s' in (String a ds, rest)
      else (EmptyString, s)
  end.

Fixpoint digits_value (acc : Z) (s : string) : Z :=
  match s with
  | EmptyString => acc
  | String a s' => digits_value (10 * acc + (Z.of_nat (nat_of_ascii a) - 48))%Z s'
  end.

(** [pandas.tseries.frequencies.to_offset] on a string made of a multiple
    and an alias. The aliases modelled are the fixed durations and the
    Sunday week, month-end, quarter-end and year-end anchors; the multiple
    is a positive decimal number, one when absent. Other frequency strings
    (other aliases, signed or null multiples) are outside the model and
    are reported the way pandas reports an unknown frequency. *)
Definition to_offset (freq : string) : result DateOffset :=
  let '(ds, alias) := span_digits freq in
  let n := if String.eqb ds "" then 1%Z else digits_value 0 ds in
  if (n <? 1)%Z then Raise (ValueError ("Invalid frequency: " +:+ freq))
  else if String.eqb alias "S" then Ok (Tick (n * NS_PER_SECOND))
  else if String.eqb alias "T" || String.eqb alias "min" then Ok (Tick (n * 60 * NS_PER_SECOND))
  else if String.eqb alias "H" then Ok (Tick (n * 3600 * NS_PER_SECOND))
  else if String.eqb alias "D" then Ok (Tick (n * NS_PER_DAY))
  else if String.eqb alias "W" then Ok (Week n)
  else if String.eqb alias "M" then Ok (MonthEnd n)
  else if String.eqb alias "Q" then Ok (QuarterEnd n)
  else if String.eqb alias "A" || String.eqb alias "Y" then Ok (YearEnd n)
  else Raise (ValueError ("Invalid frequency: " +:+ freq)).

(** *** date_range *)

(** The start of a range is moved onto the offset first. *)
Definition adjust_start (o : DateOffset) (t : Z) : Z :=
  if is_on_offset o t then t else rollforward o t.

(** The loop of [pandas.core.arrays.datetimes.generate_range]: emit [cur]
    while it does not pass [stop], stepping by the offset; an offset that
    fails to move forward is an error. [fuel] bounds the number of steps;
    for an offset that advances by its resolution the bound taken by
    [date_range] is never reached (lemma [generate_range_fuel]). *)
Fixpoint generate_range (o : DateOffset) (fuel : nat) (cur stop : Z) : result (list Z) :=
  if (stop <? cur)%Z then Ok []
  else if (cur =? stop)%Z then Ok [cur]
  else
    match fuel with
    | O => Raise (ValueError "date_range: out of fuel")
    | S fuel' =>
        let next := apply_offset o cur in
        if (next <=? cur)%Z then Raise (ValueError "Offset did not increment date")
        else let! rest := generate_range o fuel' next stop in Ok (cur :: rest)
    end.

(** [pd.date_range(start=start, end=stop, freq=o)]. *)
Definition date_range (o : DateOffset) (start stop : Z) : result (list Z) :=
  let start' := adjust_start o start in
  generate_range o (S (Z.to_nat ((stop - start') / resolution o))) start' stop.

(** [pd.date_range(start=start, periods=n, freq=o)]: [n] timestamps, each
    one step after the other. *)
Fixpoint iterate_offset (o : DateOffset) (n : nat) (cur : Z) : list Z :=
  match n with
  | O => []
  | S n' => cur :: iterate_offset o n' (apply_offset o cur)
  end.

Definition date_range_periods (o : DateOffset) (start : Z) (n : nat) : list Z :=
  iterate_offset o n (adjust_start o start).

(** *** Parsing and normalising timestamps *)

Definition digit_value (a : ascii) : option Z :=
  if is_digit a then Some (Z.of_nat (nat_of_ascii a) - 48)%Z else None.

(** Reads exactly [n] decimal digits. *)
Fixpoint read_digits (n : nat) (acc : Z) (s : string) : option (Z * string) :=
  match n with
  | O => Some (acc, s)
  | S n' =>
      match s with
      | String a s' => d ← digit_value a; read_digits n' (10 * acc + d)%Z s'
      | EmptyString => None
      end
  end.

Definition read_char (c : ascii) (s : string) : option string :=
  match s with
  | String a s' => if Ascii.eqb a c then Some s' else None
  | EmptyString => None
  end.

Definition days_in_month (y m : Z) : Z :=
  (let k := (y - 1970) * 12 + (m - 1) in month_start (k + 1) - month_start k)%Z.

(** The clock part [HH:MM:SS] of an ISO timestamp, in nanoseconds. *)
Definition read_clock (s : string) : option Z :=
  '(h, s) ← read_digits 2 0 s; s ← read_char ":" s;
  '(mi, s) ← read_digits 2 0 s; s ← read_char ":" s;
  '(sec, s) ← read_digits 2 0 s;
  if String.eqb s "" && (h <? 24)%Z && (mi <? 60)%Z && (sec <? 60)%Z
  then Some ((h * 3600 + mi * 60 + sec) * NS_PER_SECOND)%Z else None.

(** The text forms of a timestamp that are modelled: [YYYY-MM-DD], alone or
    followed by a blank or [T] and [HH:MM:SS]. *)
Definition parse_timestamp (s : string) : option Z :=
  '(y, s) ← read_digits 4 0 s; s ← read_char "-" s;
  '(m, s) ← read_digits 2 0 s; s ← read_char "-" s;
  '(d, s) ← read_digits 2 0 s;
  if (1 <=? m)%Z && (m <=? 12)%Z && (1 <=? d)%Z && (d <=? days_in_month y m)%Z then
    match s with
    | EmptyString => Some (at_day (days_from_civil y m d) 0)
    | String a s' =>
        if Ascii.eqb a " " || Ascii.eqb a "T"
        then tod ← read_clock s'; Some (at_day (days_from_civil y m d) tod)
        else None
    end
  else None.

(** [pd.to_datetime] on one cell: timestamps are kept, integers count
    nanoseconds from the epoch, text is parsed, the missing value becomes
    NaT. A column is read cell by cell, which is what pandas does on a
    column whose cells are of one kind; a column that mixes kinds, on
    which pandas raises, is outside the model. *)
Definition to_datetime_cell (v : value) : result value :=
  match v with
  | VNaN => Ok VNaN
  | VNum x => Ok (VTime x)
  | VStr s =>
      match parse_timestamp s with
      | Some t => Ok (VTime t)
      | None => Raise (ValueError ("Unknown string format: " +:+ s))
      end
  | VTime t => Ok (VTime t)
  | VTimeTz utc off => Ok (VTimeTz utc off)
  end.

Definition to_datetime (vals : list value) : result (list value) :=
  mapR to_datetime_cell vals.

(** [.dt.tz_localize(tz=None)] on a datetime cell: the zone is dropped and
    the local wall-clock reading is kept. *)
Definition tz_localize_none_cell (v : value) : value :=
  match v with
  | VTimeTz utc off => VTime (utc + off)
  | v => v
  end.

Definition tz_localize_none (vals : list value) : list value :=
  tz_localize_none_cell <$> vals.

(** [series.iloc[0]] and [series.iloc[-1]]. *)
Definition iloc_first (vals : list value) : result value :=
  match vals with
  | [] => Raise IndexError
  | v :: _ => Ok v
  end.

Definition iloc_last (vals : list value) : result value :=
  match last vals with
  | None => Raise IndexError
  | Some v => Ok v
  end.

(** [pd.date_range(start=start, end=stop, freq=frequency)] on cells of a
    datetime column. *)
Definition date_range_cells (start stop : value) (frequency : string) : result (list value) :=
  let! o := to_offset frequency in
  match start, stop with
  | VTime s, VTime e => let! r := date_range o s e in Ok (VTime <$> (r : list Z))
  | _, _ => Raise (ValueError "Neither `start` nor `end` can be NaT")
  end.

(** ** Time grid validator ([dku_io_utils/dku_checks_utils.py]) *)

(** ["{}{}".format(time_granularity_step, time_granularity_unit)] *)
Definition frequency_of (time_granularity_step : pyval) (time_granularity_unit : string) : string :=
  py_str time_granularity_step +:+ time_granularity_unit.

(** The statements of [check_continuous_time_column] after the assignment
    to the time column. *)
Definition check_normalized_time_column (dataframe : DataFrame) (time_column_name : string)
    (time_granularity_unit : string) (time_granularity_step : pyval) : result bool :=
  let frequency := frequency_of time_granularity_step time_granularity_unit in
  let! time_column := get_column dataframe time_column_name in
  let! start_date := iloc_first time_column in
  let! end_date := iloc_last time_column in
  let! date_range_df := date_range_cells start_date end_date frequency in
  if negb (length date_range_df =? nrows dataframe)%nat
     || negb (bool_decide (time_column = date_range_df))
  then Ok false
  else Ok true.

(** [check_continuous_time_column]: the first statement assigns the parsed,
    timezone-naive timestamps to the time column of the caller's table, so
    the table is returned along with the verdict. *)
Definition check_continuous_time_column (dataframe : DataFrame) (time_column_name : string)
    (time_granularity_unit : string) (time_granularity_step : pyval) : DataFrame * result bool :=
  match bindR (get_column dataframe time_column_name) to_datetime with
  | Raise e => (dataframe, Raise e)
  | Ok parsed =>
      let dataframe := set_column dataframe time_column_name (tz_localize_none parsed) in
      (dataframe,
       check_normalized_time_column dataframe time_column_name
         time_granularity_unit time_granularity_step)
  end.

Definition continuity_error_message (time_column_name time_granularity_unit : string)
    (time_granularity_step : pyval) : string :=
  let frequency := frequency_of time_granularity_step time_granularity_unit in
  let error_message :=
    "Time column " +:+ time_column_name
      +:+ " doesn't have regular time intervals of frequency " +:+ frequency +:+ "." in
  if str_in time_granularity_unit ["M"; "Y"] then
    let unit_name := if py_eq time_granularity_step (PyStr "M") then "Month" else "Year" in
    error_message +:+ "For " +:+ unit_name +:+ " frequency, timestamps must be end of "
      +:+ unit_name +:+ " (for e.g. '2020-12-31 00:00:00')"
  else error_message.

(** [assert_continuous_time_column]: raise an explicit error message. *)
Definition assert_continuous_time_column (dataframe : DataFrame) (time_column_name : string)
    (time_granularity_unit : string) (time_granularity_step : pyval) : DataFrame * result () :=
  let '(dataframe, is_continuous) :=
    check_continuous_time_column dataframe time_column_name
      time_granularity_unit time_granularity_step in
  (dataframe,
   let! is_continuous := is_continuous in
   if negb is_continuous then
     Raise (ValueError (continuity_error_message time_column_name
                          time_granularity_unit time_granularity_step))
   else Ok ()).

(** ** numpy arrays and positional slices *)

(** A two-dimensional array: [shape] is kept beside the cells because an
    array with no row still has a second dimension. *)
Record ndarray := mkArray {
  shape : nat * nat;
  data : list (list value);
}.

(** [a.T] *)
Definition transpose (a : ndarray) : ndarray :=
  {| shape := (snd (shape a), fst (shape a));
     data := (λ j, cell j <$> data a) <$> seq 0 (snd (shape a)) |}.

(** [np.append(a, b, axis=1)]: the rows of [b] are appended to the rows of
    [a]; the arrays must have the same number of rows. *)
Definition append_axis1 (a b : ndarray) : result ndarray :=
  if negb (fst (shape a) =? fst (shape b))%nat
  then Raise (ValueError "all the input array dimensions except for the concatenation axis must match exactly")
  else Ok {| shape := (fst (shape a), (snd (shape a) + snd (shape b))%nat);
             data := zip_with app (data a) (data b) |}.

(** [l[:stop]] with Python's reading of a missing or negative bound. *)
Definition slice_to {A} (stop : option Z) (l : list A) : list A :=
  match stop with
  | None => l
  | Some k =>
      if (0 <=? k)%Z then take (Z.to_nat k) l
      else take (length l - Z.to_nat (- k)) l
  end.
Arguments slice_to : simpl never.

(** [df[names]]: the sub-table of the listed columns. *)
Definition select_columns (df : DataFrame) (names : list string) : result DataFrame :=
  let! idx := mapR (λ name, match column_index name (columns df) with
                            | Some i => Ok i
                            | None => Raise (KeyError name)
                            end) names in
  Ok {| columns := names; rows := (λ row, (λ i, cell i row) <$> idx) <$> rows df |}.

(** [df.iloc[:stop]] *)
Definition iloc_to (stop : option Z) (df : DataFrame) : DataFrame :=
  {| columns := columns df; rows := slice_to stop (rows df) |}.

(** [df.values] *)
Definition values (df : DataFrame) : ndarray :=
  {| shape := (nrows df, length (columns df)); data := rows df |}.

(** [df[mask]] for a boolean series [mask] aligned with the rows. *)
Fixpoint mask_rows {A} (l : list A) (mask : list bool) : list A :=
  match l, mask with
  | x :: l', b :: mask' => if b then x :: mask_rows l' mask' else mask_rows l' mask'
  | _, _ => []
  end.

Definition filter_mask (df : DataFrame) (mask : list bool) : DataFrame :=
  {| columns := columns df; rows := mask_rows (rows df) mask |}.

(** [a == b] on cells: the missing value equals nothing. *)
Definition cell_eq (a b : value) : bool :=
  match a with
  | VNaN => false
  | _ => bool_decide (a = b)
  end.

(** [bool(v)] for a cell. *)
Definition value_truthy (v : value) : bool :=
  match v with
  | VNum x => negb (x =? 0)%Z
  | VStr s => negb (String.eqb s "")
  | _ => true
  end.

(** *** Ordering of cells and group keys *)

Definition value_rank (v : value) : Z :=
  match v with
  | VNaN => 0 | VNum _ => 1 | VStr _ => 2 | VTime _ => 3 | VTimeTz _ _ => 4
  end.

(** Cells of the same kind compare by their value; cells of different kinds
    (which pandas does not order) by the kind. *)
Definition value_compare (a b : value) : comparison :=
  match a, b with
  | VNum x, VNum y => (x ?= y)%Z
  | VStr x, VStr y => String.compare x y
  | VTime x, VTime y => (x ?= y)%Z
  | VTimeTz x _, VTimeTz y _ => (x ?= y)%Z
  | _, _ => (value_rank a ?= value_rank b)%Z
  end.

Fixpoint key_compare (a b : list value) : comparison :=
  match a, b with
  | [], [] => Eq
  | [], _ => Lt
  | _, [] => Gt
  | x :: a', y :: b' =>
      match value_compare x y with
      | Eq => key_compare a' b'
      | c => c
      end
  end.

(** Insertion into a sorted list without repetition. *)
Fixpoint insert_sorted {A} (cmp : A → A → comparison) (x : A) (l : list A) : list A :=
  match l with
  | [] => [x]
  | y :: l' =>
      match cmp x y with
      | Lt => x :: l
      | Eq => l
      | Gt => y :: insert_sorted cmp x l'
      end
  end.

Definition sort_unique {A} (cmp : A → A → comparison) (l : list A) : list A :=
  foldr (insert_sorted cmp) [] l.

(** [df.groupby(names)]: the rows are grouped by their values in the key
    columns; rows with a missing key are dropped, groups come in ascending
    order of key, rows keep their order inside a group. *)
Definition groupby (df : DataFrame) (names : list string) : result (list (list value * DataFrame)) :=
  let! keyed := select_columns df names in
  let keys := rows keyed in
  let complete := filter (λ key, forallb (λ v, negb (bool_decide (v = VNaN))) key) keys in
  Ok ((λ key, (key, filter_mask df ((λ k, bool_decide (k = key)) <$> keys)))
        <$> sort_unique key_compare complete).

(** ** Per-series records

    The dictionary of one time series, keyed by the constants of
    [TIMESERIES_KEYS]; a key that may be absent is an option.
    [IDENTIFIERS] keeps the insertion order of the dictionary. *)
Module TIMESERIES_KEYS.

Record Timeseries := mkTimeseries {
  START : value;
  TARGET : list value;
  TARGET_NAME : string;
  TIME_COLUMN_NAME : string;
  FEAT_DYNAMIC_REAL : option ndarray;
  FEAT_DYNAMIC_REAL_COLUMNS_NAMES : option (list string);
  IDENTIFIERS : option (list (string * value));
}.

End TIMESERIES_KEYS.
Abbreviation Timeseries := TIMESERIES_KEYS.Timeseries.

(** [timeseries[key]] for a key that may be absent. *)
Definition getitem {A} (key : string) (field : option A) : result A :=
  match field with
  | Some a => Ok a
  | None => Raise (KeyError key)
  end.

(** [gluonts.dataset.common.ListDataset] *)
Record ListDataset := mkListDataset {
  list_data : list Timeseries;
  freq : string;
}.

(** [bool(l)] for an optional list: [None] and the empty list are false. *)
Definition list_truthy {A} (l : option (list A)) : bool :=
  match l with
  | Some (_ :: _) => true
  | _ => false
  end.

(** ** Dataset builder ([gluonts_forecasts/gluon_dataset.py]) *)
Module GluonDataset.

Record t := mk {
  dataframe : DataFrame;
  time_column_name : string;
  frequency : string;
  target_columns_names : list string;
  timeseries_identifiers_names : option (list string);
  external_features_columns_names : option (list string);
}.

(** [if identifiers_values:] on a group key. The key is the tuple of the
    key values when grouping on several columns and the bare value when
    grouping on one. *)
Definition identifiers_values_truthy (names : list string) (identifiers_values : list value) : bool :=
  if (1 <? length names)%nat then
    match identifiers_values with [] => false | _ => true end
  else
    match identifiers_values with v :: _ => value_truthy v | [] => false end.

Section Methods.

(** [assert_time_column_valid] is imported from [gluonts_forecasts.utils],
    which does not define it in this revision. It is taken as a parameter:
    given the table, the time column, the frequency and optionally the
    expected first date and number of periods, it returns or raises. *)
Variable assert_time_column_valid :
  DataFrame → string → string → option value → option nat → result ().

Definition _create_gluon_univariate_timeseries (self : t) (df : DataFrame)
    (target_column_name : string) (length_ : option Z)
    (identifiers_values : option (list value)) : result Timeseries :=
  let! start_ := bindR (get_column df (time_column_name self)) iloc_first in
  let! target_ := mapOk (slice_to length_) (get_column df target_column_name) in
  let! feat :=
    (if list_truthy (external_features_columns_names self) then
       let names := default [] (external_features_columns_names self) in
       let! sub := select_columns df names in
       Ok (Some (transpose (values (iloc_to length_ sub))), Some names)
     else Ok (None, None)) in
  let identifiers_map :=
    match identifiers_values with
    | Some vals =>
        let names := default [] (timeseries_identifiers_names self) in
        if identifiers_values_truthy names vals then
          if (1 <? length names)%nat then Some (zip names vals)
          else Some (zip (take 1 names) vals)
        else None
    | None => None
    end in
  Ok {| TIMESERIES_KEYS.START := start_;
        TIMESERIES_KEYS.TARGET := target_;
        TIMESERIES_KEYS.TARGET_NAME := target_column_name;
        TIMESERIES_KEYS.TIME_COLUMN_NAME := time_column_name self;
        TIMESERIES_KEYS.FEAT_DYNAMIC_REAL := feat.1;
        TIMESERIES_KEYS.FEAT_DYNAMIC_REAL_COLUMNS_NAMES := feat.2;
        TIMESERIES_KEYS.IDENTIFIERS := identifiers_map |}.

Definition _create_gluon_multivariate_timeseries (self : t) (df : DataFrame)
    (length_ : option Z) (identifiers_values : option (list value)) : result (list Timeseries) :=
  mapR (λ target_column_name,
          _create_gluon_univariate_timeseries self df target_column_name length_ identifiers_values)
       (target_columns_names self).

(** The loop of [create_list_dataset] over the groups; [first] holds the
    start date and number of periods of the first group once it has been
    seen. *)
Fixpoint create_list_dataset_groups (self : t) (length_ : option Z)
    (first : option (value * nat)) (groups : list (list value * DataFrame))
    : result (list Timeseries) :=
  match groups with
  | [] => Ok []
  | (identifiers_values, identifiers_df) :: groups' =>
      let! _ := assert_time_column_valid identifiers_df (time_column_name self)
                  (frequency self) (fst <$> first) (snd <$> first) in
      let! first' :=
        match first with
        | None =>
            let! start_date := bindR (get_column identifiers_df (time_column_name self)) iloc_first in
            Ok (Some (start_date, nrows identifiers_df))
        | Some _ => Ok first
        end in
      let! series := _create_gluon_multivariate_timeseries self identifiers_df length_
                       (Some identifiers_values) in
      let! rest := create_list_dataset_groups self length_ first' groups' in
      Ok (series ++ rest)
  end.

(** [length = -cut_length if cut_length else None] *)
Definition cut_to_length (cut_length : option Z) : option Z :=
  match cut_length with
  | Some k => if (k =? 0)%Z then None else Some (- k)%Z
  | None => None
  end.

Definition create_list_dataset (self : t) (cut_length : option Z) : result ListDataset :=
  let length_ := cut_to_length cut_length in
  let! multivariate_timeseries :=
    (if list_truthy (timeseries_identifiers_names self) then
       let! groups := groupby (dataframe self) (default [] (timeseries_identifiers_names self)) in
       create_list_dataset_groups self length_ None groups
     else
       let! _ := assert_time_column_valid (dataframe self) (time_column_name self)
                   (frequency self) None None in
       _create_gluon_multivariate_timeseries self (dataframe self) length_ None) in
  Ok {| list_data := multivariate_timeseries; freq := frequency self |}.

End Methods.
End GluonDataset.

(** ** External feature aligner ([gluonts_forecasts/utils.py]) *)

Definition apply_filter_conditions (df : DataFrame) (conditions : list (list bool)) : DataFrame :=
  match conditions with
  | [] => df
  | [c] => filter_mask df c
  | c0 :: rest => filter_mask df (foldl (zip_with andb) c0 rest)
  end.

(** The rows of the future table that belong to one series: those that
    agree with every identifier of the record, all of them when the record
    has no identifiers. *)
Definition filter_identifiers (external_features_future_df : DataFrame) (timeseries : Timeseries)
    : result DataFrame :=
  match TIMESERIES_KEYS.IDENTIFIERS timeseries with
  | Some timeseries_identifiers =>
      let! conditions :=
        mapR (λ '(k, v), mapOk (fmap (λ c, cell_eq c v))
                               (get_column external_features_future_df k))
             timeseries_identifiers in
      Ok (apply_filter_conditions external_features_future_df conditions)
  | None => Ok external_features_future_df
  end.

Definition horizon_error_message (prediction_length : Z) : string :=
  "Please provide " +:+ pretty prediction_length
    +:+ " future values of external features, as this was the forecasting horizon used for training".

Section Aligner.

(** [prepare_timeseries_dataframe] lives in
    [gluonts_forecasts/timeseries_preparation.py], which is not among the
    sources. It is taken as a parameter: given a table, the time column and
    the frequency, it returns the prepared table or raises. *)
Variable prepare_timeseries_dataframe : DataFrame → string → string → result DataFrame.

(** One turn of the loop of [add_future_external_features]: the record with
    the future values appended to its features. *)
Definition add_future_external_features_to (external_features_future_df : DataFrame)
    (prediction_length : Z) (frequency : string) (timeseries : Timeseries) : result Timeseries :=
  let! timeseries_external_features_future_df :=
    filter_identifiers external_features_future_df timeseries in
  let! feat_dynamic_real_train :=
    getitem "feat_dynamic_real" (TIMESERIES_KEYS.FEAT_DYNAMIC_REAL timeseries) in
  let! feat_dynamic_real_columns_names :=
    getitem "feat_dynamic_real_columns_names"
      (TIMESERIES_KEYS.FEAT_DYNAMIC_REAL_COLUMNS_NAMES timeseries) in
  let time_column_name := TIMESERIES_KEYS.TIME_COLUMN_NAME timeseries in
  let! timeseries_external_features_future_df :=
    prepare_timeseries_dataframe timeseries_external_features_future_df time_column_name frequency in
  let! selected :=
    select_columns timeseries_external_features_future_df feat_dynamic_real_columns_names in
  let feat_dynamic_real_future := transpose (values selected) in
  if negb (Z.of_nat (snd (shape feat_dynamic_real_future)) =? prediction_length)%Z then
    Raise (ValueError (horizon_error_message prediction_length))
  else
    let! feat_dynamic_real_appended :=
      append_axis1 feat_dynamic_real_train feat_dynamic_real_future in
    Ok {| TIMESERIES_KEYS.START := TIMESERIES_KEYS.START timeseries;
          TIMESERIES_KEYS.TARGET := TIMESERIES_KEYS.TARGET timeseries;
          TIMESERIES_KEYS.TARGET_NAME := TIMESERIES_KEYS.TARGET_NAME timeseries;
          TIMESERIES_KEYS.TIME_COLUMN_NAME := TIMESERIES_KEYS.TIME_COLUMN_NAME timeseries;
          TIMESERIES_KEYS.FEAT_DYNAMIC_REAL := Some feat_dynamic_real_appended;
          TIMESERIES_KEYS.FEAT_DYNAMIC_REAL_COLUMNS_NAMES :=
            TIMESERIES_KEYS.FEAT_DYNAMIC_REAL_COLUMNS_NAMES timeseries;
          TIMESERIES_KEYS.IDENTIFIERS := TIMESERIES_KEYS.IDENTIFIERS timeseries |}.

(** [add_future_external_features]: the records are visited in order, entry
    [i] of a deep copy of the dataset receives the extended features, and
    the copy is returned; the first failing record ends the call. *)
Definition add_future_external_features (gluon_train_dataset : ListDataset)
    (external_features_future_df : DataFrame) (prediction_length : Z) (frequency : string)
    : result ListDataset :=
  let! updated :=
    mapR (add_future_external_features_to external_features_future_df prediction_length frequency)
         (list_data gluon_train_dataset) in
  Ok {| list_data := updated; freq := freq gluon_train_dataset |}.

End Aligner.

(** *** Series and tables indexed by timestamps *)

(** A Series (one column) or DataFrame carrying a DatetimeIndex. *)
Record TimeFrame := mkTimeFrame {
  tf_index : list Z;
  tf_columns : list string;
  tf_rows : list (list value);
}.

(** [pd.Series(vals, name=name, index=index)] *)
Definition make_series (vals : list value) (name : string) (index : list Z) : result TimeFrame :=
  if negb (length vals =? length index)%nat
  then Raise (ValueError "Length of values does not match length of index")
  else Ok {| tf_index := index; tf_columns := [name]; tf_rows := (λ v, [v]) <$> vals |}.

(** [pd.DataFrame(a, columns=names, index=index)] *)
Definition make_frame (a : ndarray) (names : list string) (index : list Z) : result TimeFrame :=
  if negb ((fst (shape a) =? length index)%nat && (snd (shape a) =? length names)%nat)
  then Raise (ValueError "Shape of passed values does not match the indices")
  else Ok {| tf_index := index; tf_columns := names; tf_rows := data a |}.

(** [a[:stop]] on the first axis. *)
Definition array_rows_to (stop : option Z) (a : ndarray) : ndarray :=
  let kept := slice_to stop (data a) in
  {| shape := (length kept, snd (shape a)); data := kept |}.

(** [pd.date_range(start=start, periods=periods, freq=frequency)] on a cell
    of a datetime column. The start is a naive timestamp and the frequency
    one that [to_offset] reads; other starts and frequencies, some of
    which pandas accepts, are outside the model and reported as errors. *)
Definition date_range_periods_cells (start : value) (periods : Z) (frequency : string)
    : result (list Z) :=
  let! o := to_offset frequency in
  if (periods <? 0)%Z then Raise (ValueError "Number of periods must be non-negative")
  else
    match start with
    | VTime s => Ok (date_range_periods o s (Z.to_nat periods))
    | _ => Raise (ValueError "Neither `start` nor `end` can be NaT")
    end.

(** The row a frame has at timestamp [t]: missing values when it has
    none. *)
Fixpoint row_at (t : Z) (index : list Z) (rows : list (list value)) (width : nat) : list value :=
  match index, rows with
  | t' :: index', row :: rows' => if (t' =? t)%Z then row else row_at t index' rows' width
  | _, _ => replicate width VNaN
  end.

(** [pd.concat(frames, axis=1)]: the frames are placed side by side. Rows
    are matched on the index; when the frames do not all have the same
    index the result has the sorted union of the indexes, and a frame
    contributes missing values where it has no row. *)
Definition concat_axis1 (frames : list TimeFrame) : result TimeFrame :=
  match frames with
  | [] => Raise (ValueError "No objects to concatenate")
  | f0 :: others =>
      let index :=
        if forallb (λ f, bool_decide (tf_index f = tf_index f0)) others then tf_index f0
        else sort_unique Z.compare (concat (tf_index <$> frames)) in
      Ok {| tf_index := index;
            tf_columns := concat (tf_columns <$> frames);
            tf_rows :=
              (λ t, concat ((λ f, row_at t (tf_index f) (tf_rows f) (length (tf_columns f)))
                              <$> frames)) <$> index |}
  end.

(** [frame.reset_index(drop=False)]: the index becomes the first column,
    called [index]. *)
Definition reset_index (f : TimeFrame) : DataFrame :=
  {| columns := "index" :: tf_columns f;
     rows := zip_with (λ t row, VTime t :: row) (tf_index f) (tf_rows f) |}.

(** [df[name] = v] for a scalar [v]. *)
Definition set_column_scalar (df : DataFrame) (name : string) (v : value) : DataFrame :=
  set_column df name (replicate (nrows df) v).

(** Columns in order of first appearance. *)
Fixpoint union_columns (seen : list string) (cols : list string) : list string :=
  match cols with
  | [] => seen
  | c :: cols' => union_columns (if str_in c seen then seen else seen ++ [c]) cols'
  end.

Definition reindex_columns (cols : list string) (df : DataFrame) : list (list value) :=
  (λ row, (λ c, match column_index c (columns df) with
                | Some i => cell i row
                | None => VNaN
                end) <$> cols) <$> rows df.

(** [pd.concat(frames, axis=0)]: the frames are stacked; a frame has
    missing values in the columns it lacks. The frames are taken to have
    no repeated column name: a name is looked up at its first column. *)
Definition concat_axis0 (frames : list DataFrame) : result DataFrame :=
  match frames with
  | [] => Raise (ValueError "No objects to concatenate")
  | _ =>
      let cols := union_columns [] (concat (columns <$> frames)) in
      Ok {| columns := cols; rows := concat (reindex_columns cols <$> frames) |}
  end.

(** *** merge *)

Definition add_suffix (overlap : list string) (suffix : string) (c : string) : string :=
  if str_in c overlap then c +:+ suffix else c.

(** The key of a row: its cells in the columns [on] *)
Definition row_key (df : DataFrame) (on : list string) (row : list value) : list value :=
  (λ c, match column_index c (columns df) with
        | Some i => cell i row
        | None => VNaN
        end) <$> on.

(** [left.merge(right, on=on, how="left", indicator=True)]: every row of
    [left], in order, once for each row of [right] with the same key and
    once with missing values when there is none; [_merge] tells which.
    The tables are taken to have no repeated column name: a key column is
    looked up at its first column. *)
Definition merge_left (left right : DataFrame) (on : list string) : result DataFrame :=
  let! _ := select_columns left on in
  let! _ := select_columns right on in
  let right_rest := filter (λ c, negb (str_in c on)) (columns right) in
  let left_rest := filter (λ c, negb (str_in c on)) (columns left) in
  let overlap := filter (λ c, str_in c right_rest) left_rest in
  let! right_values := select_columns right right_rest in
  let right_keyed := zip (row_key right on <$> rows right) (rows right_values) in
  Ok {| columns :=
          (add_suffix overlap "_x" <$> columns left)
            ++ (add_suffix overlap "_y" <$> right_rest) ++ ["_merge"];
        rows :=
          concat ((λ lrow,
                     let matches := filter (λ kr, bool_decide (kr.1 = row_key left on lrow)) right_keyed in
                     match matches with
                     | [] => [lrow ++ replicate (length right_rest) VNaN ++ [VStr "left_only"]]
                     | _ => (λ kr, lrow ++ kr.2 ++ [VStr "both"]) <$> matches
                     end) <$> rows left) |}.

(** ** Concatenation of series ([gluonts_forecasts/utils.py]) *)

(** The key under which the series of one identifier combination are
    collected: [tuple(sorted(identifiers.items()))], or [None]. *)
Definition identifier_key : Type := option (list (string * value)).

Definition item_compare (a b : string * value) : comparison :=
  match String.compare a.1 b.1 with
  | Eq => value_compare a.2 b.2
  | c => c
  end.

Definition timeseries_identifier_key_of (timeseries : Timeseries) : identifier_key :=
  sort_unique item_compare <$> TIMESERIES_KEYS.IDENTIFIERS timeseries.

(** A dictionary from identifier keys, in insertion order. *)
Definition series_dict : Type := list (identifier_key * list TimeFrame).

Fixpoint dict_get (key : identifier_key) (d : series_dict) : option (list TimeFrame) :=
  match d with
  | [] => None
  | (k, v) :: d' => if bool_decide (k = key) then Some v else dict_get key d'
  end.

Fixpoint dict_set (key : identifier_key) (v : list TimeFrame) (d : series_dict) : series_dict :=
  match d with
  | [] => [(key, v)]
  | (k, v') :: d' => if bool_decide (k = key) then (k, v) :: d' else (k, v') :: dict_set key v d'
  end.

(** [d[key] += [x] if key in d else d[key] = [x]] *)
Definition dict_append (key : identifier_key) (x : TimeFrame) (d : series_dict) : series_dict :=
  match dict_get key d with
  | Some v => dict_set key (v ++ [x]) d
  | None => dict_set key [x] d
  end.

Definition concat_timeseries_per_identifiers (all_timeseries : series_dict) : result (list DataFrame) :=
  mapR (λ '(timeseries_identifier_key, series_list),
          let! unique_identifiers := concat_axis1 series_list in
          let unique_identifiers_df := reset_index unique_identifiers in
          Ok (if list_truthy timeseries_identifier_key then
                foldl (λ df '(identifier_key, identifier_value),
                         set_column_scalar df identifier_key identifier_value)
                      unique_identifiers_df (default [] timeseries_identifier_key)
              else unique_identifiers_df))
       all_timeseries.

Definition concat_all_timeseries (multiple_df : list DataFrame) : result DataFrame :=
  concat_axis0 multiple_df.

(** ** External feature checks ([dku_io_utils/dku_checks_utils.py]) *)

(** A dataset of the host platform, as far as the checks look at it: the
    column names of [read_schema()]. *)
Record Dataset := mkDataset {
  read_schema : list string;
}.

(** [str(l)] for a list of strings. *)
Definition py_repr_list (l : list string) : string :=
  "[" +:+ String.concat ", " ((λ c, "'" +:+ c +:+ "'") <$> l) +:+ "]".

Definition schema_error_message (expected_columns : list string) : string :=
  "The dataset of future values of external features must contains exactly the following columns: "
    +:+ py_repr_list expected_columns.

Definition external_features_future_dataset_schema_check (train_data_sample : Timeseries)
    (external_features_future_dataset : Dataset) : result () :=
  let external_features_future_columns := read_schema external_features_future_dataset in
  let! feat_names :=
    getitem "feat_dynamic_real_columns_names"
      (TIMESERIES_KEYS.FEAT_DYNAMIC_REAL_COLUMNS_NAMES train_data_sample) in
  let expected_columns := [TIMESERIES_KEYS.TIME_COLUMN_NAME train_data_sample] ++ feat_names in
  let expected_columns :=
    match TIMESERIES_KEYS.IDENTIFIERS train_data_sample with
    | Some ids => expected_columns ++ ids.*1
    | None => expected_columns
    end in
  if negb (bool_decide (list_to_set external_features_future_columns
                          =@{gset string} list_to_set expected_columns))
  then Raise (ValueError (schema_error_message expected_columns))
  else Ok ().

Definition missing_future_dataset_message : string :=
  "You must provide a dataset of future values of external features.".

Definition unexpected_future_dataset_message : string :=
  "
            A dataset of future values of external features was provided, but no external features were used during training for the selected model.
            Remove this dataset from the recipe inputs or select a model that used external features during training.
        ".

(** [external_features_check]: the future dataset is [None] when the recipe
    has no such input. *)
Definition external_features_check (gluon_train_dataset : ListDataset)
    (external_features_future_dataset : option Dataset) : result bool :=
  let! train_data_sample :=
    match list_data gluon_train_dataset with
    | sample :: _ => Ok sample
    | [] => Raise IndexError
    end in
  let trained_with_external_features :=
    bool_decide (is_Some (TIMESERIES_KEYS.FEAT_DYNAMIC_REAL_COLUMNS_NAMES train_data_sample)) in
  match external_features_future_dataset with
  | Some dataset =>
      if trained_with_external_features then
        let! _ := external_features_future_dataset_schema_check train_data_sample dataset in
        Ok true
      else Raise (ValueError unexpected_future_dataset_message)
  | None =>
      if trained_with_external_features
      then Raise (ValueError missing_future_dataset_message)
      else Ok false
  end.

(** ** Python floats

    The arithmetic the reconstructor does on quantiles, as an interface:
    the results below hold for whatever implements it. *)
Class PyFloat (F : Type) := {
  f_of_Z : Z → F;
  f_sub : F → F → F;
  f_mul : F → F → F;
  f_ltb : F → F → bool;
  f_eqb : F → F → bool;
  (** [round(x)], an integer *)
  f_round : F → Z;
  (** [round(x, ndigits)], a float *)
  f_round_to : Z → F → F;
  f_str : F → string;
}.

(** [min(l)] and [max(l)]: the first element that no later one beats;
    [ValueError] on the empty list. *)
Definition py_min `{PyFloat F} (l : list F) : result F :=
  match l with
  | [] => Raise (ValueError "min() arg is an empty sequence")
  | x :: l' => Ok (foldl (λ m y, if f_ltb y m then y else m) x l')
  end.

Definition py_max `{PyFloat F} (l : list F) : result F :=
  match l with
  | [] => Raise (ValueError "max() arg is an empty sequence")
  | x :: l' => Ok (foldl (λ m y, if f_ltb m y then y else m) x l')
  end.

(** *** Exact rationals as an instance *)

(** Nearest integer, ties to the even one. *)
Definition Q_round (q : Q) : Z :=
  let fl := Qfloor q in
  match Qcompare (q - inject_Z fl) (1 # 2) with
  | Lt => fl
  | Gt => (fl + 1)%Z
  | Eq => if Z.even fl then fl else (fl + 1)%Z
  end.

Definition Q_round_to (ndigits : Z) (q : Q) : Q :=
  let scale := inject_Z (10 ^ ndigits) in
  Qred (inject_Z (Q_round (q * scale)) / scale).

(** The number of decimals needed to print [q], at least one and at most
    [k + fuel]. *)
Fixpoint decimal_places (fuel : nat) (k : Z) (q : Q) : Z :=
  match fuel with
  | O => k
  | S fuel' =>
      if (Zpos (Qden (Qred (q * inject_Z (10 ^ k)))) =? 1)%Z then k
      else decimal_places fuel' (k + 1)%Z q
  end.

Definition Q_str (q : Q) : string :=
  let k := decimal_places 16 1 q in
  let n := Z.abs (Q_round (q * inject_Z (10 ^ k))) in
  let frac := pretty (n mod 10 ^ k)%Z in
  let sign := if (Qnum q <? 0)%Z then "-" else "" in
  sign +:+ pretty (n / 10 ^ k)%Z +:+ "."
    +:+ String.concat "" (replicate (Z.to_nat k - String.length frac) "0") +:+ frac.

#[global] Instance Q_PyFloat : PyFloat Q := {|
  f_of_Z := inject_Z;
  f_sub := λ a b, Qred (a - b);
  f_mul := λ a b, Qred (a * b);
  f_ltb := λ a b, negb (Qle_bool b a);
  f_eqb := Qeq_bool;
  f_round := Q_round;
  f_round_to := Q_round_to;
  f_str := Q_str;
|}.

(** ** Forecast reconstructor ([gluonts_forecasts/trained_model.py]) *)

(** The predictor is opaque; the methods below consult only the prediction
    length it was trained with. *)
Module Predictor.

Record t := mk {
  prediction_length : Z;
}.

End Predictor.

(** A record handed to the logger. *)
Inductive log_record :=
  | Warning (msg : string).

Module TrainedModel.
Section Methods.
Context {F : Type} `{PyFloat F}.

Record t := mk {
  predictor : Predictor.t;
  gluon_dataset : ListDataset;
  prediction_length : Z;
  quantiles : list F;
  include_history : bool;
  time_column_name : option string;
  identifiers_columns : option (list string);
  forecasts_df : option DataFrame;
}.

Definition horizon_check_message (self : t) : string :=
  "Please choose a forecasting horizon lower or equal to the one chosen when training: "
    +:+ pretty (Predictor.prediction_length (predictor self)).

(** Raises [ValueError] if the selected prediction length is higher than
    the one used in training. *)
Definition _check (self : t) : result () :=
  if (Predictor.prediction_length (predictor self) <? prediction_length self)%Z
  then Raise (ValueError (horizon_check_message self))
  else Ok ().

(** [TrainedModel(predictor, gluon_dataset, prediction_length, quantiles,
    include_history)]: the object when the constructor returns. *)
Definition __init__ (predictor_ : Predictor.t) (gluon_dataset_ : ListDataset)
    (prediction_length_ : Z) (quantiles_ : list F) (include_history_ : bool) : result t :=
  let self :=
    {| predictor := predictor_;
       gluon_dataset := gluon_dataset_;
       prediction_length :=
         if (prediction_length_ =? -1)%Z then Predictor.prediction_length predictor_
         else prediction_length_;
       quantiles := quantiles_;
       include_history := include_history_;
       time_column_name := None;
       identifiers_columns := None;
       forecasts_df := None |} in
  let! _ := _check self in
  Ok self.

Definition _generate_history_target_series (self : t) (timeseries : Timeseries)
    (frequency : string) : result TimeFrame :=
  let target := TIMESERIES_KEYS.TARGET timeseries in
  let! padding :=
    (if (prediction_length self <? 0)%Z
     then Raise (ValueError "negative dimensions are not allowed")
     else Ok (replicate (Z.to_nat (prediction_length self)) VNaN)) in
  let! index :=
    date_range_periods_cells (TIMESERIES_KEYS.START timeseries)
      (Z.of_nat (length target) + prediction_length self) frequency in
  make_series (target ++ padding) (TIMESERIES_KEYS.TARGET_NAME timeseries) index.

Definition _generate_history_external_features_dataframe (self : t) (timeseries : Timeseries)
    (frequency : string) : result TimeFrame :=
  let periods := (Z.of_nat (length (TIMESERIES_KEYS.TARGET timeseries)) + prediction_length self)%Z in
  let! feat := getitem "feat_dynamic_real" (TIMESERIES_KEYS.FEAT_DYNAMIC_REAL timeseries) in
  let! names :=
    getitem "feat_dynamic_real_columns_names"
      (TIMESERIES_KEYS.FEAT_DYNAMIC_REAL_COLUMNS_NAMES timeseries) in
  let! index := date_range_periods_cells (TIMESERIES_KEYS.START timeseries) periods frequency in
  make_frame (array_rows_to (Some periods) (transpose feat)) names index.

(** The loop of [_retrieve_history_timeseries]. *)
Fixpoint _retrieve_history_timeseries_loop (self : t) (frequency : string)
    (list_data : list Timeseries) (history_timeseries : series_dict) : result series_dict :=
  match list_data with
  | [] => Ok history_timeseries
  | timeseries :: list_data' =>
      let timeseries_identifier_key := timeseries_identifier_key_of timeseries in
      let! target_series := _generate_history_target_series self timeseries frequency in
      let! history_timeseries :=
        (if bool_decide (is_Some (TIMESERIES_KEYS.FEAT_DYNAMIC_REAL_COLUMNS_NAMES timeseries)) then
           let! feat := getitem "feat_dynamic_real" (TIMESERIES_KEYS.FEAT_DYNAMIC_REAL timeseries) in
           if (Z.of_nat (snd (shape feat))
                 <? Z.of_nat (length (TIMESERIES_KEYS.TARGET timeseries)) + prediction_length self)%Z
           then Raise AssertionError
           else if bool_decide (is_Some (dict_get timeseries_identifier_key history_timeseries))
           then Ok history_timeseries
           else
             let! external_features_df :=
               _generate_history_external_features_dataframe self timeseries frequency in
             Ok (dict_set timeseries_identifier_key [external_features_df] history_timeseries)
         else Ok history_timeseries) in
      _retrieve_history_timeseries_loop self frequency list_data'
        (dict_append timeseries_identifier_key target_series history_timeseries)
  end.

Definition _retrieve_history_timeseries (self : t) (frequency : string) : result series_dict :=
  _retrieve_history_timeseries_loop self frequency (list_data (gluon_dataset self)) [].

(** The first three statements of [_include_history]: the table of the
    historical data. *)
Definition history_df (self : t) (frequency : string) : result DataFrame :=
  let! history_timeseries := _retrieve_history_timeseries self frequency in
  let! multiple_df := concat_timeseries_per_identifiers history_timeseries in
  concat_all_timeseries multiple_df.

(** The columns the history and the forecasts are merged on. *)
Definition merge_columns (self : t) : result (list string) :=
  match identifiers_columns self with
  | Some ids => Ok ("index" :: ids)
  | None => Raise TypeError
  end.

Definition _include_history (self : t) (frequency : string) : result DataFrame :=
  let! history_df := history_df self frequency in
  let! on := merge_columns self in
  match forecasts_df self with
  | Some forecasts => merge_left history_df forecasts on
  | None => Raise TypeError
  end.

(** [_retrieve_confidence_interval]: the percentage, and what was logged. *)
Definition _retrieve_confidence_interval (self : t) : result (Z * list log_record) :=
  let! lower_quantile := py_min (quantiles self) in
  let! upper_quantile := py_max (quantiles self) in
  let confidence_interval := f_round (f_mul (f_sub upper_quantile lower_quantile) (f_of_Z 100)) in
  let log :=
    if negb (f_eqb (f_round_to 2 (f_mul (f_sub (f_of_Z 1) upper_quantile) (f_of_Z 100)))
                   (f_round_to 2 (f_mul lower_quantile (f_of_Z 100))))
    then [Warning ("The output confidence interval is not centered around the median. Lower and upper quantiles are ["
                     +:+ f_str lower_quantile +:+ ", " +:+ f_str upper_quantile +:+ "]")]
    else [] in
  Ok (confidence_interval, log).

(** The description a column receives, if any. *)
Definition column_description (confidence_interval : Z) (column : string) : option string :=
  if str_contains "forecast_lower_" column then
    Some ("Lower bound of the " +:+ pretty confidence_interval +:+ "% forecasts confidence interval.")
  else if str_contains "forecast_upper_" column then
    Some ("Upper bound of the " +:+ pretty confidence_interval +:+ "% forecasts confidence interval.")
  else if str_contains "forecast_" column then
    Some "Median of probabilistic forecasts"
  else None.

(** [create_forecasts_column_description]: [METRICS_COLUMNS_DESCRIPTIONS]
    is the dictionary of [constants.py], passed in; the method writes into
    that very dictionary and returns it, together with what was logged. *)
Definition create_forecasts_column_description (self : t)
    (METRICS_COLUMNS_DESCRIPTIONS : gmap string string)
    : result (gmap string string * list log_record) :=
  let column_descriptions := METRICS_COLUMNS_DESCRIPTIONS in
  let! (confidence_interval, log) := _retrieve_confidence_interval self in
  let! forecasts :=
    match forecasts_df self with
    | Some df => Ok df
    | None => Raise AttributeError
    end in
  Ok (foldl (λ column_descriptions column,
               match column_description confidence_interval column with
               | Some text => <[column := text]> column_descriptions
               | None => column_descriptions
               end)
            column_descriptions (columns forecasts),
      log).

End Methods.
End TrainedModel.

(** ** Forecast reconstructor, continued ([gluonts_forecasts/trained_model.py]) *)

(** More of the arithmetic on quantiles: [abs(x)], [float(s)] on a string,
    which raises when the string is not a number, and the literal [0.5]. *)
Class PyFloatOps (F : Type) `{PyFloat F} := {
  f_abs : F → F;
  f_of_string : string → result F;
  f_half : F;
}.

(** [min(l, key=key)]: the first element whose key no later one beats;
    [ValueError] on the empty list. *)
Definition py_min_key {A F} `{PyFloat F} (key : A → F) (l : list A) : result A :=
  match l with
  | [] => Raise (ValueError "min() arg is an empty sequence")
  | x :: l' => Ok (foldl (λ m y, if f_ltb (key y) (key m) then y else m) x l')
  end.

(** A [gluonts.model.forecast.Forecast], as far as the reconstructor looks
    at it: whether it is a [QuantileForecast], its keys, the series of a
    quantile (or the exception the library raises for it) and its
    frequency. *)
Record Forecast {F : Type} := mkForecast {
  is_quantile_forecast : bool;
  forecast_keys : list string;
  quantile_ts : F → result TimeFrame;
  forecast_freq : string;
}.
Arguments Forecast : clear implicits.

(** [series.rename(name)] *)
Definition rename_series (name : string) (series : TimeFrame) : TimeFrame :=
  {| tf_index := tf_index series; tf_columns := [name]; tf_rows := tf_rows series |}.

(** [series.iloc[:stop]] *)
Definition series_iloc_to (stop : option Z) (series : TimeFrame) : TimeFrame :=
  {| tf_index := slice_to stop (tf_index series);
     tf_columns := tf_columns series;
     tf_rows := slice_to stop (tf_rows series) |}.

Section ForecastMethods.
Context {F : Type} `{PyFloatOps F}.
Implicit Types (self : TrainedModel.t (F := F)).

(** [self.quantiles = quantiles] *)
Definition set_quantiles self (quantiles : list F) : TrainedModel.t (F := F) :=
  {| TrainedModel.predictor := TrainedModel.predictor self;
     TrainedModel.gluon_dataset := TrainedModel.gluon_dataset self;
     TrainedModel.prediction_length := TrainedModel.prediction_length self;
     TrainedModel.quantiles := quantiles;
     TrainedModel.include_history := TrainedModel.include_history self;
     TrainedModel.time_column_name := TrainedModel.time_column_name self;
     TrainedModel.identifiers_columns := TrainedModel.identifiers_columns self;
     TrainedModel.forecasts_df := TrainedModel.forecasts_df self |}.

(** [self.forecasts_df = df] *)
Definition set_forecasts_df self (df : DataFrame) : TrainedModel.t (F := F) :=
  {| TrainedModel.predictor := TrainedModel.predictor self;
     TrainedModel.gluon_dataset := TrainedModel.gluon_dataset self;
     TrainedModel.prediction_length := TrainedModel.prediction_length self;
     TrainedModel.quantiles := TrainedModel.quantiles self;
     TrainedModel.include_history := TrainedModel.include_history self;
     TrainedModel.time_column_name := TrainedModel.time_column_name self;
     TrainedModel.identifiers_columns := TrainedModel.identifiers_columns self;
     TrainedModel.forecasts_df := Some df |}.

(** Find the quantiles that exist in [sample_forecasts] that are closest
    to the selected quantiles. *)
Definition _round_to_existing_quantiles self (sample_forecasts : Forecast F) : result (list F) :=
  let! possible_quantiles := mapR f_of_string (forecast_keys sample_forecasts) in
  mapR (λ quantile, py_min_key (λ x, f_abs (f_sub x quantile)) possible_quantiles)
       (TrainedModel.quantiles self).

Definition forecasts_label_prefix (quantile : F) : string :=
  let forecasts_label_prefix := "forecast" in
  if f_ltb quantile f_half then forecasts_label_prefix +:+ "_lower"
  else if f_ltb f_half quantile then forecasts_label_prefix +:+ "_upper"
  else forecasts_label_prefix.

(** The loop of [_compute_forecasts_timeseries] over the quantiles, for one
    forecast and the record it belongs to. *)
Fixpoint _compute_forecasts_quantiles self (sample_forecasts : Forecast F)
    (timeseries : Timeseries) (quantiles : list F) (forecasts_timeseries : series_dict)
    : result series_dict :=
  match quantiles with
  | [] => Ok forecasts_timeseries
  | quantile :: quantiles' =>
      let! series := quantile_ts sample_forecasts quantile in
      let forecasts_series :=
        series_iloc_to (Some (TrainedModel.prediction_length self))
          (rename_series (forecasts_label_prefix quantile +:+ "_"
                            +:+ TIMESERIES_KEYS.TARGET_NAME timeseries) series) in
      _compute_forecasts_quantiles self sample_forecasts timeseries quantiles'
        (dict_append (timeseries_identifier_key_of timeseries) forecasts_series
           forecasts_timeseries)
  end.

(** The loop of [_compute_forecasts_timeseries] over the forecasts, from
    position [i]. The quantiles of the object are replaced while the first
    forecast is handled, so the object is returned along with the
    dictionary or the exception. *)
Fixpoint _compute_forecasts_timeseries_from self (i : nat) (forecasts_list : list (Forecast F))
    (forecasts_timeseries : series_dict) : TrainedModel.t (F := F) * result series_dict :=
  match forecasts_list with
  | [] => (self, Ok forecasts_timeseries)
  | sample_forecasts :: forecasts_list' =>
      match list_data (TrainedModel.gluon_dataset self) !! i with
      | None => (self, Raise IndexError)
      | Some timeseries =>
          match (if (i =? 0)%nat && is_quantile_forecast sample_forecasts
                 then _round_to_existing_quantiles self sample_forecasts
                 else Ok (TrainedModel.quantiles self)) with
          | Raise e => (self, Raise e)
          | Ok quantiles =>
              let self := set_quantiles self quantiles in
              match _compute_forecasts_quantiles self sample_forecasts timeseries
                      (TrainedModel.quantiles self) forecasts_timeseries with
              | Raise e => (self, Raise e)
              | Ok forecasts_timeseries =>
                  _compute_forecasts_timeseries_from self (S i) forecasts_list'
                    forecasts_timeseries
              end
          end
      end
  end.

(** Compute all forecasts timeseries for each quantile. *)
Definition _compute_forecasts_timeseries self (forecasts_list : list (Forecast F))
    : TrainedModel.t (F := F) * result series_dict :=
  _compute_forecasts_timeseries_from self 0 forecasts_list [].

(** Reorder columns with timeseries identifiers columns right after time
    column. Before [predict] the table and the identifier columns are
    [None], which can be neither iterated nor appended to a list; a time
    column that is [None] is a label the table does not have. *)
Definition _reorder_forecasts_df self : result (TrainedModel.t (F := F)) :=
  match TrainedModel.forecasts_df self, TrainedModel.identifiers_columns self with
  | Some forecasts_df, Some identifiers_columns =>
      match TrainedModel.time_column_name self with
      | Some time_column_name =>
          let leading := [time_column_name] ++ identifiers_columns in
          let forecasts_columns :=
            filter (λ column, negb (str_in column leading)) (columns forecasts_df) in
          let! reordered := select_columns forecasts_df (leading ++ forecasts_columns) in
          Ok (set_forecasts_df self reordered)
      | None => Raise (KeyError "None")
      end
  | _, _ => Raise TypeError
  end.

End ForecastMethods.

(** Decimal notation as [float] reads it, for the exact rationals: digits
    with an optional point. Other notations are outside the model and are
    reported the way [float] reports a string that is not a number. *)
Definition Q_of_string (s : string) : result Q :=
  let '(whole, rest) := span_digits s in
  let '(fraction, rest) :=
    match rest with
    | String "." rest' => span_digits rest'
    | _ => (EmptyString, rest)
    end in
  if String.eqb rest "" && negb (String.eqb (whole +:+ fraction) "") then
    Ok (Qred (inject_Z (digits_value 0 (whole +:+ fraction))
              / inject_Z (10 ^ Z.of_nat (String.length fraction)))%Q)
  else Raise (ValueError ("could not convert string to float: '" +:+ s +:+ "'")).

#[global] Instance Q_PyFloatOps : PyFloatOps Q := {|
  f_abs := λ a, if Qle_bool 0 a then a else Qred (- a)%Q;
  f_of_string := Q_of_string;
  f_half := (1 # 2)%Q;
|}.

(** ** Reference definitions used by the statements *)

(** An offset that [date_range] can step with: every step spans at least
    the resolution, lands on the offset, and is determined by where it
    lands. All the offsets of [to_offset] are such (lemma
    [to_offset_regular]). *)
Class RegularOffset (o : DateOffset) : Prop := {
  resolution_pos : (0 < resolution o)%Z;
  apply_advances : ∀ t, (t + resolution o ≤ apply_offset o t)%Z;
  apply_on_offset : ∀ t, adjust_start o (apply_offset o t) = apply_offset o t;
  apply_inj : ∀ a b,
    adjust_start o a = a → adjust_start o b = b →
    apply_offset o a = apply_offset o b → a = b;
}.

(** A sequence of timestamps is a regular grid when it is what stepping
    from its first timestamp for its length gives. *)
Definition regular_grid (o : DateOffset) (xs : list Z) : Prop :=
  xs = date_range_periods o (hd 0%Z xs) (length xs).

(** The last [k] time steps removed from an array of shape features x
    steps, and from a record. *)
Definition cut_array (k : nat) (a : ndarray) : ndarray :=
  {| shape := (fst (shape a), snd (shape a) - k);
     data := take (snd (shape a) - k) <$> data a |}.

Definition cut_record (k : nat) (timeseries : Timeseries) : Timeseries :=
  {| TIMESERIES_KEYS.START := TIMESERIES_KEYS.START timeseries;
     TIMESERIES_KEYS.TARGET :=
       take (length (TIMESERIES_KEYS.TARGET timeseries) - k) (TIMESERIES_KEYS.TARGET timeseries);
     TIMESERIES_KEYS.TARGET_NAME := TIMESERIES_KEYS.TARGET_NAME timeseries;
     TIMESERIES_KEYS.TIME_COLUMN_NAME := TIMESERIES_KEYS.TIME_COLUMN_NAME timeseries;
     TIMESERIES_KEYS.FEAT_DYNAMIC_REAL := cut_array k <$> TIMESERIES_KEYS.FEAT_DYNAMIC_REAL timeseries;
     TIMESERIES_KEYS.FEAT_DYNAMIC_REAL_COLUMNS_NAMES :=
       TIMESERIES_KEYS.FEAT_DYNAMIC_REAL_COLUMNS_NAMES timeseries;
     TIMESERIES_KEYS.IDENTIFIERS := TIMESERIES_KEYS.IDENTIFIERS timeseries |}.

(** Modelled from the spec: [assert_time_column_valid] of
    [gluonts_forecasts.utils], which the sources import but do not define.
    The time column must be exactly the regular grid stepping from its
    first timestamp at the frequency for its length, and must agree with
    the expected start and number of periods when they are supplied;
    otherwise a continuity error is raised. *)
Definition assert_time_column_valid_spec (df : DataFrame) (time_column_name frequency : string)
    (start_date : option value) (periods : option nat) : result () :=
  let! time_column := get_column df time_column_name in
  let! o := to_offset frequency in
  let regular :=
    match time_column with
    | [] => true
    | VTime s :: _ =>
        bool_decide (time_column = VTime <$> date_range_periods o s (length time_column))
    | _ => false
    end in
  let expected_start :=
    match start_date with
    | Some s => bool_decide (head time_column = Some s)
    | None => true
    end in
  let expected_periods :=
    match periods with
    | Some n => (length time_column =? n)%nat
    | None => true
    end in
  if regular && expected_start && expected_periods then Ok ()
  else Raise (ValueError ("Time column " +:+ time_column_name
                            +:+ " doesn't have regular time intervals of frequency " +:+ frequency)).

(** Rows in ascending order of the cell in column [i], rows with equal
    cells in their original order. *)
Fixpoint insert_row (i : nat) (row : list value) (sorted : list (list value)) : list (list value) :=
  match sorted with
  | [] => [row]
  | r :: sorted' =>
      match value_compare (cell i row) (cell i r) with
      | Lt => row :: sorted
      | _ => r :: insert_row i row sorted'
      end
  end.

Definition sort_rows (i : nat) (rows : list (list value)) : list (list value) :=
  foldl (λ sorted row, insert_row i row sorted) [] rows.

(** Modelled from the spec: [prepare_timeseries_dataframe] of
    [gluonts_forecasts/timeseries_preparation.py], which is not among the
    sources. A normalization step that parses and sorts the time column,
    then validates the table against the time grid validator at the
    frequency. *)
Definition prepare_timeseries_dataframe_spec (df : DataFrame) (time_column_name frequency : string)
    : result DataFrame :=
  let! parsed := bindR (get_column df time_column_name) to_datetime in
  let df := set_column df time_column_name (tz_localize_none parsed) in
  let df :=
    match column_index time_column_name (columns df) with
    | Some i => {| columns := columns df; rows := sort_rows i (rows df) |}
    | None => df
    end in
  let! _ := assert_time_column_valid_spec df time_column_name frequency None None in
  Ok df.

(** A cell that [to_datetime] and [tz_localize(None)] leave as it is. *)
Definition naive_datetime (v : value) : Prop :=
  match v with
  | VTime _ | VNaN => True
  | _ => False
  end.

(** The time column of a table reads [xs] once parsed and made
    timezone-naive, whatever form its cells have; the rows of the table
    have a cell for every column. *)
Definition normalized_time_column (df : DataFrame) (col : string) (xs : list Z) : Prop :=
  ∃ vals parsed,
    get_column df col = Ok vals
    ∧ to_datetime vals = Ok parsed
    ∧ tz_localize_none parsed = VTime <$> xs
    ∧ Forall (λ row, length row = length (columns df)) (rows df).

(** The validator accepts a table: [check_continuous_time_column] returns
    [True] and [assert_continuous_time_column] returns; and rejects it:
    the one returns [False] and the other raises the continuity error. *)
Definition accepts (df : DataFrame) (col unit : string) (step : pyval) : Prop :=
  (check_continuous_time_column df col unit step).2 = Ok true
  ∧ (assert_continuous_time_column df col unit step).2 = Ok ().

Definition rejects (df : DataFrame) (col unit : string) (step : pyval) : Prop :=
  (check_continuous_time_column df col unit step).2 = Ok false
  ∧ (assert_continuous_time_column df col unit step).2
    = Raise (ValueError (continuity_error_message col unit step)).

(** The columns of the right table of a merge that are not merged on. *)
Definition value_columns (right : DataFrame) (on : list string) : list string :=
  filter (λ c, negb (str_in c on)) (columns right).

(** A reconstructor after [predict]: one series of three daily values, a
    horizon of two, and a forecast table that runs one day further than
    the history does. *)
Definition history_example : TrainedModel.t (F := Q) :=
  {| TrainedModel.predictor := Predictor.mk 2;
     TrainedModel.gluon_dataset :=
       mkListDataset
         [TIMESERIES_KEYS.mkTimeseries (VTime 0) [VNum 1; VNum 2; VNum 3] "sales" "date"
            None None None] "1D";
     TrainedModel.prediction_length := 2;
     TrainedModel.quantiles := [1 # 2]%Q;
     TrainedModel.include_history := true;
     TrainedModel.time_column_name := Some "date";
     TrainedModel.identifiers_columns := Some [];
     TrainedModel.forecasts_df :=
       Some (mkDataFrame ["index"; "forecast_sales"]
               [[VTime (3 * NS_PER_DAY); VNum 4];
                [VTime (4 * NS_PER_DAY); VNum 5];
                [VTime (5 * NS_PER_DAY); VNum 6]]) |}.

(** A table with the single column [date] holding the given timestamps. *)
Definition time_table (xs : list Z) : DataFrame :=
  {| columns := ["date"]; rows := (λ t, [VTime t]) <$> xs |}.

(** The month ends of the first quarter of 2020 as text, beside a value. *)
Definition month_ends_table : DataFrame :=
  {| columns := ["date"; "sales"];
     rows := [[VStr "2020-01-31"; VNum 5]; [VStr "2020-02-29"; VNum 6];
              [VStr "2020-03-31"; VNum 7]] |}.

(** The month ends of the first quarter of 2020, at midnight. *)
Definition month_ends_2020 : list Z :=
  [1580428800000000000; 1582934400000000000; 1585612800000000000]%Z.

(** Two stores, numbered 0 and 1, over two days, with two target columns
    and one feature column; and a builder grouping it by store. *)
Definition stores_table : DataFrame :=
  {| columns := ["date"; "store"; "sales"; "visits"; "temp"];
     rows := [[VTime 0; VNum 0; VNum 5; VNum 50; VNum 20];
              [VTime 86400000000000; VNum 0; VNum 6; VNum 60; VNum 21];
              [VTime 0; VNum 1; VNum 7; VNum 70; VNum 20];
              [VTime 86400000000000; VNum 1; VNum 8; VNum 80; VNum 21]] |}.

Definition stores_builder : GluonDataset.t :=
  GluonDataset.mk stores_table "date" "1D" ["sales"; "visits"] (Some ["store"]) (Some ["temp"]).

(** The cell of a row in the column called [name]. *)
Definition row_cell (df : DataFrame) (name : string) (row : list value) : value :=
  match column_index name (columns df) with
  | Some i => cell i row
  | None => VNaN
  end.

(** A row agrees with the identifiers of a record. *)
Definition matches_identifiers (df : DataFrame) (identifiers : list (string * value))
    (row : list value) : bool :=
  forallb (λ kv, cell_eq (row_cell df kv.1 row) kv.2) identifiers.

(** Three days of one series with a feature column, its builder, and the
    feature values of the two days that follow. *)
Definition daily_table : DataFrame :=
  {| columns := ["date"; "sales"; "temp"];
     rows := [[VTime 0; VNum 5; VNum 20];
              [VTime 86400000000000; VNum 6; VNum 21];
              [VTime 172800000000000; VNum 7; VNum 22]] |}.

Definition daily_builder : GluonDataset.t :=
  GluonDataset.mk daily_table "date" "1D" ["sales"] None (Some ["temp"]).

Definition daily_future_table : DataFrame :=
  {| columns := ["date"; "temp"];
     rows := [[VTime 259200000000000; VNum 23]; [VTime 345600000000000; VNum 24]] |}.

(** A reconstructor over a dataset, with a horizon of two and the median
    as only quantile, before [predict]. *)
Definition daily_model (gluon_dataset : ListDataset) : TrainedModel.t (F := Q) :=
  {| TrainedModel.predictor := Predictor.mk 2;
     TrainedModel.gluon_dataset := gluon_dataset;
     TrainedModel.prediction_length := 2;
     TrainedModel.quantiles := [1 # 2]%Q;
     TrainedModel.include_history := true;
     TrainedModel.time_column_name := None;
     TrainedModel.identifiers_columns := None;
     TrainedModel.forecasts_df := None |}.

(** A reconstructor after [predict] on two stores: the forecast table
    has the identifier column after the forecast column. *)
Definition stores_model : TrainedModel.t (F := Q) :=
  {| TrainedModel.predictor := Predictor.mk 2;
     TrainedModel.gluon_dataset := mkListDataset [] "1D";
     TrainedModel.prediction_length := 2;
     TrainedModel.quantiles := [1 # 2]%Q;
     TrainedModel.include_history := false;
     TrainedModel.time_column_name := Some "date";
     TrainedModel.identifiers_columns := Some ["store"];
     TrainedModel.forecasts_df :=
       Some (mkDataFrame ["date"; "forecast_sales"; "store"]
               [[VTime 0; VNum 4; VStr "a"]; [VTime 0; VNum 5; VStr "b"]]) |}.

(** Every series kept in a dictionary of series. *)
Definition all_series (d : series_dict) : list TimeFrame := concat d.*2.

(** A forecast of three days whose series do not depend on the quantile. *)
Definition three_day_forecast : Forecast Q :=
  {| is_quantile_forecast := false;
     forecast_keys := [];
     quantile_ts := λ _,
       Ok {| tf_index := [259200000000000; 345600000000000; 432000000000000]%Z;
             tf_columns := ["0"];
             tf_rows := [[VNum 8]; [VNum 9]; [VNum 10]] |};
     forecast_freq := "1D" |}.

(** Two stores, the second with one day less than the first. *)
Definition ragged_builder : GluonDataset.t :=
  GluonDataset.mk
    {| columns := ["date"; "store"; "sales"];
       rows := [[VTime 0; VStr "a"; VNum 5];
                [VTime 86400000000000; VStr "a"; VNum 6];
                [VTime 0; VStr "b"; VNum 7]] |}
    "date" "1D" ["sales"] (Some ["store"]) None.

(** Two cells are of one kind: both text, both integers, both naive
    timestamps or both timezone-aware timestamps; the missing value goes
    with any of them. A column is of one kind when its cells are, two by
    two. *)
Definition same_kind (a b : value) : bool :=
  match a, b with
  | VNaN, _ | _, VNaN => true
  | VNum _, VNum _ | VStr _, VStr _ | VTime _, VTime _ | VTimeTz _ _, VTimeTz _ _ => true
  | _, _ => false
  end.

Definition one_kind (vals : list value) : bool :=
  forallb (λ a, forallb (same_kind a) vals) vals.

(** * Properties *)

(** ** Sequencing *)

Lemma bindR_Ok {A B} (m : result A) (f : A → result B) (b : B) :
  bindR m f = Ok b ↔ ∃ a, m = Ok a ∧ f a = Ok b.
Proof.
  destruct m as [a | e]; cbn; split.
  - eauto.
  - by intros (? & [= <-] & ?).
  - discriminate.
  - by intros (? & [=] & ?).
Qed.

(** ** Construction of the reconstructor *)

Section Construction.
Context {F : Type} `{PyFloat F}.
Implicit Types (p : Predictor.t) (ds : ListDataset) (q : list F) (h : bool).

Lemma init_effective_length p ds pl q h self :
  TrainedModel.__init__ p ds pl q h = Ok self →
  TrainedModel.prediction_length self
    = (if (pl =? -1)%Z then Predictor.prediction_length p else pl)
  ∧ TrainedModel.predictor self = p
  ∧ TrainedModel.forecasts_df self = None.
Proof.
  unfold TrainedModel.__init__, TrainedModel._check, bindR; cbn.
  destruct (_ <? _)%Z; [discriminate |].
  intros [= <-]; cbn. done.
Qed.

Lemma init_ok_iff p ds pl q h :
  (∃ self, TrainedModel.__init__ p ds pl q h = Ok self)
  ↔ (pl = -1 ∨ pl ≤ Predictor.prediction_length p)%Z.
Proof.
  unfold TrainedModel.__init__, TrainedModel._check, bindR; cbn.
  destruct (Z.eqb_spec pl (-1)) as [-> | Hne].
  - rewrite Z.ltb_irrefl. split; eauto.
  - destruct (Z.ltb_spec (Predictor.prediction_length p) pl).
    + split; [intros [? [=]] | lia].
    + split; eauto.
Qed.

(** C5. A requested prediction length above the one the predictor was
    trained with makes the constructor raise a [ValueError] whose message
    ends with the trained length; a requested length at most the trained
    one makes it return an object, on which no forecast has been computed.
    The trained length of a predictor is positive. *)
Theorem construction_checks_horizon p ds pl q h :
  (0 < Predictor.prediction_length p)%Z →
  ((Predictor.prediction_length p < pl)%Z →
     TrainedModel.__init__ p ds pl q h
       = Raise (ValueError
           ("Please choose a forecasting horizon lower or equal to the one chosen when training: "
              +:+ pretty (Predictor.prediction_length p))))
  ∧ ((pl ≤ Predictor.prediction_length p)%Z →
     ∃ self, TrainedModel.__init__ p ds pl q h = Ok self
             ∧ TrainedModel.forecasts_df self = None).
Proof.
  intros Hpos. split.
  - intros Hlt.
    unfold TrainedModel.__init__, TrainedModel._check, TrainedModel.horizon_check_message, bindR; cbn.
    destruct (Z.eqb_spec pl (-1)) as [-> | _]; [lia |].
    destruct (Z.ltb_spec (Predictor.prediction_length p) pl); [done | lia].
  - intros Hle.
    destruct (proj2 (init_ok_iff p ds pl q h)) as [self Hself]; [lia |].
    exists self. split; [done |].
    by destruct (init_effective_length _ _ _ _ _ _ Hself) as (_ & _ & ?).
Qed.

(** C10. With the sentinel [-1] the constructor returns an object whose
    prediction length is the predictor's trained one, so the horizon check
    passes; any other requested length is the one checked and stored. *)
Theorem sentinel_uses_trained_length p ds q h :
  (∃ self, TrainedModel.__init__ p ds (-1) q h = Ok self
           ∧ TrainedModel.prediction_length self = Predictor.prediction_length p)
  ∧ ∀ pl, pl ≠ (-1)%Z →
      ((pl ≤ Predictor.prediction_length p)%Z →
         ∃ self, TrainedModel.__init__ p ds pl q h = Ok self
                 ∧ TrainedModel.prediction_length self = pl)
      ∧ ((Predictor.prediction_length p < pl)%Z →
         ∃ e, TrainedModel.__init__ p ds pl q h = Raise e).
Proof.
  split.
  - destruct (proj2 (init_ok_iff p ds (-1) q h)) as [self Hself]; [by left |].
    exists self. split; [done |].
    by destruct (init_effective_length _ _ _ _ _ _ Hself) as (-> & _).
  - intros pl Hne. split.
    + intros Hle.
      destruct (proj2 (init_ok_iff p ds pl q h)) as [self Hself]; [by right |].
      exists self. split; [done |].
      destruct (init_effective_length _ _ _ _ _ _ Hself) as (-> & _).
      by destruct (Z.eqb_spec pl (-1)).
    + intros Hlt.
      destruct (TrainedModel.__init__ p ds pl q h) as [self | e] eqn:E; [| by eexists].
      assert (pl = -1 ∨ pl ≤ Predictor.prediction_length p)%Z
        by (apply (proj1 (init_ok_iff p ds pl q h)); eauto).
      lia.
Qed.

End Construction.

Lemma construction_checks_horizon_witness :
  (0 < 12)%Z
  ∧ TrainedModel.__init__ (F := Q) (Predictor.mk 12) (mkListDataset [] "1D") 13 [] false
      = Raise (ValueError
          "Please choose a forecasting horizon lower or equal to the one chosen when training: 12")
  ∧ ∃ self, TrainedModel.__init__ (F := Q) (Predictor.mk 12) (mkListDataset [] "1D") 12 [] false
              = Ok self
            ∧ TrainedModel.forecasts_df self = None.
Proof.
  pose proof (construction_checks_horizon (F := Q) (Predictor.mk 12) (mkListDataset [] "1D")) as Hc.
  split; [lia |]. split.
  - apply (Hc 13%Z [] false); cbn; lia.
  - apply (Hc 12%Z [] false); cbn; lia.
Defined.

Lemma sentinel_uses_trained_length_witness :
  ∃ self, TrainedModel.__init__ (F := Q) (Predictor.mk 12) (mkListDataset [] "1D") 5 [] false
            = Ok self
          ∧ TrainedModel.prediction_length self = 5%Z.
Proof.
  apply (sentinel_uses_trained_length (F := Q) (Predictor.mk 12) (mkListDataset [] "1D") [] false);
    cbn; lia.
Defined.

(** ** External feature consistency *)

(** C7. [external_features_check] on a training dataset with at least one
    record: external features used in training and no future dataset is an
    error; a future dataset and no external features in training is an
    error with another message; both present is [True] once the schema
    check passes; both absent is [False]. *)
Theorem external_features_check_consistency (sample : Timeseries) (rest : list Timeseries)
    (frequency : string) (dataset : Dataset) :
  let train := {| list_data := sample :: rest; freq := frequency |} in
  let trained := is_Some (TIMESERIES_KEYS.FEAT_DYNAMIC_REAL_COLUMNS_NAMES sample) in
  (trained →
     external_features_check train None = Raise (ValueError missing_future_dataset_message))
  ∧ (¬ trained →
     external_features_check train (Some dataset)
       = Raise (ValueError unexpected_future_dataset_message))
  ∧ (trained →
     external_features_future_dataset_schema_check sample dataset = Ok () →
     external_features_check train (Some dataset) = Ok true)
  ∧ (¬ trained → external_features_check train None = Ok false)
  ∧ missing_future_dataset_message ≠ unexpected_future_dataset_message.
Proof.
  intros train trained. unfold external_features_check, bindR; cbn.
  fold trained. repeat split.
  - intros Ht. by rewrite bool_decide_eq_true_2.
  - intros Ht. by rewrite bool_decide_eq_false_2.
  - intros Ht Hs. rewrite bool_decide_eq_true_2 by done. by rewrite Hs.
  - intros Ht. by rewrite bool_decide_eq_false_2.
  - discriminate.
Qed.

Lemma external_features_check_consistency_witness :
  let with_features :=
    TIMESERIES_KEYS.mkTimeseries (VTime 0) [VNum 1] "sales" "date"
      (Some {| shape := (1, 1)%nat; data := [[VNum 7]] |}) (Some ["temp"]) None in
  let without_features :=
    TIMESERIES_KEYS.mkTimeseries (VTime 0) [VNum 1] "sales" "date" None None None in
  let future := {| read_schema := ["temp"; "date"] |} in
  external_features_check (mkListDataset [with_features] "1D") None
    = Raise (ValueError missing_future_dataset_message)
  ∧ external_features_check (mkListDataset [without_features] "1D") (Some future)
    = Raise (ValueError unexpected_future_dataset_message)
  ∧ external_features_check (mkListDataset [with_features] "1D") (Some future) = Ok true
  ∧ external_features_check (mkListDataset [without_features] "1D") None = Ok false.
Proof.
  intros with_features without_features future.
  pose proof (external_features_check_consistency with_features [] "1D" future)
    as (Hmissing & _ & Hboth & _).
  pose proof (external_features_check_consistency without_features [] "1D" future)
    as (_ & Hunexpected & _ & Hnone & _).
  split; [apply Hmissing; by eexists |].
  split; [apply Hunexpected; by intros [? [=]] |].
  split; [apply Hboth; [by eexists | by vm_compute] |].
  apply Hnone. by intros [? [=]].
Defined.

(** ** Column descriptions *)

Section Descriptions.
Context {F : Type} `{PyFloat F}.

Lemma describe_lookup (ci : Z) (cols : list string) (base : gmap string string) (c : string) :
  foldl (λ column_descriptions column,
           match TrainedModel.column_description ci column with
           | Some text => <[column := text]> column_descriptions
           | None => column_descriptions
           end) base cols !! c
  = match TrainedModel.column_description ci c with
    | Some text => if decide (c ∈ cols) then Some text else base !! c
    | None => base !! c
    end.
Proof.
  revert base. induction cols as [| a cols IH]; intros base; cbn.
  - destruct (TrainedModel.column_description ci c); [| done].
    rewrite decide_False; [done | apply not_elem_of_nil].
  - rewrite IH. destruct (TrainedModel.column_description ci c) as [text |] eqn:Ec.
    + destruct (decide (c ∈ cols)) as [Hin | Hnin].
      * rewrite decide_True; [done | by right].
      * destruct (decide (a = c)) as [-> | Hne].
        -- rewrite Ec, lookup_insert_eq. rewrite decide_True; [done | by left].
        -- rewrite decide_False by (intros [->|?]%elem_of_cons; done).
           destruct (TrainedModel.column_description ci a); [| done].
           by rewrite lookup_insert_ne.
    + destruct (TrainedModel.column_description ci a) as [text |] eqn:Ea; [| done].
      rewrite lookup_insert_ne; [done |]. intros ->. congruence.
Qed.

(** C9. With at least one quantile and a forecast table, the descriptions
    are returned whatever the quantiles: a lower or upper forecast column
    is described with the percentage [round((max - min) * 100)], the other
    entries are as the percentage and the column names alone determine;
    the comparison of [1 - max] with [min] at two decimals only decides
    whether one warning is logged. *)
Theorem confidence_interval_description (self : TrainedModel.t)
    (base : gmap string string) (df : DataFrame) :
  TrainedModel.quantiles self ≠ [] →
  TrainedModel.forecasts_df self = Some df →
  ∃ lower upper descriptions log,
    py_min (TrainedModel.quantiles self) = Ok lower
    ∧ py_max (TrainedModel.quantiles self) = Ok upper
    ∧ TrainedModel.create_forecasts_column_description self base = Ok (descriptions, log)
    ∧ let confidence_interval := f_round (f_mul (f_sub upper lower) (f_of_Z 100)) in
      let centered :=
        f_eqb (f_round_to 2 (f_mul (f_sub (f_of_Z 1) upper) (f_of_Z 100)))
              (f_round_to 2 (f_mul lower (f_of_Z 100))) in
      (∀ c, c ∈ columns df → str_contains "forecast_lower_" c →
            descriptions !! c
              = Some ("Lower bound of the " +:+ pretty confidence_interval
                        +:+ "% forecasts confidence interval."))
      ∧ (∀ c, c ∈ columns df → ¬ str_contains "forecast_lower_" c →
              str_contains "forecast_upper_" c →
              descriptions !! c
                = Some ("Upper bound of the " +:+ pretty confidence_interval
                          +:+ "% forecasts confidence interval."))
      ∧ (∀ c, descriptions !! c
                = match TrainedModel.column_description confidence_interval c with
                  | Some text => if decide (c ∈ columns df) then Some text else base !! c
                  | None => base !! c
                  end)
      ∧ (centered = true → log = [])
      ∧ (centered = false → ∃ msg, log = [Warning msg]).
Proof.
  intros Hq Hdf.
  destruct (TrainedModel.quantiles self) as [| q0 qs] eqn:Eq; [done |].
  eexists _, _, _, _. split; [reflexivity |]. split; [reflexivity |].
  unfold TrainedModel.create_forecasts_column_description,
    TrainedModel._retrieve_confidence_interval, bindR.
  rewrite Eq, Hdf; cbn. split; [reflexivity |].
  split; [| split; [| split; [| split]]].
  - intros c Hin Hlow. rewrite describe_lookup.
    unfold TrainedModel.column_description. rewrite (Is_true_true_1 _ Hlow).
    by rewrite decide_True.
  - intros c Hin Hlow Hup. rewrite describe_lookup.
    unfold TrainedModel.column_description.
    destruct (str_contains "forecast_lower_" c); [by destruct Hlow |].
    rewrite (Is_true_true_1 _ Hup). by rewrite decide_True.
  - intros c. apply describe_lookup.
  - intros ->. done.
  - intros ->. cbn. by eexists.
Qed.

End Descriptions.

Lemma confidence_interval_description_witness :
  let self :=
    TrainedModel.mk (F := Q) (Predictor.mk 2) (mkListDataset [] "1D") 2
      [1 # 10; 1 # 2; 9 # 10]%Q false (Some "date") (Some [])
      (Some (mkDataFrame ["index"; "forecast_lower_sales"; "forecast_sales"; "forecast_upper_sales"] [])) in
  ∃ descriptions,
    TrainedModel.create_forecasts_column_description self ∅ = Ok (descriptions, [])
    ∧ descriptions !! "forecast_lower_sales"
        = Some "Lower bound of the 80% forecasts confidence interval."
    ∧ descriptions !! "forecast_upper_sales"
        = Some "Upper bound of the 80% forecasts confidence interval.".
Proof.
  intros self.
  destruct (confidence_interval_description self ∅
              (mkDataFrame ["index"; "forecast_lower_sales"; "forecast_sales"; "forecast_upper_sales"] []))
    as (lower & upper & descriptions & log & Hmin & Hmax & Hrun & Hlow & Hup & _ & Hcentered & _);
    [done | done |].
  injection Hmin as <-. injection Hmax as <-.
  exists descriptions. split; [| split].
  - rewrite Hrun. f_equal. f_equal. by apply Hcentered.
  - rewrite (Hlow "forecast_lower_sales"); [done | | done].
    apply list_elem_of_In. cbn. tauto.
  - rewrite (Hup "forecast_upper_sales"); [done | | by intros [] | done].
    apply list_elem_of_In. cbn. tauto.
Defined.

(** ** Tables: columns read and written *)

Lemma mapR_length {A B} (f : A → result B) (l : list A) (k : list B) :
  mapR f l = Ok k → length k = length l.
Proof.
  revert k. induction l as [| x l IH]; intros k; cbn.
  - by intros [= <-].
  - intros (y & _ & (ys & Hys & [= <-])%bindR_Ok)%bindR_Ok. cbn. f_equal. eauto.
Qed.

Lemma column_index_lookup (name : string) (cols : list string) (i : nat) :
  column_index name cols = Some i → cols !! i = Some name.
Proof.
  revert i. induction cols as [| c cols IH]; intros i; cbn; [done |].
  destruct (String.eqb_spec c name) as [-> | _].
  - by intros [= <-].
  - destruct (column_index name cols); cbn; [| done]. intros [= <-]. cbn. eauto.
Qed.

Lemma cell_insert_ne (i j : nat) (v : value) (row : list value) :
  i ≠ j → cell j (<[i := v]> row) = cell j row.
Proof. intros Hne. unfold cell. by rewrite !nth_lookup, list_lookup_insert_ne. Qed.

Lemma cell_insert_id (i : nat) (row : list value) : <[i := cell i row]> row = row.
Proof.
  unfold cell. rewrite nth_lookup.
  destruct (row !! i) as [v |] eqn:E; cbn.
  - by apply list_insert_id.
  - apply list_insert_ge. by apply lookup_ge_None.
Qed.

Lemma get_column_length (df : DataFrame) (name : string) (vals : list value) :
  get_column df name = Ok vals → length vals = nrows df.
Proof.
  unfold get_column, nrows. destruct (column_index _ _); [| done].
  intros [= <-]. by rewrite length_fmap.
Qed.

Lemma set_column_columns (df : DataFrame) (name : string) (vals : list value) :
  is_Some (column_index name (columns df)) →
  columns (set_column df name vals) = columns df.
Proof. intros [i Hi]. unfold set_column. by rewrite Hi. Qed.

Lemma set_column_other (df : DataFrame) (name c : string) (vals : list value) :
  is_Some (column_index name (columns df)) →
  length vals = nrows df →
  c ≠ name →
  get_column (set_column df name vals) c = get_column df c.
Proof.
  intros [i Hi] Hlen Hne. unfold get_column, set_column. rewrite Hi; cbn.
  destruct (column_index c (columns df)) as [j |] eqn:Hj; [| done].
  f_equal.
  assert (i ≠ j) as Hij.
  { intros ->. apply column_index_lookup in Hi, Hj. congruence. }
  unfold nrows in Hlen. revert vals Hlen.
  induction (rows df) as [| row rs IH]; intros [| v vals] Hlen; cbn in *; try done.
  rewrite cell_insert_ne by done. f_equal. apply IH. lia.
Qed.

Lemma set_column_same (df : DataFrame) (name : string) (vals : list value) :
  get_column df name = Ok vals → set_column df name vals = df.
Proof.
  unfold get_column, set_column. destruct (column_index _ _) as [i |]; [| done].
  intros [= <-]. destruct df as [cols rs]; cbn. f_equal.
  induction rs as [| row rs IH]; cbn; [done |].
  by rewrite cell_insert_id, IH.
Qed.

Lemma get_set_column (df : DataFrame) (name : string) (vals : list value) :
  is_Some (column_index name (columns df)) →
  length vals = nrows df →
  Forall (λ row, length row = length (columns df)) (rows df) →
  get_column (set_column df name vals) name = Ok vals.
Proof.
  intros [i Hi] Hlen Hwf. unfold get_column, set_column. rewrite Hi; cbn. rewrite Hi.
  f_equal. apply column_index_lookup, lookup_lt_Some in Hi.
  unfold nrows in Hlen. revert vals Hlen.
  induction Hwf as [| row rs Hrow _ IH]; intros [| v vals] Hlen; cbn in *; try done.
  f_equal; [| apply IH; lia].
  unfold cell. rewrite nth_lookup, list_lookup_insert_eq by lia. done.
Qed.

(** ** Side effect of the validation *)

Lemma normalize_naive (vals : list value) :
  Forall naive_datetime vals →
  to_datetime vals = Ok vals ∧ tz_localize_none vals = vals.
Proof.
  unfold to_datetime, tz_localize_none.
  induction 1 as [| v vals Hv _ [IH1 IH2]]; cbn; [done |].
  rewrite IH1, IH2. by destruct v.
Qed.

Lemma check_continuous_time_column_frame (df : DataFrame) (col unit : string) (step : pyval) :
  (check_continuous_time_column df col unit step).1
  = match bindR (get_column df col) to_datetime with
    | Ok parsed => set_column df col (tz_localize_none parsed)
    | Raise _ => df
    end.
Proof. unfold check_continuous_time_column. by destruct (bindR _ _). Qed.

Lemma assert_continuous_time_column_frame (df : DataFrame) (col unit : string) (step : pyval) :
  (assert_continuous_time_column df col unit step).1
  = (check_continuous_time_column df col unit step).1.
Proof. unfold assert_continuous_time_column. by destruct (check_continuous_time_column _ _ _ _). Qed.

(** C3, as stated, fails: validating a table whose time column holds text
    or timezone-aware timestamps rewrites that column in the caller's
    table. *)
Lemma validation_rewrites_time_column :
  let text := mkDataFrame ["date"; "y"] [[VStr "2020-01-31"; VNum 1]; [VStr "2020-02-29"; VNum 2]] in
  let aware := mkDataFrame ["date"] [[VTimeTz 0 3600000000000]; [VTimeTz 86400000000000 3600000000000]] in
  (check_continuous_time_column text "date" "M" (PyInt 1)).1
    = mkDataFrame ["date"; "y"]
        [[VTime 1580428800000000000; VNum 1]; [VTime 1582934400000000000; VNum 2]]
  ∧ (check_continuous_time_column text "date" "M" (PyInt 1)).1 ≠ text
  ∧ (check_continuous_time_column aware "date" "D" (PyInt 1)).1 ≠ aware.
Proof. vm_compute. by repeat split. Qed.

(** C3, amended. The validation writes the parsed, timezone-naive
    timestamps into the time column of the caller's table and touches
    nothing else: the column names and every other column are as before,
    and a table whose time column already holds naive timestamps is
    unchanged. [assert_continuous_time_column] leaves the table as
    [check_continuous_time_column] does. *)
Theorem validation_only_normalizes_time_column (df : DataFrame) (col unit : string) (step : pyval) :
  let df' := (check_continuous_time_column df col unit step).1 in
  (assert_continuous_time_column df col unit step).1 = df'
  ∧ columns df' = columns df
  ∧ (∀ c, c ≠ col → get_column df' c = get_column df c)
  ∧ (∀ vals, get_column df col = Ok vals → Forall naive_datetime vals → df' = df)
  ∧ (∀ vals parsed,
       get_column df col = Ok vals → to_datetime vals = Ok parsed →
       Forall (λ row, length row = length (columns df)) (rows df) →
       get_column df' col = Ok (tz_localize_none parsed)).
Proof.
  intros df'. split; [apply assert_continuous_time_column_frame |].
  subst df'. rewrite check_continuous_time_column_frame.
  destruct (get_column df col) as [vals | e] eqn:Hcol; cbn;
    [| by repeat split].
  assert (is_Some (column_index col (columns df))) as Hidx.
  { unfold get_column in Hcol. by destruct (column_index _ _). }
  destruct (to_datetime vals) as [parsed | e] eqn:Hparsed.
  - assert (length (tz_localize_none parsed) = nrows df) as Hlen.
    { unfold tz_localize_none. rewrite length_fmap.
      rewrite (mapR_length _ _ _ Hparsed). by apply get_column_length in Hcol. }
    split; [by apply set_column_columns |].
    split; [intros c Hc; by apply set_column_other |].
    split.
    + intros ? [= <-] Hnaive.
      destruct (normalize_naive _ Hnaive) as [Hp Hl].
      assert (parsed = vals) as -> by congruence.
      rewrite Hl. by apply set_column_same.
    + intros ? parsed' [= <-] Hparsed' Hwf.
      assert (parsed' = parsed) as -> by congruence.
      by apply get_set_column.
  - split; [done |]. split; [done |]. split; [done |].
    intros ? ? [= <-]. congruence.
Qed.

Lemma validation_only_normalizes_time_column_witness :
  let df := mkDataFrame ["date"; "y"] [[VTime 0; VNum 1]; [VTime 86400000000000; VNum 2]] in
  (check_continuous_time_column df "date" "D" (PyInt 1)).1 = df
  ∧ get_column (check_continuous_time_column df "date" "D" (PyInt 1)).1 "y"
      = Ok [VNum 1; VNum 2].
Proof.
  intros df.
  pose proof (validation_only_normalizes_time_column df "date" "D" (PyInt 1))
    as (_ & _ & Hother & Hsame & _).
  split.
  - apply (Hsame [VTime 0; VTime 86400000000000]); [reflexivity |].
    repeat constructor.
  - rewrite (Hother "y"); [reflexivity | discriminate].
Defined.

(** ** Ranges of timestamps *)

Section Ranges.
Local Open Scope Z_scope.
Context (o : DateOffset).

Lemma generate_range_unfold (fuel : nat) (cur stop : Z) :
  generate_range o fuel cur stop
  = if stop <? cur then Ok []
    else if cur =? stop then Ok [cur]
    else match fuel with
         | O => Raise (ValueError "date_range: out of fuel")
         | S fuel' =>
             let next := apply_offset o cur in
             if next <=? cur then Raise (ValueError "Offset did not increment date")
             else let! rest := generate_range o fuel' next stop in Ok (cur :: rest)
         end.
Proof. by destruct fuel. Qed.

(** What the loop returns is the sequence of steps from where it
    started. *)
Lemma generate_range_iterate (fuel : nat) (cur stop : Z) (xs : list Z) :
  generate_range o fuel cur stop = Ok xs → xs = iterate_offset o (length xs) cur.
Proof.
  revert cur xs. induction fuel as [| fuel IH]; intros cur xs; rewrite generate_range_unfold.
  - destruct (stop <? cur); [by intros [= <-] |].
    destruct (cur =? stop); [by intros [= <-] | done].
  - destruct (stop <? cur); [by intros [= <-] |].
    destruct (cur =? stop); [by intros [= <-] |].
    cbn. destruct (_ <=? _); [done |].
    intros (rest & Hrest & [= <-])%bindR_Ok. cbn. f_equal. by apply IH.
Qed.

Lemma iterate_offset_length (n : nat) (cur : Z) : length (iterate_offset o n cur) = n.
Proof. revert cur. induction n; intros; cbn; auto. Qed.

Lemma iterate_offset_lookup_S (n i : nat) (cur a b : Z) :
  iterate_offset o n cur !! i = Some a →
  iterate_offset o n cur !! S i = Some b →
  b = apply_offset o a.
Proof.
  revert cur i. induction n as [| n IH]; intros cur i; [done |].
  destruct i as [| i]; cbn.
  - intros [= <-]. destruct n; cbn; [done | by intros [= <-]].
  - apply IH.
Qed.

Lemma iterate_offset_take (n m : nat) (cur : Z) :
  (m ≤ n)%nat → take m (iterate_offset o n cur) = iterate_offset o m cur.
Proof.
  revert m cur. induction n as [| n IH]; intros [| m] cur Hm; cbn; try done; [lia |].
  f_equal. apply IH. lia.
Qed.

Context `{!RegularOffset o}.

Lemma apply_offset_lt (t : Z) : t < apply_offset o t.
Proof. pose proof resolution_pos. pose proof (apply_advances t). lia. Qed.

Lemma iterate_offset_last_ge (n : nat) (cur stop : Z) :
  last (iterate_offset o n cur) = Some stop → cur ≤ stop.
Proof.
  revert cur. induction n as [| n IH]; intros cur; [done |].
  destruct n as [| n]; [cbn; intros [= <-]; lia |].
  change (iterate_offset o (S (S n)) cur)
    with (cur :: iterate_offset o (S n) (apply_offset o cur)).
  rewrite last_cons.
  destruct (last (iterate_offset o (S n) (apply_offset o cur))) as [l |] eqn:El.
  - intros [= <-]. apply IH in El. pose proof (apply_offset_lt cur). lia.
  - intros [= <-]. lia.
Qed.

Lemma fuel_step (cur stop : Z) (fuel : nat) :
  apply_offset o cur ≤ stop →
  (Z.to_nat ((stop - cur) / resolution o) < S fuel)%nat →
  (Z.to_nat ((stop - apply_offset o cur) / resolution o) < fuel)%nat.
Proof.
  intros Hle Hfuel. pose proof resolution_pos as Hres. pose proof (apply_advances cur) as Hadv.
  assert ((stop - apply_offset o cur) / resolution o + 1 ≤ (stop - cur) / resolution o).
  { rewrite <- (Z.div_add _ 1) by lia. apply Z.div_le_mono; lia. }
  assert (0 ≤ (stop - apply_offset o cur) / resolution o) by (apply Z.div_pos; lia).
  lia.
Qed.

(** With the fuel [date_range] gives it, the loop does not raise. *)
Lemma generate_range_fuel (fuel : nat) (cur stop : Z) :
  (Z.to_nat ((stop - cur) / resolution o) < fuel)%nat →
  ∃ xs, generate_range o fuel cur stop = Ok xs.
Proof.
  revert cur. induction fuel as [| fuel IH]; intros cur Hfuel; [lia |].
  rewrite generate_range_unfold.
  destruct (Z.ltb_spec stop cur); [by eexists |].
  destruct (Z.eqb_spec cur stop); [by eexists |].
  cbn. pose proof (apply_offset_lt cur).
  destruct (Z.leb_spec (apply_offset o cur) cur); [lia |].
  destruct (Z.le_gt_cases (apply_offset o cur) stop) as [Hle | Hgt].
  - destruct (IH (apply_offset o cur)) as [rest ->]; [by apply fuel_step |]. by eexists.
  - rewrite generate_range_unfold.
    destruct (Z.ltb_spec stop (apply_offset o cur)); [cbn; by eexists | lia].
Qed.

(** Stepping [n] times and stopping at the last timestamp reached gives
    back the steps. *)
Lemma generate_range_complete (n fuel : nat) (cur stop : Z) :
  last (iterate_offset o (S n) cur) = Some stop →
  (Z.to_nat ((stop - cur) / resolution o) < fuel)%nat →
  generate_range o fuel cur stop = Ok (iterate_offset o (S n) cur).
Proof.
  revert fuel cur. induction n as [| n IH]; intros fuel cur Hlast Hfuel;
    rewrite generate_range_unfold.
  - cbn in Hlast. injection Hlast as <-.
    rewrite Z.ltb_irrefl, Z.eqb_refl. done.
  - change (iterate_offset o (S (S n)) cur)
      with (cur :: iterate_offset o (S n) (apply_offset o cur)) in *.
    rewrite last_cons in Hlast.
    destruct (last (iterate_offset o (S n) (apply_offset o cur))) as [l |] eqn:El;
      [| cbn in El; rewrite last_cons in El; by destruct (last _)].
    injection Hlast as ->.
    pose proof (iterate_offset_last_ge _ _ _ El). pose proof (apply_offset_lt cur).
    destruct (Z.ltb_spec stop cur); [lia |].
    destruct (Z.eqb_spec cur stop); [lia |].
    destruct fuel as [| fuel]; [lia |]. cbn.
    destruct (Z.leb_spec (apply_offset o cur) cur); [lia |].
    rewrite (IH fuel (apply_offset o cur) El); [done |]. by apply fuel_step.
Qed.

Lemma regular_grid_head (xs : list Z) :
  regular_grid o xs → xs ≠ [] → adjust_start o (hd 0 xs) = hd 0 xs.
Proof.
  unfold regular_grid, date_range_periods. destruct xs as [| x xs]; [done |].
  cbn. by intros [= <- _].
Qed.

Lemma regular_grid_iterate (xs : list Z) :
  regular_grid o xs → xs ≠ [] → xs = iterate_offset o (length xs) (hd 0 xs).
Proof.
  intros Hreg Hne. pose proof Hreg as Hiter.
  unfold regular_grid, date_range_periods in Hiter.
  by rewrite (regular_grid_head xs Hreg Hne) in Hiter.
Qed.

Lemma iterate_regular_grid (n : nat) (cur : Z) :
  adjust_start o cur = cur → regular_grid o (iterate_offset o n cur).
Proof.
  intros Hcur. unfold regular_grid, date_range_periods. rewrite iterate_offset_length.
  destruct n; [done |]. cbn. by rewrite Hcur.
Qed.

(** [date_range] between the first and the last timestamp of a sequence
    returns the sequence exactly when the sequence is a regular grid. *)
Lemma date_range_regular_grid (xs : list Z) (first last_ : Z) :
  head xs = Some first → last xs = Some last_ →
  ∃ r, date_range o first last_ = Ok r ∧ (r = xs ↔ regular_grid o xs).
Proof.
  intros Hfirst Hlast. unfold date_range.
  destruct (generate_range_fuel
              (S (Z.to_nat ((last_ - adjust_start o first) / resolution o)))
              (adjust_start o first) last_) as [r Hr]; [lia |].
  exists r. split; [done |].
  assert (xs ≠ []) as Hne by (by destruct xs).
  assert (hd 0 xs = first) as Hhd by (destruct xs; cbn in *; congruence).
  split.
  - intros <-. pose proof (generate_range_iterate _ _ _ _ Hr) as Hiter.
    unfold regular_grid, date_range_periods. by rewrite Hhd.
  - intros Hreg. pose proof (regular_grid_head xs Hreg Hne) as Hfix.
    rewrite Hhd in Hfix. rewrite Hfix in Hr.
    pose proof (regular_grid_iterate xs Hreg Hne) as Hiter. rewrite Hhd in Hiter.
    destruct (length xs) as [| n] eqn:Hn; [by destruct xs |].
    rewrite Hiter in Hlast.
    rewrite (generate_range_complete n _ first last_ Hlast) in Hr by lia.
    congruence.
Qed.

End Ranges.

(** ** Perturbed grids *)

Section Perturbations.
Local Open Scope Z_scope.
Context (o : DateOffset) `{!RegularOffset o}.
Implicit Types (xs : list Z) (i : nat).

Lemma regular_grid_step xs i (a b : Z) :
  regular_grid o xs → xs !! i = Some a → xs !! S i = Some b → b = apply_offset o a.
Proof. intros Hreg. rewrite Hreg. apply iterate_offset_lookup_S. Qed.

Lemma regular_grid_increasing xs i (a b : Z) :
  regular_grid o xs → xs !! i = Some a → xs !! S i = Some b → a < b.
Proof.
  intros Hreg Ha Hb. rewrite (regular_grid_step _ _ _ _ Hreg Ha Hb). apply (apply_offset_lt o).
Qed.

Lemma duplicate_not_regular xs i :
  (i < length xs)%nat → ¬ regular_grid o (take (S i) xs ++ drop i xs).
Proof.
  intros Hi Hreg. destruct (lookup_lt_is_Some_2 xs i Hi) as [a Ha].
  assert (a < a); [| lia].
  apply (regular_grid_increasing _ i a a Hreg).
  - rewrite lookup_app_l by (rewrite length_take; lia). by rewrite lookup_take_lt by lia.
  - rewrite lookup_app_r by (rewrite length_take; lia).
    rewrite length_take, lookup_drop. rewrite <- Ha. f_equal. lia.
Qed.

Lemma shift_not_regular xs i (t : Z) :
  regular_grid o xs → (2 ≤ length xs)%nat → (i < length xs)%nat → xs !! i ≠ Some t →
  ¬ regular_grid o (<[i := t]> xs).
Proof.
  intros Hxs Hlen Hi Hne Hys.
  destruct xs as [| x0 [| x1 xs]]; cbn in Hlen; try lia.
  destruct i as [| i].
  - cbn in Hys, Hne.
    pose proof (regular_grid_head o _ Hxs ltac:(done)) as Hx0.
    pose proof (regular_grid_head o _ Hys ltac:(done)) as Ht. cbn in Hx0, Ht.
    pose proof (regular_grid_step _ 0%nat x0 x1 Hxs eq_refl eq_refl) as Hx1.
    pose proof (regular_grid_step _ 0%nat t x1 Hys eq_refl eq_refl) as Hx1'.
    apply Hne. f_equal. apply (apply_inj (o := o)); congruence.
  - apply Hne. rewrite <- (list_lookup_insert_eq _ (S i) t Hi). f_equal.
    symmetry. etrans; [by apply (regular_grid_iterate o _ Hys) |].
    rewrite length_insert. symmetry. by apply (regular_grid_iterate o _ Hxs).
Qed.

Lemma drop_inside_not_regular xs i :
  regular_grid o xs → (0 < i)%nat → (S i < length xs)%nat → ¬ regular_grid o (delete i xs).
Proof.
  intros Hxs Hpos Hi Hys.
  assert (length (delete i xs) = (length xs - 1)%nat) as Hlen.
  { rewrite length_delete; [done |]. apply lookup_lt_is_Some_2. lia. }
  assert (hd 0 (delete i xs) = hd 0 xs) as Hhd.
  { destruct xs as [| x xs]; [done |]. destruct i; [lia | done]. }
  assert (delete i xs = take (length xs - 1) xs) as Htake.
  { rewrite (regular_grid_iterate o _ Hys) by (intros E; rewrite E in Hlen; cbn in Hlen; lia).
    rewrite Hlen, Hhd.
    rewrite (regular_grid_iterate o _ Hxs) at 4 by (intros ->; cbn in Hi; lia).
    rewrite iterate_offset_take; [done | lia]. }
  destruct (lookup_lt_is_Some_2 xs i ltac:(lia)) as [a Ha].
  destruct (lookup_lt_is_Some_2 xs (S i) Hi) as [b Hb].
  pose proof (regular_grid_increasing _ _ _ _ Hxs Ha Hb).
  assert (delete i xs !! i = Some b) as Hdel by (rewrite list_lookup_delete_ge by lia; done).
  rewrite Htake, lookup_take_lt in Hdel by lia.
  assert (a = b) by congruence. lia.
Qed.

Lemma drop_first_regular xs :
  regular_grid o xs → (2 ≤ length xs)%nat → regular_grid o (delete 0%nat xs).
Proof.
  intros Hxs Hlen. rewrite (regular_grid_iterate o _ Hxs) by (intros ->; cbn in Hlen; lia).
  destruct (length xs) as [| n]; [lia |]. cbn.
  apply iterate_regular_grid. apply apply_on_offset.
Qed.

Lemma drop_last_regular xs :
  regular_grid o xs → (2 ≤ length xs)%nat → regular_grid o (delete (length xs - 1)%nat xs).
Proof.
  intros Hxs Hlen. pose proof (regular_grid_head o _ Hxs ltac:(intros ->; cbn in Hlen; lia)) as Hhd.
  rewrite delete_take_drop, drop_ge, app_nil_r by lia.
  rewrite (regular_grid_iterate o _ Hxs) at 2 by (intros ->; cbn in Hlen; lia).
  rewrite iterate_offset_take by lia. by apply iterate_regular_grid.
Qed.

End Perturbations.

(** ** The verdict of the validator *)

Lemma fmap_VTime_inj (xs ys : list Z) : VTime <$> xs = VTime <$> ys → xs = ys.
Proof.
  revert ys. induction xs as [| x xs IH]; intros [| y ys]; cbn; try done.
  intros [= -> ?]. f_equal. eauto.
Qed.

Lemma naive_timestamps (xs : list Z) : Forall naive_datetime (VTime <$> xs).
Proof. by apply Forall_fmap, Forall_true. Qed.

(** Once the time column is normalised, the verdict is whether it is a
    regular grid. *)
Lemma check_normalized_time_column_verdict (df : DataFrame) (col unit : string) (step : pyval)
    (o : DateOffset) (xs : list Z) :
  to_offset (frequency_of step unit) = Ok o →
  RegularOffset o →
  get_column df col = Ok (VTime <$> xs) →
  xs ≠ [] →
  ∃ verdict,
    check_normalized_time_column df col unit step = Ok verdict
    ∧ (verdict = true ↔ regular_grid o xs).
Proof.
  intros Hoffset Hregular Hcol Hne.
  unfold check_normalized_time_column. rewrite Hcol; cbn.
  destruct xs as [| first xs'] eqn:Exs; [done |]. rewrite <- Exs in *.
  assert (head xs = Some first) as Hfirst by (by rewrite Exs).
  destruct (last xs) as [last_ |] eqn:Hlast; [| by rewrite Exs, last_cons in Hlast; destruct (last xs')].
  assert (iloc_first (VTime <$> xs) = Ok (VTime first)) as -> by (by rewrite Exs).
  assert (iloc_last (VTime <$> xs) = Ok (VTime last_)) as ->
    by (unfold iloc_last; by rewrite fmap_last, Hlast).
  cbn [bindR]. unfold date_range_cells. rewrite Hoffset. cbn [bindR].
  destruct (date_range_regular_grid o xs first last_ Hfirst Hlast) as (r & -> & Hr).
  cbn [bindR].
  destruct (decide (r = xs)) as [-> | Hdiff].
  - exists true. rewrite bool_decide_eq_true_2 by done.
    rewrite (get_column_length _ _ _ Hcol), Nat.eqb_refl. cbn.
    split; [done |]. split; [by intros; apply Hr | done].
  - exists false. rewrite (bool_decide_eq_false_2 (_ = _)).
    + rewrite orb_true_r. split; [done |]. split; [done |]. intros ?%Hr. done.
    + intros Heq. apply Hdiff. symmetry. by apply fmap_VTime_inj.
Qed.

(** The validator writes the normalised timestamps into the time column
    and answers whether they are a regular grid. *)
Lemma check_continuous_time_column_verdict (df : DataFrame) (col unit : string) (step : pyval)
    (o : DateOffset) (xs : list Z) :
  to_offset (frequency_of step unit) = Ok o →
  RegularOffset o →
  normalized_time_column df col xs →
  xs ≠ [] →
  ∃ verdict,
    check_continuous_time_column df col unit step
      = (set_column df col (VTime <$> xs), Ok verdict)
    ∧ (verdict = true ↔ regular_grid o xs).
Proof.
  intros Hoffset Hregular (vals & parsed & Hcol & Hparsed & Hlocal & Hrows) Hne.
  assert (is_Some (column_index col (columns df))) as Hidx.
  { unfold get_column in Hcol. by destruct (column_index _ _). }
  assert (length (VTime <$> xs) = nrows df) as Hlen.
  { rewrite <- Hlocal. unfold tz_localize_none. rewrite length_fmap.
    rewrite (mapR_length _ _ _ Hparsed). by apply get_column_length in Hcol. }
  destruct (check_normalized_time_column_verdict
              (set_column df col (VTime <$> xs)) col unit step o xs Hoffset Hregular)
    as (verdict & Hcheck & Hverdict); [by apply get_set_column | done |].
  exists verdict. split; [| done].
  unfold check_continuous_time_column. rewrite Hcol; cbn [bindR].
  by rewrite Hparsed, Hlocal, Hcheck.
Qed.

Lemma naive_normalized (df : DataFrame) (col : string) (xs : list Z) :
  get_column df col = Ok (VTime <$> xs) →
  Forall (λ row, length row = length (columns df)) (rows df) →
  normalized_time_column df col xs.
Proof.
  intros Hcol Hrows. destruct (normalize_naive _ (naive_timestamps xs)) as [Hparse Hlocal].
  by exists (VTime <$> xs), (VTime <$> xs).
Qed.

(** C1, as stated, fails: a regular daily grid without its last timestamp
    is again a regular grid, and is accepted. *)
Lemma dropping_last_timestamp_is_accepted :
  let grid := [0; 86400000000000; 172800000000000]%Z in
  let dropped := delete 2%nat grid in
  regular_grid (Tick 86400000000000) grid
  ∧ (check_continuous_time_column (mkDataFrame ["date"] ((λ t, [VTime t]) <$> dropped))
       "date" "D" (PyInt 1)).2 = Ok true.
Proof. by vm_compute. Qed.

(** ** The calendar *)

Section Calendar.
Local Open Scope Z_scope.

(** Arithmetic with quotients and remainders by constants. *)
Local Ltac div_lia := Z.div_mod_to_equations; lia.

Lemma strictly_increasing (f : Z → Z) :
  (∀ k, f k < f (k + 1)) → ∀ j k, j < k → f j < f k.
Proof.
  intros Hstep j k Hjk.
  assert (∀ m : nat, f j < f (j + 1 + Z.of_nat m)) as Hall.
  { induction m as [| m IH].
    - rewrite Z.add_0_r. apply Hstep.
    - replace (j + 1 + Z.of_nat (S m)) with (j + 1 + Z.of_nat m + 1) by lia.
      pose proof (Hstep (j + 1 + Z.of_nat m)). lia. }
  replace k with (j + 1 + Z.of_nat (Z.to_nat (k - j - 1))) by lia. apply Hall.
Qed.

Lemma increasing (f : Z → Z) :
  (∀ k, f k < f (k + 1)) → ∀ j k, j ≤ k → f j ≤ f k.
Proof.
  intros Hstep j k Hjk. destruct (Z.eq_dec j k) as [-> | Hne]; [lia |].
  pose proof (strictly_increasing f Hstep j k). lia.
Qed.

Lemma increasing_inj (f : Z → Z) :
  (∀ k, f k < f (k + 1)) → ∀ j k, f j = f k → j = k.
Proof.
  intros Hstep j k Heq.
  destruct (Z.lt_trichotomy j k) as [Hlt | [-> | Hgt]]; [| done |].
  - pose proof (strictly_increasing f Hstep j k Hlt). lia.
  - pose proof (strictly_increasing f Hstep k j Hgt). lia.
Qed.

(** A month has 28 to 31 days. *)
Lemma month_start_step (k : Z) : 28 ≤ month_start (k + 1) - month_start k ≤ 31.
Proof. unfold month_start. cbv zeta. div_lia. Qed.

Lemma month_start_lt (k : Z) : month_start k < month_start (k + 1).
Proof. pose proof (month_start_step k). lia. Qed.

Lemma month_start_guess (d : Z) :
  month_start (if 0 <=? d then d / 31 else d / 28) ≤ d.
Proof.
  destruct (Z.leb_spec 0 d); unfold month_start; cbv zeta; div_lia.
Qed.

Lemma month_scan_spec (d : Z) (fuel : nat) (k : Z) :
  month_start k ≤ d →
  (Z.to_nat (d - month_start k) ≤ fuel)%nat →
  month_start (month_scan fuel k d) ≤ d < month_start (month_scan fuel k d + 1).
Proof.
  revert k. induction fuel as [| fuel IH]; intros k Hk Hfuel; cbn.
  - pose proof (month_start_lt k). lia.
  - destruct (Z.leb_spec (month_start (k + 1)) d); [| lia].
    apply IH; [done |]. pose proof (month_start_lt k). lia.
Qed.

(** [month_of_day d] is the month that day [d] falls in. *)
Lemma month_of_day_spec (d : Z) :
  month_start (month_of_day d) ≤ d < month_start (month_of_day d + 1).
Proof.
  unfold month_of_day. cbv zeta. apply month_scan_spec; [apply month_start_guess | lia].
Qed.

(** *** Days and clock *)

Lemma NS_PER_DAY_pos : 0 < NS_PER_DAY.
Proof. done. Qed.

Lemma day_of_at_day (d tod : Z) : 0 ≤ tod < NS_PER_DAY → day_of (at_day d tod) = d.
Proof.
  unfold day_of, at_day. intros Htod. pose proof NS_PER_DAY_pos.
  symmetry. apply (Z.div_unique _ _ d tod); lia.
Qed.

Lemma time_of_day_at_day (d tod : Z) : 0 ≤ tod < NS_PER_DAY → time_of_day (at_day d tod) = tod.
Proof.
  unfold time_of_day, at_day. intros Htod.
  symmetry. apply (Z.mod_unique _ _ d tod); lia.
Qed.

Lemma time_of_day_bound (t : Z) : 0 ≤ time_of_day t < NS_PER_DAY.
Proof. apply Z.mod_pos_bound, NS_PER_DAY_pos. Qed.

Lemma at_day_of (t : Z) : at_day (day_of t) (time_of_day t) = t.
Proof.
  unfold at_day, day_of, time_of_day. pose proof NS_PER_DAY_pos.
  rewrite (Z.div_mod t NS_PER_DAY) at 3 by lia. lia.
Qed.

Lemma at_day_le (d d' tod : Z) : d + 1 ≤ d' → at_day d tod + NS_PER_DAY ≤ at_day d' tod.
Proof. unfold at_day. pose proof NS_PER_DAY_pos. nia. Qed.

(** *** Anchored offsets *)

Section AnchoredLaws.
Context (boundary k_of : Z → Z).
Hypothesis boundary_step : ∀ k, boundary k < boundary (k + 1).
Hypothesis k_of_spec : ∀ d, boundary (k_of d - 1) < d ≤ boundary (k_of d).

Lemma k_of_boundary (k : Z) : k_of (boundary k) = k.
Proof.
  pose proof (k_of_spec (boundary k)) as [Hlo Hhi].
  destruct (Z.lt_trichotomy (k_of (boundary k)) k) as [Hlt | [-> | Hgt]]; [| done |].
  - pose proof (strictly_increasing boundary boundary_step _ _ Hlt). lia.
  - pose proof (increasing boundary boundary_step k (k_of (boundary k) - 1)). lia.
Qed.

Lemma anchored_on_spec (t : Z) :
  anchored_on boundary k_of t = true ↔ boundary (k_of (day_of t)) = day_of t.
Proof. unfold anchored_on. apply Z.eqb_eq. Qed.

Lemma anchored_apply_day (n t : Z) :
  1 ≤ n →
  ∃ k, day_of t + 1 ≤ boundary k
       ∧ anchored_apply boundary k_of n t = at_day (boundary k) (time_of_day t)
       ∧ (anchored_on boundary k_of t = true → k = k_of (day_of t) + n).
Proof.
  intros Hn. unfold anchored_apply. cbv zeta.
  pose proof (k_of_spec (day_of t)) as [_ Hhi].
  destruct (anchored_on boundary k_of t) eqn:Hon.
  - apply anchored_on_spec in Hon. eexists. split; [| done].
    pose proof (strictly_increasing boundary boundary_step (k_of (day_of t)) (k_of (day_of t) + n)).
    lia.
  - eexists. split; [| done].
    assert (boundary (k_of (day_of t)) ≠ day_of t).
    { intros Heq. apply anchored_on_spec in Heq. congruence. }
    pose proof (increasing boundary boundary_step (k_of (day_of t)) (k_of (day_of t) + (n - 1))).
    lia.
Qed.

Lemma anchored_apply_advances (n t : Z) :
  1 ≤ n → t + NS_PER_DAY ≤ anchored_apply boundary k_of n t.
Proof.
  intros Hn. destruct (anchored_apply_day n t Hn) as (k & Hk & -> & _).
  rewrite <- (at_day_of t) at 1. by apply at_day_le.
Qed.

Lemma anchored_apply_on (n t : Z) :
  1 ≤ n → anchored_on boundary k_of (anchored_apply boundary k_of n t) = true.
Proof.
  intros Hn. destruct (anchored_apply_day n t Hn) as (k & Hk & -> & _).
  apply anchored_on_spec.
  rewrite day_of_at_day by apply time_of_day_bound. by rewrite k_of_boundary.
Qed.

Lemma anchored_regular (n : Z) : 1 ≤ n → RegularOffset (Anchored boundary k_of n).
Proof.
  intros Hn. split; cbn.
  - apply NS_PER_DAY_pos.
  - intros t. by apply anchored_apply_advances.
  - intros t. unfold adjust_start; cbn. by rewrite anchored_apply_on.
  - intros a b. unfold adjust_start; cbn.
    assert (∀ t, (if anchored_on boundary k_of t then t else anchored_apply boundary k_of 1 t) = t →
                 anchored_on boundary k_of t = true) as Hfix.
    { intros t. destruct (anchored_on boundary k_of t); [done |].
      pose proof (anchored_apply_advances 1 t ltac:(lia)). pose proof NS_PER_DAY_pos. lia. }
    intros Ha%Hfix Hb%Hfix.
    destruct (anchored_apply_day n a Hn) as (ka & _ & -> & Hka).
    destruct (anchored_apply_day n b Hn) as (kb & _ & -> & Hkb).
    rewrite (Hka Ha), (Hkb Hb). intros Heq.
    assert (boundary (k_of (day_of a) + n) = boundary (k_of (day_of b) + n)) as Hday.
    { rewrite <- (day_of_at_day (boundary (k_of (day_of a) + n)) (time_of_day a))
        by apply time_of_day_bound.
      rewrite Heq. apply day_of_at_day, time_of_day_bound. }
    assert (time_of_day a = time_of_day b) as Htod.
    { rewrite <- (time_of_day_at_day (boundary (k_of (day_of a) + n)) (time_of_day a))
        by apply time_of_day_bound.
      rewrite Heq. apply time_of_day_at_day, time_of_day_bound. }
    apply (increasing_inj boundary boundary_step) in Hday.
    apply anchored_on_spec in Ha, Hb.
    rewrite <- (at_day_of a), <- (at_day_of b), Htod. f_equal.
    rewrite <- Ha, <- Hb. f_equal. lia.
Qed.

End AnchoredLaws.

Lemma tick_regular (d : Z) : 0 < d → RegularOffset (Tick d).
Proof.
  intros Hd. split; cbn; [done | intros; lia | done | intros; lia].
Qed.

Lemma week_regular (n : Z) : 1 ≤ n → RegularOffset (Week n).
Proof.
  apply anchored_regular; unfold week_end, week_of_day; intros; div_lia.
Qed.

Lemma month_end_regular (n : Z) : 1 ≤ n → RegularOffset (MonthEnd n).
Proof.
  apply anchored_regular; unfold month_end.
  - intros k. pose proof (month_start_lt (k + 1)). lia.
  - intros d. pose proof (month_of_day_spec d).
    replace (month_of_day d - 1 + 1) with (month_of_day d) by lia. lia.
Qed.

(** Period ends every [s] months. *)
Lemma period_end_regular (s n : Z) :
  1 ≤ s → 1 ≤ n →
  RegularOffset (Anchored (λ k, month_end (s * k + (s - 1))) (λ d, month_of_day d / s) n).
Proof.
  intros Hs. apply anchored_regular; unfold month_end.
  - intros k. pose proof (strictly_increasing month_start month_start_lt
                            (s * k + (s - 1) + 1) (s * (k + 1) + (s - 1) + 1)). nia.
  - intros d. pose proof (month_of_day_spec d) as [Hlo Hhi].
    assert (s * (month_of_day d / s) ≤ month_of_day d < s * (month_of_day d / s) + s)
      as [Hq1 Hq2].
    { pose proof (Z.mul_div_le (month_of_day d) s). pose proof (Z.mul_succ_div_gt (month_of_day d) s).
      lia. }
    pose proof (increasing month_start month_start_lt
                  (s * (month_of_day d / s - 1) + (s - 1) + 1) (month_of_day d)).
    pose proof (increasing month_start month_start_lt
                  (month_of_day d + 1) (s * (month_of_day d / s) + (s - 1) + 1)).
    nia.
Qed.

Lemma quarter_end_regular (n : Z) : 1 ≤ n → RegularOffset (QuarterEnd n).
Proof. apply (period_end_regular 3). lia. Qed.

Lemma year_end_regular (n : Z) : 1 ≤ n → RegularOffset (YearEnd n).
Proof. apply (period_end_regular 12). lia. Qed.

(** Every offset that [to_offset] returns is regular. *)
Lemma to_offset_regular (frequency : string) (o : DateOffset) :
  to_offset frequency = Ok o → RegularOffset o.
Proof.
  unfold to_offset. destruct (span_digits frequency) as [ds alias].
  set (n := if String.eqb ds "" then 1 else digits_value 0 ds).
  destruct (Z.ltb_spec n 1); [done |].
  assert (0 < NS_PER_SECOND) by done. assert (0 < NS_PER_DAY) by done.
  repeat match goal with
         | |- (if ?c then _ else _) = _ → _ => destruct c
         end;
    try discriminate; intros [= <-];
    first [ apply tick_regular; nia
          | by apply week_regular
          | by apply month_end_regular
          | by apply quarter_end_regular
          | by apply year_end_regular ].
Qed.

End Calendar.

(** ** The time grid validator *)

Lemma verdict_accepts (df df' : DataFrame) (col unit : string) (step : pyval) :
  check_continuous_time_column df col unit step = (df', Ok true) → accepts df col unit step.
Proof.
  intros Hcheck. unfold accepts, assert_continuous_time_column. by rewrite Hcheck.
Qed.

Lemma verdict_rejects (df df' : DataFrame) (col unit : string) (step : pyval) :
  check_continuous_time_column df col unit step = (df', Ok false) → rejects df col unit step.
Proof.
  intros Hcheck. unfold rejects, assert_continuous_time_column. by rewrite Hcheck.
Qed.

Lemma regular_accepted (df : DataFrame) (col unit : string) (step : pyval)
    (o : DateOffset) (xs : list Z) :
  to_offset (frequency_of step unit) = Ok o →
  normalized_time_column df col xs → xs ≠ [] →
  regular_grid o xs → accepts df col unit step.
Proof.
  intros Hoffset Hcol Hne Hreg.
  destruct (check_continuous_time_column_verdict df col unit step o xs Hoffset
              (to_offset_regular _ _ Hoffset) Hcol Hne) as (verdict & Hcheck & Hverdict).
  eapply verdict_accepts. rewrite Hcheck. by rewrite (proj2 Hverdict Hreg).
Qed.

Lemma irregular_rejected (df : DataFrame) (col unit : string) (step : pyval)
    (o : DateOffset) (xs : list Z) :
  to_offset (frequency_of step unit) = Ok o →
  normalized_time_column df col xs → xs ≠ [] →
  ¬ regular_grid o xs → rejects df col unit step.
Proof.
  intros Hoffset Hcol Hne Hreg.
  destruct (check_continuous_time_column_verdict df col unit step o xs Hoffset
              (to_offset_regular _ _ Hoffset) Hcol Hne) as (verdict & Hcheck & Hverdict).
  eapply verdict_rejects. rewrite Hcheck.
  destruct verdict; [| done]. destruct Hreg. by apply Hverdict.
Qed.

(** C1, amended. At a frequency of the model, a table whose time column
    reads, once parsed and made timezone-naive, as a non-empty regular
    grid is accepted. It is rejected when the column reads as a grid of at
    least two timestamps with one of them replaced by another value, as a
    grid with one timestamp duplicated, or as a grid without one of its
    timestamps other than the first and the last. It is accepted when the
    column reads as a grid of at least two timestamps without its first or
    its last: what remains is a regular grid. *)
Theorem time_grid_validator (col unit : string) (step : pyval) (o : DateOffset) (xs : list Z) :
  to_offset (frequency_of step unit) = Ok o →
  regular_grid o xs →
  xs ≠ [] →
  (∀ df, normalized_time_column df col xs → accepts df col unit step)
  ∧ (∀ df i t,
       (2 ≤ length xs)%nat → (i < length xs)%nat → xs !! i ≠ Some t →
       normalized_time_column df col (<[i := t]> xs) → rejects df col unit step)
  ∧ (∀ df i,
       (i < length xs)%nat →
       normalized_time_column df col (take (S i) xs ++ drop i xs) →
       rejects df col unit step)
  ∧ (∀ df i,
       (0 < i)%nat → (S i < length xs)%nat →
       normalized_time_column df col (delete i xs) → rejects df col unit step)
  ∧ (∀ df i,
       (2 ≤ length xs)%nat → i = 0%nat ∨ S i = length xs →
       normalized_time_column df col (delete i xs) → accepts df col unit step).
Proof.
  intros Hoffset Hreg Hne.
  pose proof (to_offset_regular _ _ Hoffset) as Hlaws.
  split; [| split; [| split; [| split]]].
  - intros df Hcol. by eapply regular_accepted.
  - intros df i t Hlen Hi Ht Hcol. eapply irregular_rejected; [done | done | |].
    + intros Hnil. apply (f_equal length) in Hnil. rewrite length_insert in Hnil.
      cbn in Hnil. lia.
    + by apply shift_not_regular.
  - intros df i Hi Hcol. eapply irregular_rejected; [done | done | |].
    + destruct xs; [done |]. done.
    + by apply duplicate_not_regular.
  - intros df i Hpos Hi Hcol. eapply irregular_rejected; [done | done | |].
    + intros Hnil. apply (f_equal length) in Hnil.
      rewrite length_delete in Hnil by (apply lookup_lt_is_Some_2; lia). cbn in Hnil. lia.
    + by apply drop_inside_not_regular.
  - intros df i Hlen Hends Hcol. eapply regular_accepted; [done | done | |].
    + intros Hnil. apply (f_equal length) in Hnil.
      rewrite length_delete in Hnil by (apply lookup_lt_is_Some_2; lia). cbn in Hnil. lia.
    + destruct Hends as [-> | Hlast]; [by apply drop_first_regular |].
      replace i with (length xs - 1)%nat by lia. by apply drop_last_regular.
Qed.

Lemma time_grid_validator_witness :
  accepts month_ends_table "date" "M" (PyInt 1)
  ∧ rejects (time_table (<[1%nat := 1581724800000000000%Z]> month_ends_2020)) "date" "M" (PyInt 1)
  ∧ rejects (time_table (delete 1%nat month_ends_2020)) "date" "M" (PyInt 1)
  ∧ accepts (time_table (delete 2%nat month_ends_2020)) "date" "M" (PyInt 1).
Proof.
  destruct (time_grid_validator "date" "M" (PyInt 1) (MonthEnd 1) month_ends_2020)
    as (Hgrid & Hshift & _ & Hinside & Hends).
  - reflexivity.
  - vm_compute. reflexivity.
  - discriminate.
  - split.
    { apply Hgrid. eexists _, _. split; [reflexivity |].
      split; [vm_compute; reflexivity |]. split; [reflexivity |].
      by repeat constructor. }
    split.
    { apply (Hshift _ 1%nat 1581724800000000000%Z); [cbn; lia | cbn; lia | discriminate |].
      apply naive_normalized; [reflexivity | by repeat constructor]. }
    split.
    { apply (Hinside _ 1%nat); [lia | cbn; lia |].
      apply naive_normalized; [reflexivity | by repeat constructor]. }
    apply (Hends _ 2%nat); [cbn; lia | by right |].
    apply naive_normalized; [reflexivity | by repeat constructor].
Defined.

(** C2. A table of mid-month dates fails the validation at the monthly
    frequency [1M], and the error raised says that the timestamps must be
    end of Year, not of Month: the unit name is chosen by comparing the
    step, not the unit, with ['M']. So it is for every step with which
    [M] makes a frequency. *)
Theorem month_frequency_error_names_year :
  let df := mkDataFrame ["date"] [[VStr "2020-01-15"]; [VStr "2020-02-15"]; [VStr "2020-03-15"]] in
  (assert_continuous_time_column df "date" "M" (PyInt 1)).2
    = Raise (ValueError
        "Time column date doesn't have regular time intervals of frequency 1M.For Year frequency, timestamps must be end of Year (for e.g. '2020-12-31 00:00:00')")
  ∧ ∀ col step o,
      to_offset (frequency_of step "M") = Ok o →
      continuity_error_message col "M" step
      = ("Time column " +:+ col +:+ " doesn't have regular time intervals of frequency "
           +:+ frequency_of step "M" +:+ ".")
          +:+ "For Year frequency, timestamps must be end of Year (for e.g. '2020-12-31 00:00:00')".
Proof.
  split; [by vm_compute |]. intros col step o Hoffset.
  unfold continuity_error_message. cbn [str_in existsb String.eqb Ascii.eqb Bool.eqb orb].
  destruct step as [| n | s]; try reflexivity.
  cbn [py_eq]. destruct (String.eqb_spec s "M") as [-> | _]; [| reflexivity].
  vm_compute in Hoffset. discriminate.
Qed.

Lemma month_frequency_error_names_year_witness :
  continuity_error_message "date" "M" (PyInt 3)
  = "Time column date doesn't have regular time intervals of frequency 3M.For Year frequency, timestamps must be end of Year (for e.g. '2020-12-31 00:00:00')".
Proof.
  destruct month_frequency_error_names_year as [_ Hmessage].
  rewrite (Hmessage "date" (PyInt 3) (MonthEnd 3)); reflexivity.
Defined.

(** ** Truncation by [cut_length] *)

Lemma slice_to_cut {A} (k : Z) (l : list A) :
  (0 < k)%Z → slice_to (Some (- k)%Z) l = take (length l - Z.to_nat k) l.
Proof.
  intros Hk. unfold slice_to.
  destruct (Z.leb_spec 0 (- k)); [lia |]. by rewrite Z.opp_involutive.
Qed.

Lemma transpose_cut (k : Z) (df : DataFrame) :
  (0 < k)%Z →
  transpose (values (iloc_to (Some (- k)%Z) df)) = cut_array (Z.to_nat k) (transpose (values df)).
Proof.
  intros Hk. unfold iloc_to. rewrite slice_to_cut by done.
  unfold transpose, cut_array, values, nrows; cbn.
  rewrite length_take. f_equal.
  - f_equal. lia.
  - rewrite <- list_fmap_compose. apply list_fmap_ext. intros _ j _. cbn.
    by rewrite fmap_take.
Qed.

Lemma mapR_fmap {A B} (f g : A → result B) (h : B → B) (l : list A) (ys : list B) :
  (∀ x y, f x = Ok y → g x = Ok (h y)) →
  mapR f l = Ok ys → mapR g l = Ok (h <$> ys).
Proof.
  intros Hfg. revert ys. induction l as [| x l IH]; intros ys; cbn.
  - by intros [= <-].
  - intros (y & Hy & (ys' & Hys & [= <-])%bindR_Ok)%bindR_Ok.
    by rewrite (Hfg _ _ Hy), (IH _ Hys).
Qed.

Lemma mapR_Forall2 {A B} (f : A → result B) (l : list A) (k : list B) :
  mapR f l = Ok k ↔ Forall2 (λ x y, f x = Ok y) l k.
Proof.
  revert k. induction l as [| x l IH]; intros k; cbn.
  - split; [intros [= <-]; constructor | by intros ->%Forall2_nil_inv_l].
  - split.
    + intros (y & Hy & (ys & Hys & [= <-])%bindR_Ok)%bindR_Ok.
      constructor; [done | by apply IH].
    + intros (y & ys & Hy & Hys & ->)%Forall2_cons_inv_l.
      rewrite Hy; cbn. apply IH in Hys. by rewrite Hys.
Qed.

Section Truncation.
Variable assert_time_column_valid :
  DataFrame → string → string → option value → option nat → result ().
Implicit Types (self : GluonDataset.t) (df : DataFrame).

Lemma univariate_cut self df (target_column_name : string) (k : Z)
    (identifiers_values : option (list value)) (timeseries : Timeseries) :
  (0 < k)%Z →
  GluonDataset._create_gluon_univariate_timeseries self df target_column_name None
    identifiers_values = Ok timeseries →
  GluonDataset._create_gluon_univariate_timeseries self df target_column_name (Some (- k)%Z)
    identifiers_values = Ok (cut_record (Z.to_nat k) timeseries).
Proof.
  intros Hk. unfold GluonDataset._create_gluon_univariate_timeseries.
  destruct (bindR (get_column df (GluonDataset.time_column_name self)) iloc_first)
    as [start_ |]; cbn; [| done].
  unfold mapOk. destruct (get_column df target_column_name) as [col |]; cbn; [| done].
  destruct (list_truthy (GluonDataset.external_features_columns_names self)); cbn.
  - destruct (select_columns df _) as [sub |]; cbn; [| done].
    intros [= <-]. unfold cut_record; cbn.
    by rewrite slice_to_cut, transpose_cut.
  - intros [= <-]. unfold cut_record; cbn. by rewrite slice_to_cut.
Qed.

Lemma multivariate_cut self df (k : Z) (identifiers_values : option (list value))
    (series : list Timeseries) :
  (0 < k)%Z →
  GluonDataset._create_gluon_multivariate_timeseries self df None identifiers_values = Ok series →
  GluonDataset._create_gluon_multivariate_timeseries self df (Some (- k)%Z) identifiers_values
    = Ok (cut_record (Z.to_nat k) <$> series).
Proof.
  intros Hk. unfold GluonDataset._create_gluon_multivariate_timeseries.
  apply mapR_fmap. intros target_column_name timeseries. by apply univariate_cut.
Qed.

Lemma groups_cut self (k : Z) (groups : list (list value * DataFrame))
    (first : option (value * nat)) (series : list Timeseries) :
  (0 < k)%Z →
  GluonDataset.create_list_dataset_groups assert_time_column_valid self None first groups
    = Ok series →
  GluonDataset.create_list_dataset_groups assert_time_column_valid self (Some (- k)%Z) first groups
    = Ok (cut_record (Z.to_nat k) <$> series).
Proof.
  intros Hk. revert first series.
  induction groups as [| [identifiers_values identifiers_df] groups IH]; intros first series; cbn.
  - by intros [= <-].
  - intros (u & Hvalid & (first' & Hfirst & (here & Hhere & (rest & Hrest & [= <-])%bindR_Ok)%bindR_Ok)
              %bindR_Ok)%bindR_Ok.
    rewrite Hvalid; cbn. rewrite Hfirst; cbn.
    rewrite (multivariate_cut _ _ _ _ _ Hk Hhere); cbn.
    rewrite (IH _ _ Hrest); cbn. by rewrite fmap_app.
Qed.

(** The fields of the record made from one target column. *)
Lemma univariate_fields self df (target_column_name : string) (length_ : option Z)
    (identifiers_values : option (list value)) (timeseries : Timeseries) :
  GluonDataset._create_gluon_univariate_timeseries self df target_column_name length_
    identifiers_values = Ok timeseries →
  TIMESERIES_KEYS.TARGET_NAME timeseries = target_column_name
  ∧ TIMESERIES_KEYS.TIME_COLUMN_NAME timeseries = GluonDataset.time_column_name self
  ∧ bindR (get_column df (GluonDataset.time_column_name self)) iloc_first
      = Ok (TIMESERIES_KEYS.START timeseries)
  ∧ (∃ column, get_column df target_column_name = Ok column
               ∧ TIMESERIES_KEYS.TARGET timeseries = slice_to length_ column)
  ∧ TIMESERIES_KEYS.IDENTIFIERS timeseries
      = match identifiers_values with
        | Some vals =>
            let names := default [] (GluonDataset.timeseries_identifiers_names self) in
            if GluonDataset.identifiers_values_truthy names vals then
              if (1 <? length names)%nat then Some (zip names vals)
              else Some (zip (take 1 names) vals)
            else None
        | None => None
        end
  ∧ (if list_truthy (GluonDataset.external_features_columns_names self) then
       ∃ sub names,
         GluonDataset.external_features_columns_names self = Some names
         ∧ select_columns df names = Ok sub
         ∧ TIMESERIES_KEYS.FEAT_DYNAMIC_REAL timeseries
             = Some (transpose (values (iloc_to length_ sub)))
         ∧ TIMESERIES_KEYS.FEAT_DYNAMIC_REAL_COLUMNS_NAMES timeseries = Some names
     else TIMESERIES_KEYS.FEAT_DYNAMIC_REAL timeseries = None
          ∧ TIMESERIES_KEYS.FEAT_DYNAMIC_REAL_COLUMNS_NAMES timeseries = None).
Proof.
  unfold GluonDataset._create_gluon_univariate_timeseries.
  intros (start_ & Hstart & (target_ & Htarget & (feat & Hfeat & [= <-])%bindR_Ok)%bindR_Ok)%bindR_Ok.
  cbn. split; [done |]. split; [done |]. split; [done |].
  split.
  { unfold mapOk in Htarget. apply bindR_Ok in Htarget as (column & Hcolumn & [= <-]).
    by exists column. }
  split; [done |].
  destruct (GluonDataset.external_features_columns_names self) as [[| n names] |];
    cbn in Hfeat |- *; try (injection Hfeat as <-; done).
  apply bindR_Ok in Hfeat as (sub & Hsub & [= <-]). by exists sub, (n :: names).
Qed.

(** Every record of a built dataset is the record of the table, or of one
    of its groups, and of one target column; the records of a group come in
    the order of the target columns, group after group. *)
Lemma groups_records self (length_ : option Z) (first : option (value * nat))
    (groups : list (list value * DataFrame)) (series : list Timeseries) :
  GluonDataset.create_list_dataset_groups assert_time_column_valid self length_ first groups
    = Ok series →
  ∃ per_group,
    series = concat per_group
    ∧ Forall2 (λ g records,
                 GluonDataset._create_gluon_multivariate_timeseries self g.2 length_ (Some g.1)
                   = Ok records) groups per_group.
Proof.
  revert first series.
  induction groups as [| [identifiers_values identifiers_df] groups IH]; intros first series; cbn.
  - intros [= <-]. exists []. split; [done | constructor].
  - intros (u & _ & (first' & _ & (here & Hhere & (rest & Hrest & [= <-])%bindR_Ok)%bindR_Ok)
              %bindR_Ok)%bindR_Ok.
    destruct (IH _ _ Hrest) as (per_group & -> & Hall).
    exists (here :: per_group). split; [done |]. by constructor.
Qed.

Lemma dataset_records self (cut_length : option Z) (dataset : ListDataset) :
  GluonDataset.create_list_dataset assert_time_column_valid self cut_length = Ok dataset →
  freq dataset = GluonDataset.frequency self
  ∧ ∃ (groups : list (option (list value) * DataFrame)) per_group,
      list_data dataset = concat per_group
      ∧ Forall2 (λ g records,
                   GluonDataset._create_gluon_multivariate_timeseries self g.2
                     (GluonDataset.cut_to_length cut_length) g.1 = Ok records) groups per_group
      ∧ if list_truthy (GluonDataset.timeseries_identifiers_names self) then
          ∃ grouped,
            groupby (GluonDataset.dataframe self)
              (default [] (GluonDataset.timeseries_identifiers_names self)) = Ok grouped
            ∧ groups = (λ g, (Some g.1, g.2)) <$> grouped
        else groups = [(None, GluonDataset.dataframe self)].
Proof.
  unfold GluonDataset.create_list_dataset.
  intros (series & Hseries & [= <-])%bindR_Ok. cbn. split; [done |].
  destruct (list_truthy (GluonDataset.timeseries_identifiers_names self)).
  - apply bindR_Ok in Hseries as (grouped & Hgroupby & Hgroups).
    apply groups_records in Hgroups as (per_group & -> & Hall).
    exists ((λ g, (Some g.1, g.2)) <$> grouped), per_group.
    split; [done |]. split; [| by exists grouped].
    apply Forall2_fmap_l. eapply Forall2_impl; [exact Hall |]. done.
  - apply bindR_Ok in Hseries as (u & _ & Hall).
    exists [(None, GluonDataset.dataframe self)], [series]. cbn.
    split; [by rewrite app_nil_r |]. split; [| done].
    constructor; [done | constructor].
Qed.

(** The record made of a table and a target column with a positive cut:
    the target is the target column without its last values, and the
    features have as many time steps. *)
Lemma univariate_cut_target self df (target_column_name : string) (k : Z)
    (identifiers_values : option (list value)) (timeseries : Timeseries) :
  (0 < k)%Z →
  GluonDataset._create_gluon_univariate_timeseries self df target_column_name
    (GluonDataset.cut_to_length (Some k)) identifiers_values = Ok timeseries →
  ∃ column,
    get_column df target_column_name = Ok column
    ∧ length column = nrows df
    ∧ TIMESERIES_KEYS.TARGET timeseries = take (length column - Z.to_nat k) column
    ∧ (k = Z.of_nat (length column) → TIMESERIES_KEYS.TARGET timeseries = [])
    ∧ (∀ feat, TIMESERIES_KEYS.FEAT_DYNAMIC_REAL timeseries = Some feat →
               snd (shape feat) = (nrows df - Z.to_nat k)%nat
               ∧ Forall (λ steps, length steps = (nrows df - Z.to_nat k)%nat) (data feat)).
Proof.
  intros Hk.
  assert (GluonDataset.cut_to_length (Some k) = Some (- k)%Z) as ->.
  { unfold GluonDataset.cut_to_length. destruct (Z.eqb_spec k 0); [lia | done]. }
  unfold GluonDataset._create_gluon_univariate_timeseries.
  intros (start_ & _ & (target_ & Htarget & (feat & Hfeat & [= <-])%bindR_Ok)%bindR_Ok)%bindR_Ok.
  unfold mapOk in Htarget. apply bindR_Ok in Htarget as (column & Hcolumn & [= <-]).
  exists column. cbn.
  assert (length column = nrows df) as Hlen.
  { unfold get_column in Hcolumn. destruct (column_index _ _); [| done].
    injection Hcolumn as <-. by rewrite length_fmap. }
  split; [done |]. split; [done |].
  split; [by apply slice_to_cut |].
  split.
  { intros ->. rewrite slice_to_cut by done. rewrite Nat2Z.id, Nat.sub_diag. done. }
  intros a Ha.
  destruct (list_truthy (GluonDataset.external_features_columns_names self)); cbn in Hfeat.
  + apply bindR_Ok in Hfeat as (sub & Hsub & [= <-]). cbn in Ha. injection Ha as <-.
    assert (nrows sub = nrows df) as Hsubrows.
    { unfold select_columns in Hsub. apply bindR_Ok in Hsub as (idx & _ & [= <-]).
      unfold nrows; cbn. by rewrite length_fmap. }
    rewrite transpose_cut by done. unfold cut_array, transpose, values; cbn.
    rewrite Hsubrows. split; [done |].
    apply Forall_fmap, Forall_fmap, Forall_forall. intros j _. cbn.
    rewrite length_take, length_fmap. fold (nrows sub). lia.
  + injection Hfeat as <-. done.
Qed.

(** C8. With a positive [cut_length], whenever the table can be built
    into records without a cut it can be built with the cut, and the
    records are those of the full build with the last [cut_length] steps
    removed from the target and from every feature. The records of the cut
    build are tied to the table: the dataset holds, for the table (or for
    each of its groups, in order) and for each target column, in order,
    one record named after that column whose target is that column of the
    table (or group) without its last [cut_length] values, nothing being
    left when [cut_length] is the number of rows, and whose features have
    as many time steps. The same holds of the record made from any table
    and target column. *)
Theorem cut_length_truncates_end (self : GluonDataset.t) (k : Z) :
  (0 < k)%Z →
  (∀ full,
     GluonDataset.create_list_dataset assert_time_column_valid self None = Ok full →
     GluonDataset.create_list_dataset assert_time_column_valid self (Some k)
       = Ok {| list_data := cut_record (Z.to_nat k) <$> list_data full; freq := freq full |})
  ∧ (∀ dataset,
       GluonDataset.create_list_dataset assert_time_column_valid self (Some k) = Ok dataset →
       ∃ (sources : list (option (list value) * DataFrame)) per_source,
         (if list_truthy (GluonDataset.timeseries_identifiers_names self) then
            ∃ groups,
              groupby (GluonDataset.dataframe self)
                (default [] (GluonDataset.timeseries_identifiers_names self)) = Ok groups
              ∧ sources = (λ g, (Some g.1, g.2)) <$> groups
          else sources = [(None, GluonDataset.dataframe self)])
         ∧ list_data dataset = concat per_source
         ∧ Forall2 (λ (source : option (list value) * DataFrame) records,
                      Forall2 (λ target_column_name timeseries,
                                 TIMESERIES_KEYS.TARGET_NAME timeseries = target_column_name
                                 ∧ ∃ column,
                                     get_column source.2 target_column_name = Ok column
                                     ∧ length column = nrows source.2
                                     ∧ TIMESERIES_KEYS.TARGET timeseries
                                       = take (nrows source.2 - Z.to_nat k) column
                                     ∧ (k = Z.of_nat (nrows source.2) →
                                        TIMESERIES_KEYS.TARGET timeseries = [])
                                     ∧ (∀ feat,
                                          TIMESERIES_KEYS.FEAT_DYNAMIC_REAL timeseries
                                            = Some feat →
                                          snd (shape feat) = (nrows source.2 - Z.to_nat k)%nat
                                          ∧ Forall (λ steps,
                                                      length steps
                                                      = (nrows source.2 - Z.to_nat k)%nat)
                                                   (data feat)))
                              (GluonDataset.target_columns_names self) records)
                   sources per_source)
  ∧ (∀ df target_column_name identifiers_values timeseries,
       GluonDataset._create_gluon_univariate_timeseries self df target_column_name
         (GluonDataset.cut_to_length (Some k)) identifiers_values = Ok timeseries →
       ∃ column,
         get_column df target_column_name = Ok column
         ∧ length column = nrows df
         ∧ TIMESERIES_KEYS.TARGET timeseries = take (length column - Z.to_nat k) column
         ∧ (k = Z.of_nat (length column) → TIMESERIES_KEYS.TARGET timeseries = [])
         ∧ (∀ feat, TIMESERIES_KEYS.FEAT_DYNAMIC_REAL timeseries = Some feat →
                    snd (shape feat) = (nrows df - Z.to_nat k)%nat
                    ∧ Forall (λ steps, length steps = (nrows df - Z.to_nat k)%nat) (data feat))).
Proof.
  intros Hk.
  assert (GluonDataset.cut_to_length (Some k) = Some (- k)%Z) as Hcut.
  { unfold GluonDataset.cut_to_length. destruct (Z.eqb_spec k 0); [lia | done]. }
  split; [| split].
  - intros full. unfold GluonDataset.create_list_dataset. rewrite Hcut.
    change (GluonDataset.cut_to_length None) with (@None Z).
    intros (series & Hseries & [= <-])%bindR_Ok; cbn.
    destruct (list_truthy (GluonDataset.timeseries_identifiers_names self)).
    + apply bindR_Ok in Hseries as (groups & Hgroupby & Hgroups). rewrite Hgroupby; cbn.
      by rewrite (groups_cut _ _ _ _ _ Hk Hgroups).
    + apply bindR_Ok in Hseries as (u & Hvalid & Hall). rewrite Hvalid; cbn.
      by rewrite (multivariate_cut _ _ _ _ _ Hk Hall).
  - intros dataset (_ & sources & per_source & Hdata & Hall & Hmode)%dataset_records.
    exists sources, per_source. split; [exact Hmode |]. split; [exact Hdata |].
    eapply Forall2_impl; [exact Hall |].
    intros source records Hrecords.
    unfold GluonDataset._create_gluon_multivariate_timeseries in Hrecords.
    apply mapR_Forall2 in Hrecords.
    eapply Forall2_impl; [exact Hrecords |].
    intros target_column_name timeseries Hone.
    split; [by apply univariate_fields in Hone as (? & _) |].
    destruct (univariate_cut_target _ _ _ _ _ _ Hk Hone)
      as (column & Hcolumn & Hlen & Htarget & Hempty & Hfeat).
    exists column. split; [done |]. split; [done |].
    split; [by rewrite <- Hlen |].
    split; [intros Hrows; apply Hempty; by rewrite Hlen | done].
  - intros df target_column_name identifiers_values timeseries.
    by apply univariate_cut_target.
Qed.

End Truncation.

Lemma cut_length_truncates_end_witness :
  let df :=
    mkDataFrame ["date"; "sales"]
      [[VTime 0; VNum 5]; [VTime 86400000000000; VNum 6]; [VTime 172800000000000; VNum 7]] in
  let self := GluonDataset.mk df "date" "1D" ["sales"] None None in
  ∃ full dataset,
    GluonDataset.create_list_dataset assert_time_column_valid_spec self None = Ok full
    ∧ GluonDataset.create_list_dataset assert_time_column_valid_spec self (Some 3%Z) = Ok dataset
    ∧ list_data dataset = cut_record 3 <$> list_data full
    ∧ TIMESERIES_KEYS.TARGET_NAME <$> list_data dataset = ["sales"]
    ∧ Forall (λ timeseries, TIMESERIES_KEYS.TARGET timeseries = []) (list_data dataset).
Proof.
  intros df self.
  destruct (cut_length_truncates_end assert_time_column_valid_spec self 3%Z)
    as (Hbuild & Hrecords & _); [lia |].
  eexists _, _. split; [vm_compute; reflexivity |].
  split; [apply Hbuild; vm_compute; reflexivity |].
  split; [reflexivity |].
  destruct (Hrecords _ (Hbuild _ ltac:(vm_compute; reflexivity)))
    as (sources & per_source & Hmode & Hdata & Hall).
  cbn in Hmode. subst sources.
  apply Forall2_cons_inv_l in Hall as (records & others & Hone & Hnone & ->).
  apply Forall2_nil_inv_l in Hnone as ->.
  cbn [concat] in Hdata. rewrite app_nil_r in Hdata. rewrite Hdata.
  apply Forall2_cons_inv_l in Hone as (timeseries & none & (Hname & column & _ & _ & _ & Hempty & _)
                                        & Hnone & ->).
  apply Forall2_nil_inv_l in Hnone as ->.
  split; [cbn; by rewrite Hname |].
  constructor; [| constructor]. by apply Hempty.
Defined.

(** ** Future external features *)

Lemma mapR_app_raise {A B} (f : A → result B) (before after : list A) (x : A)
    (done_ : list B) (e : exn) :
  mapR f before = Ok done_ → f x = Raise e → mapR f (before ++ x :: after) = Raise e.
Proof.
  intros Hbefore Hx. revert done_ Hbefore.
  induction before as [| y before IH]; intros done_; cbn.
  - intros _. by rewrite Hx.
  - intros (b & -> & (bs & Hbs & _)%bindR_Ok)%bindR_Ok. cbn.
    by rewrite (IH _ Hbs).
Qed.

Lemma column_index_elem_of (name : string) (cols : list string) :
  name ∈ cols → is_Some (column_index name cols).
Proof.
  induction cols as [| c cols IH]; [by intros ?%elem_of_nil |].
  intros Hin. cbn. destruct (String.eqb_spec c name) as [-> | Hne]; [by eexists |].
  apply elem_of_cons in Hin as [-> | Hin]; [done |].
  destruct (IH Hin) as [i ->]. by eexists.
Qed.

Lemma select_columns_elem_of (df : DataFrame) (names : list string) :
  (∀ c, c ∈ names → c ∈ columns df) →
  ∃ sub, select_columns df names = Ok sub ∧ nrows sub = nrows df ∧ columns sub = names.
Proof.
  intros Hnames. unfold select_columns.
  assert (∃ idx, mapR (λ name, match column_index name (columns df) with
                               | Some i => Ok i
                               | None => Raise (KeyError name)
                               end) names = Ok idx) as [idx ->].
  { induction names as [| c names IH]; cbn; [by eexists |].
    destruct (column_index_elem_of c (columns df)) as [i ->]; [apply Hnames; by left |].
    destruct IH as [idx ->]; [intros; apply Hnames; by right |]. by eexists. }
  cbn. eexists. split; [done |]. unfold nrows; cbn. by rewrite length_fmap.
Qed.

Section Alignment.
Variable prepare_timeseries_dataframe : DataFrame → string → string → result DataFrame.

(** C6. Take a record that [add_future_external_features] reaches: the
    records before it are processed, its identifier columns are in the
    future table, it carries features, and the preparation of its slice of
    the future table returns the slice's rows with the feature columns. If
    that slice does not have exactly [prediction_length] rows, the call
    raises a [ValueError] whose message gives [prediction_length] as the
    number of future values to provide. *)
Theorem future_features_must_span_horizon (gluon_train_dataset : ListDataset)
    (external_features_future_df : DataFrame) (prediction_length : Z) (frequency : string)
    (before after : list Timeseries) (timeseries : Timeseries) (processed : list Timeseries)
    (slice prepared : DataFrame) (feat : ndarray) (names : list string) :
  list_data gluon_train_dataset = before ++ timeseries :: after →
  mapR (add_future_external_features_to prepare_timeseries_dataframe
          external_features_future_df prediction_length frequency) before = Ok processed →
  filter_identifiers external_features_future_df timeseries = Ok slice →
  TIMESERIES_KEYS.FEAT_DYNAMIC_REAL timeseries = Some feat →
  TIMESERIES_KEYS.FEAT_DYNAMIC_REAL_COLUMNS_NAMES timeseries = Some names →
  prepare_timeseries_dataframe slice (TIMESERIES_KEYS.TIME_COLUMN_NAME timeseries) frequency
    = Ok prepared →
  nrows prepared = nrows slice →
  (∀ c, c ∈ names → c ∈ columns prepared) →
  Z.of_nat (nrows slice) ≠ prediction_length →
  add_future_external_features prepare_timeseries_dataframe gluon_train_dataset
    external_features_future_df prediction_length frequency
  = Raise (ValueError
      ("Please provide " +:+ pretty prediction_length
         +:+ " future values of external features, as this was the forecasting horizon used for training")).
Proof.
  intros Hdata Hbefore Hslice Hfeat Hnames Hprepared Hrows Hcols Hcount.
  unfold add_future_external_features. rewrite Hdata.
  erewrite mapR_app_raise; [done | exact Hbefore |].
  unfold add_future_external_features_to.
  rewrite Hslice; cbn. rewrite Hfeat, Hnames; cbn. rewrite Hprepared; cbn.
  destruct (select_columns_elem_of prepared names Hcols) as (sub & -> & Hsub & _); cbn.
  rewrite Hsub, Hrows.
  destruct (Z.eqb_spec (Z.of_nat (nrows slice)) prediction_length); [done |].
  done.
Qed.

End Alignment.

Lemma future_features_must_span_horizon_witness :
  let record store :=
    TIMESERIES_KEYS.mkTimeseries (VTime 0) [VNum 1; VNum 2] "sales" "date"
      (Some {| shape := (1, 2)%nat; data := [[VNum 10; VNum 11]] |}) (Some ["temp"])
      (Some [("store", VStr store)]) in
  let future :=
    mkDataFrame ["date"; "store"; "temp"]
      [[VTime 172800000000000; VStr "a"; VNum 12]; [VTime 259200000000000; VStr "a"; VNum 13]] in
  add_future_external_features prepare_timeseries_dataframe_spec
    (mkListDataset [record "a"; record "b"] "1D") future 2 "1D"
  = Raise (ValueError
      "Please provide 2 future values of external features, as this was the forecasting horizon used for training").
Proof.
  intros record future.
  eapply (future_features_must_span_horizon prepare_timeseries_dataframe_spec
            (mkListDataset [record "a"; record "b"] "1D") future 2 "1D"
            [record "a"] [] (record "b")).
  - reflexivity.
  - vm_compute. reflexivity.
  - vm_compute. reflexivity.
  - reflexivity.
  - reflexivity.
  - vm_compute. reflexivity.
  - reflexivity.
  - intros c Hc. apply list_elem_of_In in Hc. apply list_elem_of_In. cbn in *. tauto.
  - vm_compute. discriminate.
Defined.

(** ** The left join of history and forecasts *)

Lemma elem_of_concat {A} (x : A) (ls : list (list A)) :
  x ∈ concat ls ↔ ∃ l, l ∈ ls ∧ x ∈ l.
Proof.
  rewrite list_elem_of_In, in_concat. split.
  - intros (l & ? & ?). exists l. by rewrite !list_elem_of_In.
  - intros (l & ? & ?). exists l. by rewrite <- !list_elem_of_In.
Qed.

Lemma select_columns_rows (df sub : DataFrame) (names : list string) :
  select_columns df names = Ok sub → rows sub = row_key df names <$> rows df.
Proof.
  unfold select_columns. intros (idx & Hidx & [= <-])%bindR_Ok; cbn.
  apply list_fmap_ext. intros _ row _. unfold row_key.
  revert idx Hidx. induction names as [| c names IH]; intros idx; cbn.
  - by intros [= <-].
  - intros (i & Hi & (idx' & Hidx' & [= <-])%bindR_Ok)%bindR_Ok. cbn.
    destruct (column_index c (columns df)); [| done]. injection Hi as <-.
    f_equal. eauto.
Qed.

Lemma zip_fmap_diag {A B C} (f : A → B) (g : A → C) (l : list A) :
  zip (f <$> l) (g <$> l) = (λ x, (f x, g x)) <$> l.
Proof. induction l as [| x l IH]; cbn; [done | by rewrite IH]. Qed.

(** The rows of a left join: each row of the left table, followed either
    by the values of a right row with the same key, or by missing values
    when no right row has that key. *)
Lemma merge_left_rows (left right res : DataFrame) (on : list string) :
  merge_left left right on = Ok res →
  ∀ r, r ∈ rows res ↔
    ∃ h, h ∈ rows left ∧
      ((∃ f, f ∈ rows right
             ∧ row_key right on f = row_key left on h
             ∧ r = h ++ row_key right (value_columns right on) f ++ [VStr "both"])
       ∨ ((∀ f, f ∈ rows right → row_key right on f ≠ row_key left on h)
          ∧ r = h ++ replicate (length (value_columns right on)) VNaN ++ [VStr "left_only"])).
Proof.
  unfold merge_left. fold (value_columns right on).
  intros (? & _ & (? & _ & (right_values & Hvalues & [= <-])%bindR_Ok)%bindR_Ok)%bindR_Ok r.
  cbn. rewrite (select_columns_rows _ _ _ Hvalues).
  rewrite zip_fmap_diag.
  rewrite elem_of_concat. setoid_rewrite list_elem_of_fmap.
  split.
  - intros (l & (h & -> & Hh) & Hr). exists h. split; [done |].
    destruct (filter _ _) as [| m ms] eqn:Hfilter.
    + right. apply list_elem_of_singleton in Hr. split; [| done].
      intros f Hf Hkey.
      eapply (filter_nil_not_elem_of _ _ _ Hfilter);
        [| apply (list_elem_of_fmap_2 _ _ _ Hf)].
      cbn. by apply bool_decide_pack.
    + left. rewrite <- Hfilter in Hr.
      apply list_elem_of_fmap in Hr as ([key vals] & -> & Hin).
      apply list_elem_of_filter in Hin as [Hkey Hin]. cbn in Hkey.
      apply bool_decide_unpack in Hkey.
      apply list_elem_of_fmap in Hin as (f & [= -> ->] & Hf).
      exists f. done.
  - intros (h & Hh & Hcase). eexists. split; [exists h; done |]. cbn.
    destruct Hcase as [(f & Hf & Hkey & ->) | [Hnone ->]].
    + assert ((row_key right on f, row_key right (value_columns right on) f)
                ∈ filter (λ kr : list value * list value, bool_decide (kr.1 = row_key left on h))
                    ((λ x, (row_key right on x, row_key right (value_columns right on) x))
                       <$> rows right)) as Hin.
      { apply list_elem_of_filter. split; [by apply bool_decide_pack |].
        by apply (list_elem_of_fmap_2
                    (λ x, (row_key right on x, row_key right (value_columns right on) x))). }
      destruct (filter _ _) as [| m ms] eqn:Hfilter; [by apply elem_of_nil in Hin |].
      apply (list_elem_of_fmap_2 (λ kr : list value * list value, h ++ kr.2 ++ [VStr "both"])) in Hin.
      exact Hin.
    + destruct (filter _ _) as [| [key vals] ms] eqn:Hfilter; [apply list_elem_of_singleton; done |].
      assert ((key, vals) ∈ filter (λ kr : list value * list value, bool_decide (kr.1 = row_key left on h))
                    ((λ x, (row_key right on x, row_key right (value_columns right on) x))
                       <$> rows right)) as Hin by (rewrite Hfilter; left).
      apply list_elem_of_filter in Hin as [Hkey Hin]. cbn in Hkey.
      apply bool_decide_unpack in Hkey.
      apply list_elem_of_fmap in Hin as (f & [= -> ->] & Hf).
      by destruct (Hnone f Hf).
Qed.

Section IncludeHistory.
Context {F : Type}.
Implicit Types (self : TrainedModel.t (F := F)).

Lemma include_history_merge self (frequency : string) (history forecasts res : DataFrame)
    (on : list string) :
  TrainedModel.history_df self frequency = Ok history →
  TrainedModel.forecasts_df self = Some forecasts →
  TrainedModel.merge_columns self = Ok on →
  TrainedModel._include_history self frequency = Ok res →
  merge_left history forecasts on = Ok res.
Proof.
  unfold TrainedModel._include_history. intros -> -> ->. done.
Qed.

(** C4, amended. The merged table keeps every row of the history table:
    its rows are the history rows, each followed by the values of every
    forecast row with the same timestamp and identifiers, or by missing
    values when there is none. So a forecast row appears in the result
    when some history row has its timestamp and identifiers; when none
    has, no row of the result carries its timestamp and identifiers. *)
Theorem include_history_keeps_history_rows self (frequency : string)
    (history forecasts res : DataFrame) (on : list string) :
  TrainedModel.history_df self frequency = Ok history →
  TrainedModel.forecasts_df self = Some forecasts →
  TrainedModel.merge_columns self = Ok on →
  TrainedModel._include_history self frequency = Ok res →
  (∀ r, r ∈ rows res ↔
     ∃ h, h ∈ rows history ∧
       ((∃ f, f ∈ rows forecasts
              ∧ row_key forecasts on f = row_key history on h
              ∧ r = h ++ row_key forecasts (value_columns forecasts on) f ++ [VStr "both"])
        ∨ ((∀ f, f ∈ rows forecasts → row_key forecasts on f ≠ row_key history on h)
           ∧ r = h ++ replicate (length (value_columns forecasts on)) VNaN
                   ++ [VStr "left_only"])))
  ∧ (∀ h, h ∈ rows history → ∃ tail, h ++ tail ∈ rows res)
  ∧ (∀ f h, f ∈ rows forecasts → h ∈ rows history →
            row_key forecasts on f = row_key history on h →
            h ++ row_key forecasts (value_columns forecasts on) f ++ [VStr "both"] ∈ rows res)
  ∧ (∀ f, f ∈ rows forecasts →
          (∀ h, h ∈ rows history → row_key history on h ≠ row_key forecasts on f) →
          ∀ r, r ∈ rows res →
               ∃ h tail, h ∈ rows history ∧ r = h ++ tail
                         ∧ row_key history on h ≠ row_key forecasts on f).
Proof.
  intros Hhistory Hforecasts Hon Hres.
  pose proof (merge_left_rows _ _ _ _ (include_history_merge _ _ _ _ _ _ Hhistory Hforecasts Hon Hres))
    as Hrows.
  split; [exact Hrows |]. split; [| split].
  - intros h Hh.
    destruct (decide (Exists (λ f, row_key forecasts on f = row_key history on h) (rows forecasts)))
      as [(f & Hf & Hkey)%Exists_exists | Hnone].
    + eexists. apply Hrows. exists h. split; [done |]. left. by exists f.
    + eexists. apply Hrows. exists h. split; [done |]. right. split; [| done].
      intros f Hf Hkey. apply Hnone, Exists_exists. by exists f.
  - intros f h Hf Hh Hkey. apply Hrows. exists h. split; [done |]. left. by exists f.
  - intros f Hf Hnone r Hr.
    apply Hrows in Hr as (h & Hh & Hcase). exists h.
    destruct Hcase as [(f' & _ & _ & ->) | [_ ->]]; eexists; eauto.
Qed.

End IncludeHistory.

(** C4, as stated, fails: a forecast row dated after the last date of the
    history table is not in the merged table. *)
Lemma include_history_drops_unmatched_forecast_row :
  ∃ forecasts res,
    TrainedModel.forecasts_df history_example = Some forecasts
    ∧ TrainedModel._include_history history_example "1D" = Ok res
    ∧ [VTime (5 * NS_PER_DAY); VNum 6] ∈ rows forecasts
    ∧ Forall (λ r, cell 0 r ≠ VTime (5 * NS_PER_DAY)) (rows res)
    ∧ rows res
      = [[VTime 0; VNum 1; VNaN; VStr "left_only"];
         [VTime (1 * NS_PER_DAY); VNum 2; VNaN; VStr "left_only"];
         [VTime (2 * NS_PER_DAY); VNum 3; VNaN; VStr "left_only"];
         [VTime (3 * NS_PER_DAY); VNaN; VNum 4; VStr "both"];
         [VTime (4 * NS_PER_DAY); VNaN; VNum 5; VStr "both"]].
Proof.
  eexists _, _. split; [reflexivity |]. split; [vm_compute; reflexivity |].
  split; [| split].
  - apply list_elem_of_In. cbn. tauto.
  - vm_compute. repeat constructor; discriminate.
  - vm_compute. reflexivity.
Qed.

Lemma include_history_keeps_history_rows_witness :
  ∃ history forecasts res,
    TrainedModel.history_df history_example "1D" = Ok history
    ∧ TrainedModel.forecasts_df history_example = Some forecasts
    ∧ TrainedModel._include_history history_example "1D" = Ok res
    ∧ ∀ h, h ∈ rows history → ∃ tail, h ++ tail ∈ rows res.
Proof.
  eexists _, _, _. split; [vm_compute; reflexivity |]. split; [reflexivity |].
  split; [vm_compute; reflexivity |].
  eapply (include_history_keeps_history_rows history_example "1D" _ _ _ ["index"]).
  - vm_compute. reflexivity.
  - reflexivity.
  - reflexivity.
  - vm_compute. reflexivity.
Defined.

(** * Further properties of the code *)

(** ** The time grid validator: exact verdict and edge cases *)

Section AnchoredStart.
Local Open Scope Z_scope.
Context (boundary k_of : Z → Z).
Hypothesis boundary_step : ∀ k, boundary k < boundary (k + 1).
Hypothesis k_of_spec : ∀ d, boundary (k_of d - 1) < d ≤ boundary (k_of d).

(** Moving the start of a range onto an anchored offset lands on the
    offset, strictly later when the start was off it. *)
Lemma anchored_adjust_start (n t : Z) :
  adjust_start (Anchored boundary k_of n) (adjust_start (Anchored boundary k_of n) t)
    = adjust_start (Anchored boundary k_of n) t
  ∧ (is_on_offset (Anchored boundary k_of n) t = false
     → t < adjust_start (Anchored boundary k_of n) t).
Proof.
  unfold adjust_start; cbn.
  destruct (anchored_on boundary k_of t) eqn:Hon.
  - rewrite Hon. done.
  - rewrite (anchored_apply_on boundary k_of boundary_step k_of_spec 1 t) by lia.
    split; [done |]. intros _.
    pose proof (anchored_apply_advances boundary k_of boundary_step k_of_spec 1 t).
    pose proof NS_PER_DAY_pos. lia.
Qed.

End AnchoredStart.

Lemma week_adjust_start (n t : Z) :
  adjust_start (Week n) (adjust_start (Week n) t) = adjust_start (Week n) t
  ∧ (is_on_offset (Week n) t = false → (t < adjust_start (Week n) t)%Z).
Proof.
  apply anchored_adjust_start; unfold week_end, week_of_day; intros;
    Z.div_mod_to_equations; lia.
Qed.

Lemma period_adjust_start (s n t : Z) :
  (1 ≤ s)%Z →
  let o := Anchored (λ k, month_end (s * k + (s - 1))) (λ d, (month_of_day d / s)%Z) n in
  adjust_start o (adjust_start o t) = adjust_start o t
  ∧ (is_on_offset o t = false → (t < adjust_start o t)%Z).
Proof.
  intros Hs o. apply anchored_adjust_start; unfold month_end.
  - intros k. pose proof (strictly_increasing month_start month_start_lt
                            (s * k + (s - 1) + 1) (s * (k + 1) + (s - 1) + 1))%Z. nia.
  - intros d. pose proof (month_of_day_spec d) as [Hlo Hhi].
    assert (s * (month_of_day d / s) ≤ month_of_day d < s * (month_of_day d / s) + s)%Z
      as [Hq1 Hq2].
    { pose proof (Z.mul_div_le (month_of_day d) s).
      pose proof (Z.mul_succ_div_gt (month_of_day d) s). lia. }
    pose proof (increasing month_start month_start_lt
                  (s * (month_of_day d / s - 1) + (s - 1) + 1) (month_of_day d))%Z.
    pose proof (increasing month_start month_start_lt
                  (month_of_day d + 1) (s * (month_of_day d / s) + (s - 1) + 1))%Z.
    nia.
Qed.

Lemma month_end_adjust_start (n t : Z) :
  adjust_start (MonthEnd n) (adjust_start (MonthEnd n) t) = adjust_start (MonthEnd n) t
  ∧ (is_on_offset (MonthEnd n) t = false → (t < adjust_start (MonthEnd n) t)%Z).
Proof.
  apply anchored_adjust_start; unfold month_end.
  - intros k. pose proof (month_start_lt (k + 1)). lia.
  - intros d. pose proof (month_of_day_spec d).
    replace (month_of_day d - 1 + 1)%Z with (month_of_day d) by lia. lia.
Qed.

(** Moving the start of a range onto an offset of [to_offset] lands on the
    offset, strictly later when the start was off it. *)
Lemma to_offset_adjust_start (frequency : string) (o : DateOffset) (t : Z) :
  to_offset frequency = Ok o →
  adjust_start o (adjust_start o t) = adjust_start o t
  ∧ (is_on_offset o t = false → (t < adjust_start o t)%Z).
Proof.
  unfold to_offset. destruct (span_digits frequency) as [ds alias].
  set (n := if String.eqb ds "" then 1%Z else digits_value 0 ds).
  destruct (Z.ltb_spec n 1); [done |].
  repeat match goal with
         | |- (if ?c then _ else _) = _ → _ => destruct c
         end;
    try discriminate; intros [= <-];
    first [ exact (conj eq_refl (λ Hoff : true = false, False_ind _ (eq_true_false_abs _ eq_refl Hoff)))
          | exact (week_adjust_start n t)
          | exact (month_end_adjust_start n t)
          | exact (period_adjust_start 3 n t ltac:(lia))
          | exact (period_adjust_start 12 n t ltac:(lia)) ].
Qed.

(** X1. At a frequency of the model, the verdict on a table whose time
    column reads as a non-empty sequence of timestamps is exactly whether
    that sequence is a regular grid: the validator accepts the table if and
    only if it is, and rejects it if and only if it is not. *)
Theorem validator_verdict_is_regularity (df : DataFrame) (col unit : string) (step : pyval)
    (o : DateOffset) (xs : list Z) :
  to_offset (frequency_of step unit) = Ok o →
  normalized_time_column df col xs →
  xs ≠ [] →
  (accepts df col unit step ↔ regular_grid o xs)
  ∧ (rejects df col unit step ↔ ¬ regular_grid o xs).
Proof.
  intros Hoffset Hcol Hne.
  destruct (check_continuous_time_column_verdict df col unit step o xs Hoffset
              (to_offset_regular _ _ Hoffset) Hcol Hne) as (verdict & Hcheck & Hverdict).
  split; split.
  - intros [Haccept _]. rewrite Hcheck in Haccept. cbn in Haccept.
    apply Hverdict. congruence.
  - by eapply regular_accepted.
  - intros [Hreject _] Hreg. rewrite Hcheck in Hreject. cbn in Hreject.
    apply Hverdict in Hreg. congruence.
  - by eapply irregular_rejected.
Qed.

Lemma validator_verdict_is_regularity_witness :
  accepts month_ends_table "date" "M" (PyInt 1) ↔ regular_grid (MonthEnd 1) month_ends_2020.
Proof.
  apply (validator_verdict_is_regularity month_ends_table "date" "M" (PyInt 1)
           (MonthEnd 1) month_ends_2020).
  - reflexivity.
  - eexists _, _. split; [reflexivity |].
    split; [vm_compute; reflexivity |]. split; [reflexivity |].
    by repeat constructor.
  - discriminate.
Defined.

(** X2. A table whose first timestamp does not lie on the offset of the
    frequency (a date that is not a month end at a monthly frequency, not a
    Sunday at a weekly one) is rejected, whatever follows it. *)
Theorem first_timestamp_off_offset_is_rejected (df : DataFrame) (col unit : string)
    (step : pyval) (o : DateOffset) (xs : list Z) (first : Z) :
  to_offset (frequency_of step unit) = Ok o →
  normalized_time_column df col xs →
  head xs = Some first →
  is_on_offset o first = false →
  rejects df col unit step.
Proof.
  intros Hoffset Hcol Hfirst Hoff.
  assert (xs ≠ []) as Hne by (by destruct xs).
  eapply irregular_rejected; [done | done | done |].
  intros Hreg.
  pose proof (to_offset_regular _ _ Hoffset) as Hlaws.
  pose proof (regular_grid_head o xs Hreg Hne) as Hhead.
  destruct xs as [| x xs']; [done |]. injection Hfirst as ->. cbn in Hhead.
  destruct (to_offset_adjust_start _ o first Hoffset) as [_ Hlater].
  specialize (Hlater Hoff). lia.
Qed.

Lemma first_timestamp_off_offset_is_rejected_witness :
  rejects (mkDataFrame ["date"] [[VStr "2020-01-15"]; [VStr "2020-02-29"]; [VStr "2020-03-31"]])
    "date" "M" (PyInt 1).
Proof.
  apply (first_timestamp_off_offset_is_rejected _ "date" "M" (PyInt 1) (MonthEnd 1)
           [1579046400000000000; 1582934400000000000; 1585612800000000000]%Z
           1579046400000000000%Z).
  - reflexivity.
  - eexists _, _. split; [reflexivity |].
    split; [vm_compute; reflexivity |]. split; [reflexivity |].
    by repeat constructor.
  - reflexivity.
  - vm_compute. reflexivity.
Defined.

Lemma nrows_set_column (df : DataFrame) (name : string) (vals : list value) :
  length vals = nrows df → nrows (set_column df name vals) = nrows df.
Proof.
  intros Hlen. unfold set_column, nrows in *.
  destruct (column_index name (columns df)); cbn; rewrite length_zip_with; lia.
Qed.

(** What the validator answers after the assignment depends on the table
    only through the time column and the number of rows. *)
Lemma check_normalized_time_column_ext (df1 df2 : DataFrame) (col unit : string) (step : pyval) :
  get_column df1 col = get_column df2 col →
  nrows df1 = nrows df2 →
  check_normalized_time_column df1 col unit step = check_normalized_time_column df2 col unit step.
Proof.
  intros Hcol Hrows. unfold check_normalized_time_column. by rewrite Hcol, Hrows.
Qed.

Lemma normalized_check (df : DataFrame) (col unit : string) (step : pyval) (xs : list Z) :
  normalized_time_column df col xs →
  check_continuous_time_column df col unit step
  = (set_column df col (VTime <$> xs),
     check_normalized_time_column (set_column df col (VTime <$> xs)) col unit step)
  ∧ get_column (set_column df col (VTime <$> xs)) col = Ok (VTime <$> xs)
  ∧ nrows (set_column df col (VTime <$> xs)) = length xs.
Proof.
  intros (vals & parsed & Hcol & Hparsed & Hlocal & Hrows).
  assert (is_Some (column_index col (columns df))) as Hidx.
  { unfold get_column in Hcol. by destruct (column_index _ _). }
  assert (length (VTime <$> xs) = nrows df) as Hlen.
  { rewrite <- Hlocal. unfold tz_localize_none. rewrite length_fmap.
    rewrite (mapR_length _ _ _ Hparsed). by apply get_column_length in Hcol. }
  split; [| split].
  - unfold check_continuous_time_column. rewrite Hcol; cbn [bindR].
    by rewrite Hparsed, Hlocal.
  - by apply get_set_column.
  - rewrite nrows_set_column by done. by rewrite <- Hlen, length_fmap.
Qed.

(** X3. The verdict does not depend on the form in which the timestamps
    are stored. Take two tables whose time columns each hold cells of one
    kind (text, integers, naive timestamps or timezone-aware timestamps,
    with or without missing values) and read as the same sequence of
    timestamps once parsed and made timezone-naive, with whatever other
    columns: they get the same answer from [check_continuous_time_column]
    and the same outcome from [assert_continuous_time_column], at any unit
    and step. *)
Theorem verdict_depends_on_normalized_timestamps (df1 df2 : DataFrame) (col unit : string)
    (step : pyval) (xs : list Z) (vals1 vals2 : list value) :
  get_column df1 col = Ok vals1 → one_kind vals1 = true →
  get_column df2 col = Ok vals2 → one_kind vals2 = true →
  normalized_time_column df1 col xs →
  normalized_time_column df2 col xs →
  (check_continuous_time_column df1 col unit step).2
    = (check_continuous_time_column df2 col unit step).2
  ∧ (assert_continuous_time_column df1 col unit step).2
    = (assert_continuous_time_column df2 col unit step).2.
Proof.
  intros _ _ _ _ H1 H2.
  destruct (normalized_check df1 col unit step xs H1) as (Hcheck1 & Hcol1 & Hrows1).
  destruct (normalized_check df2 col unit step xs H2) as (Hcheck2 & Hcol2 & Hrows2).
  assert ((check_continuous_time_column df1 col unit step).2
          = (check_continuous_time_column df2 col unit step).2) as Hsame.
  { rewrite Hcheck1, Hcheck2. cbn.
    apply check_normalized_time_column_ext; congruence. }
  split; [done |].
  unfold assert_continuous_time_column.
  destruct (check_continuous_time_column df1 col unit step) as [df1' v1].
  destruct (check_continuous_time_column df2 col unit step) as [df2' v2].
  cbn in *. by rewrite Hsame.
Qed.

Lemma verdict_depends_on_normalized_timestamps_witness :
  (check_continuous_time_column month_ends_table "date" "M" (PyInt 1)).2
    = (check_continuous_time_column
         (mkDataFrame ["date"]
            [[VTimeTz 1580425200000000000 3600000000000];
             [VTimeTz 1582930800000000000 3600000000000];
             [VTimeTz 1585609200000000000 3600000000000]]) "date" "M" (PyInt 1)).2.
Proof.
  eapply (verdict_depends_on_normalized_timestamps _ _ "date" "M" (PyInt 1) month_ends_2020).
  - reflexivity.
  - reflexivity.
  - reflexivity.
  - reflexivity.
  - eexists _, _. split; [reflexivity |].
    split; [vm_compute; reflexivity |]. split; [reflexivity |].
    by repeat constructor.
  - eexists _, _. split; [reflexivity |].
    split; [vm_compute; reflexivity |]. split; [reflexivity |].
    by repeat constructor.
Defined.

Lemma to_datetime_naive (vals parsed : list value) :
  to_datetime vals = Ok parsed → Forall naive_datetime (tz_localize_none parsed).
Proof.
  unfold to_datetime, tz_localize_none. revert parsed.
  induction vals as [| v vals IH]; intros parsed; cbn.
  - intros [= <-]. constructor.
  - intros (p & Hp & (ps & Hps & [= <-])%bindR_Ok)%bindR_Ok.
    rewrite fmap_cons. constructor; [| by apply IH].
    destruct v; unfold to_datetime_cell in Hp; try (injection Hp as <-; done).
    destruct (parse_timestamp s); [| done]. injection Hp as <-. done.
Qed.

(** X4. Validation is idempotent on a table whose rows have a cell for
    every column: validating the table that a first validation leaves
    behind changes nothing more and gives the same answer. *)
Theorem validation_is_idempotent (df : DataFrame) (col unit : string) (step : pyval) :
  Forall (λ row, length row = length (columns df)) (rows df) →
  check_continuous_time_column
    (check_continuous_time_column df col unit step).1 col unit step
  = check_continuous_time_column df col unit step.
Proof.
  intros Hrows. unfold check_continuous_time_column at 2 3.
  destruct (bindR (get_column df col) to_datetime) as [parsed | e] eqn:Hparse; cbn [fst].
  - apply bindR_Ok in Hparse as (vals & Hcol & Hparsed).
    assert (is_Some (column_index col (columns df))) as Hidx.
    { unfold get_column in Hcol. by destruct (column_index _ _). }
    assert (length (tz_localize_none parsed) = nrows df) as Hlen.
    { unfold tz_localize_none. rewrite length_fmap.
      rewrite (mapR_length _ _ _ Hparsed). by apply get_column_length in Hcol. }
    pose proof (get_set_column df col _ Hidx Hlen Hrows) as Hget.
    destruct (normalize_naive _ (to_datetime_naive _ _ Hparsed)) as [Hagain Hlocal].
    unfold check_continuous_time_column. rewrite Hget; cbn [bindR].
    rewrite Hagain, Hlocal. by rewrite (set_column_same _ _ _ Hget).
  - unfold check_continuous_time_column. by rewrite Hparse.
Qed.

Lemma validation_is_idempotent_witness :
  check_continuous_time_column
    (check_continuous_time_column month_ends_table "date" "M" (PyInt 1)).1 "date" "M" (PyInt 1)
  = check_continuous_time_column month_ends_table "date" "M" (PyInt 1).
Proof.
  apply validation_is_idempotent. by repeat constructor.
Defined.

Lemma column_index_None (name : string) (cols : list string) :
  name ∉ cols → column_index name cols = None.
Proof.
  induction cols as [| c cols IH]; [done |].
  intros Hin. cbn. destruct (String.eqb_spec c name) as [-> | Hne].
  - destruct Hin. by left.
  - rewrite IH; [done |]. intros ?. apply Hin. by right.
Qed.

(** X5. The validator on a table it cannot read. When the table has no
    column of the given name both functions raise [KeyError] on that name
    and leave the table as it is. When the table has the column but no
    row, both raise [IndexError], whatever the frequency: an empty table
    is neither accepted nor reported as irregular. *)
Theorem validator_missing_column_or_no_row (df : DataFrame) (col unit : string) (step : pyval) :
  (col ∉ columns df →
     check_continuous_time_column df col unit step = (df, Raise (KeyError col))
     ∧ assert_continuous_time_column df col unit step = (df, Raise (KeyError col)))
  ∧ (col ∈ columns df → rows df = [] →
     check_continuous_time_column df col unit step = (df, Raise IndexError)
     ∧ assert_continuous_time_column df col unit step = (df, Raise IndexError)).
Proof.
  split.
  - intros Hmissing%column_index_None.
    assert (check_continuous_time_column df col unit step = (df, Raise (KeyError col))) as Hcheck.
    { unfold check_continuous_time_column, get_column. by rewrite Hmissing. }
    split; [done |]. unfold assert_continuous_time_column. by rewrite Hcheck.
  - intros [i Hi]%column_index_elem_of Hempty.
    assert (check_continuous_time_column df col unit step = (df, Raise IndexError)) as Hcheck.
    { unfold check_continuous_time_column, check_normalized_time_column, get_column, set_column.
      rewrite Hi, Hempty; cbn. rewrite Hi; cbn.
      destruct df as [cols rws]; cbn in *. by subst. }
    split; [done |]. unfold assert_continuous_time_column. by rewrite Hcheck.
Qed.

Lemma validator_missing_column_or_no_row_witness :
  check_continuous_time_column month_ends_table "day" "M" (PyInt 1)
    = (month_ends_table, Raise (KeyError "day"))
  ∧ assert_continuous_time_column (mkDataFrame ["date"; "sales"] []) "date" "M" (PyInt 1)
    = (mkDataFrame ["date"; "sales"] [], Raise IndexError).
Proof.
  destruct (validator_missing_column_or_no_row month_ends_table "day" "M" (PyInt 1))
    as [Hmissing _].
  destruct (validator_missing_column_or_no_row (mkDataFrame ["date"; "sales"] [])
              "date" "M" (PyInt 1)) as [_ Hempty].
  split.
  - apply Hmissing. intros Hin. apply list_elem_of_In in Hin. cbn in Hin.
    by destruct Hin as [? | [? | []]].
  - apply Hempty; [| reflexivity]. apply list_elem_of_In. cbn. tauto.
Defined.

(** ** The schema check of the future dataset *)

(** The schema check compares sets of column names. *)
Lemma schema_check_verdict (train_data_sample : Timeseries)
    (external_features_future_dataset : Dataset) (names : list string) :
  TIMESERIES_KEYS.FEAT_DYNAMIC_REAL_COLUMNS_NAMES train_data_sample = Some names →
  let expected :=
    TIMESERIES_KEYS.TIME_COLUMN_NAME train_data_sample
      :: names ++ default [] (fmap (M := option) (fmap fst)
                                (TIMESERIES_KEYS.IDENTIFIERS train_data_sample)) in
  (external_features_future_dataset_schema_check train_data_sample
     external_features_future_dataset = Ok ()
   ↔ ∀ c, c ∈ read_schema external_features_future_dataset ↔ c ∈ expected)
  ∧ (external_features_future_dataset_schema_check train_data_sample
       external_features_future_dataset = Ok ()
     ∨ external_features_future_dataset_schema_check train_data_sample
         external_features_future_dataset
       = Raise (ValueError (schema_error_message expected))).
Proof.
  intros Hnames expected.
  unfold external_features_future_dataset_schema_check. rewrite Hnames; cbn [getitem bindR].
  assert ((match TIMESERIES_KEYS.IDENTIFIERS train_data_sample with
           | Some ids => ([TIMESERIES_KEYS.TIME_COLUMN_NAME train_data_sample] ++ names) ++ ids.*1
           | None => [TIMESERIES_KEYS.TIME_COLUMN_NAME train_data_sample] ++ names
           end) = expected) as ->.
  { unfold expected. destruct (TIMESERIES_KEYS.IDENTIFIERS train_data_sample); cbn; [done |].
    by rewrite app_nil_r. }
  destruct (decide (list_to_set (read_schema external_features_future_dataset)
                    =@{gset string} list_to_set expected)) as [Heq | Hne].
  - rewrite bool_decide_eq_true_2 by done. cbn. split; [| by left].
    split; [| done]. intros _ c. rewrite <- !(elem_of_list_to_set (C := gset string)).
    by rewrite Heq.
  - rewrite bool_decide_eq_false_2 by done. cbn. split; [| by right].
    split; [done |]. intros Hsame. destruct Hne. apply set_eq. intros c.
    rewrite !elem_of_list_to_set. apply Hsame.
Qed.

(** X6. For a record trained with external features, the schema check
    passes exactly when the future dataset has the same set of column
    names as the time column, the feature columns and the identifier
    columns of the record, in whatever order and with or without
    repetitions; otherwise it raises a [ValueError] that lists the expected
    columns. *)
Theorem schema_check_compares_column_sets (train_data_sample : Timeseries)
    (external_features_future_dataset : Dataset) (names : list string) :
  TIMESERIES_KEYS.FEAT_DYNAMIC_REAL_COLUMNS_NAMES train_data_sample = Some names →
  let expected :=
    TIMESERIES_KEYS.TIME_COLUMN_NAME train_data_sample
      :: names ++ default [] (fmap (M := option) (fmap fst)
                                (TIMESERIES_KEYS.IDENTIFIERS train_data_sample)) in
  (external_features_future_dataset_schema_check train_data_sample
     external_features_future_dataset = Ok ()
   ↔ ∀ c, c ∈ read_schema external_features_future_dataset ↔ c ∈ expected)
  ∧ (external_features_future_dataset_schema_check train_data_sample
       external_features_future_dataset = Ok ()
     ∨ external_features_future_dataset_schema_check train_data_sample
         external_features_future_dataset
       = Raise (ValueError (schema_error_message expected))).
Proof. apply schema_check_verdict. Qed.

Lemma schema_check_compares_column_sets_witness :
  let sample :=
    TIMESERIES_KEYS.mkTimeseries (VTime 0) [VNum 1] "sales" "date"
      (Some {| shape := (1, 1)%nat; data := [[VNum 7]] |}) (Some ["temp"])
      (Some [("store", VStr "a")]) in
  external_features_future_dataset_schema_check sample
    {| read_schema := ["store"; "temp"; "date"; "temp"] |} = Ok ()
  ∧ external_features_future_dataset_schema_check sample {| read_schema := ["date"; "temp"] |}
    = Raise (ValueError
        "The dataset of future values of external features must contains exactly the following columns: ['date', 'temp', 'store']").
Proof.
  intros sample.
  destruct (schema_check_compares_column_sets sample
              {| read_schema := ["store"; "temp"; "date"; "temp"] |} ["temp"] eq_refl)
    as [Hpass _].
  destruct (schema_check_compares_column_sets sample
              {| read_schema := ["date"; "temp"] |} ["temp"] eq_refl)
    as [Hfail [Hok | Hraise]].
  - split; [| by vm_compute in Hok].
    apply Hpass. intros c. rewrite !list_elem_of_In. cbn. tauto.
  - split; [| exact Hraise].
    apply Hpass. intros c. rewrite !list_elem_of_In. cbn. tauto.
Defined.

(** ** The dataset builder: what the records hold *)

Lemma slice_to_length {A B} (stop : option Z) (l : list A) (k : list B) :
  length l = length k → length (slice_to stop l) = length (slice_to stop k).
Proof.
  intros Hlen. unfold slice_to. destruct stop as [z |]; [| done].
  destruct (0 <=? z)%Z; rewrite !length_take; lia.
Qed.

Lemma sort_unique_elem_of {A} (cmp : A → A → comparison) (x : A) (l : list A) :
  x ∈ sort_unique cmp l → x ∈ l.
Proof.
  assert (∀ y s, x ∈ insert_sorted cmp y s → x = y ∨ x ∈ s) as Hinsert.
  { intros y s. induction s as [| z s IH]; cbn.
    - intros ?%list_elem_of_singleton. by left.
    - destruct (cmp y z).
      + by right.
      + intros [-> | Hin]%elem_of_cons; [by left | by right].
      + intros [-> | Hin]%elem_of_cons; [right; by left |].
        destruct (IH Hin) as [-> | ?]; [by left | right; by right]. }
  unfold sort_unique. induction l as [| y l IH]; cbn; [done |].
  intros [-> | Hin]%Hinsert; [by left | right; by apply IH].
Qed.

Lemma mask_rows_filter {A B} `{EqDecision B} (f : A → B) (key : B) (l : list A) :
  mask_rows l ((λ k, bool_decide (k = key)) <$> (f <$> l)) = filter (λ x, f x = key) l.
Proof.
  induction l as [| x l IH]; [done |].
  rewrite !fmap_cons, filter_cons. cbn [mask_rows]. rewrite IH.
  destruct (decide (f x = key)) as [Heq | Hne].
  - by rewrite bool_decide_eq_true_2.
  - by rewrite bool_decide_eq_false_2.
Qed.

(** The groups of [groupby]: a key has one value for each key column, and
    the group holds the rows of the table with that key, in their order. *)
Lemma groupby_groups (df : DataFrame) (names : list string)
    (groups : list (list value * DataFrame)) :
  groupby df names = Ok groups →
  Forall (λ g, length g.1 = length names
               ∧ columns g.2 = columns df
               ∧ rows g.2 = filter (λ row, row_key df names row = g.1) (rows df)) groups.
Proof.
  unfold groupby. intros (keyed & Hkeyed & [= <-])%bindR_Ok.
  pose proof (select_columns_rows _ _ _ Hkeyed) as Hkeys.
  apply Forall_fmap, Forall_forall. intros key Hkey. cbn.
  apply sort_unique_elem_of, list_elem_of_filter in Hkey as [_ Hkey].
  rewrite Hkeys in Hkey. apply list_elem_of_fmap in Hkey as (row & -> & _).
  split; [unfold row_key; by rewrite length_fmap |]. split; [done |].
  rewrite Hkeys. apply mask_rows_filter.
Qed.

Section Builder.
Variable assert_time_column_valid :
  DataFrame → string → string → option value → option nat → result ().
Implicit Types (self : GluonDataset.t) (df : DataFrame) (timeseries : Timeseries).

Lemma multivariate_target_names self df (length_ : option Z)
    (identifiers_values : option (list value)) (records : list Timeseries) :
  GluonDataset._create_gluon_multivariate_timeseries self df length_ identifiers_values
    = Ok records →
  TIMESERIES_KEYS.TARGET_NAME <$> records = GluonDataset.target_columns_names self.
Proof.
  unfold GluonDataset._create_gluon_multivariate_timeseries.
  intros Hall%mapR_Forall2.
  induction Hall as [| target_column_name timeseries names records Hone _ IH]; [done |].
  cbn. apply univariate_fields in Hone as (-> & _). by rewrite IH.
Qed.

(** A property of the record of a table and a target column holds for
    every record of a built dataset. *)
Lemma dataset_records_Forall self (cut_length : option Z) (dataset : ListDataset)
    (P : Timeseries → Prop) :
  GluonDataset.create_list_dataset assert_time_column_valid self cut_length = Ok dataset →
  (∀ df target_column_name identifiers_values timeseries,
     (if list_truthy (GluonDataset.timeseries_identifiers_names self) then
        ∃ key, identifiers_values = Some key
               ∧ length key = length (default [] (GluonDataset.timeseries_identifiers_names self))
      else identifiers_values = None) →
     GluonDataset._create_gluon_univariate_timeseries self df target_column_name
       (GluonDataset.cut_to_length cut_length) identifiers_values = Ok timeseries →
     P timeseries) →
  Forall P (list_data dataset).
Proof.
  intros (_ & groups & per_group & -> & Hall & Hmode)%dataset_records HP.
  assert (Forall (λ g : option (list value) * DataFrame,
                    if list_truthy (GluonDataset.timeseries_identifiers_names self) then
                      ∃ key, g.1 = Some key
                             ∧ length key
                               = length (default [] (GluonDataset.timeseries_identifiers_names self))
                    else g.1 = None) groups) as Hkeys.
  { destruct (list_truthy (GluonDataset.timeseries_identifiers_names self)).
    - destruct Hmode as (grouped & Hgroupby%groupby_groups & ->).
      apply Forall_fmap. eapply Forall_impl; [exact Hgroupby |].
      intros g (Hlen & _). cbn. by exists g.1.
    - subst groups. by repeat constructor. }
  apply Forall_concat. clear Hmode.
  induction Hall as [| g records groups per_group Hhere _ IH]; [constructor |].
  apply Forall_cons in Hkeys as [Hkey Hkeys].
  constructor; [| by apply IH].
  unfold GluonDataset._create_gluon_multivariate_timeseries in Hhere.
  apply mapR_Forall2 in Hhere.
  apply Forall_forall. intros timeseries Hin.
  apply list_elem_of_lookup in Hin as [i Hi].
  destruct (Forall2_lookup_r _ _ _ _ _ Hhere Hi) as (target_column_name & _ & Hone).
  by eapply HP.
Qed.

(** X7. A built dataset has one record for each group of the table and
    each target column: the target names of its records are the list of
    target columns repeated once for every group, in the order of the
    groups, and just the list of target columns when no identifier column
    is given. Every record carries the time column name of the builder,
    and the dataset its frequency. *)
Theorem one_record_per_group_and_target self (cut_length : option Z) (dataset : ListDataset) :
  GluonDataset.create_list_dataset assert_time_column_valid self cut_length = Ok dataset →
  freq dataset = GluonDataset.frequency self
  ∧ Forall (λ timeseries,
              TIMESERIES_KEYS.TIME_COLUMN_NAME timeseries = GluonDataset.time_column_name self)
           (list_data dataset)
  ∧ if list_truthy (GluonDataset.timeseries_identifiers_names self) then
      ∃ groups,
        groupby (GluonDataset.dataframe self)
          (default [] (GluonDataset.timeseries_identifiers_names self)) = Ok groups
        ∧ TIMESERIES_KEYS.TARGET_NAME <$> list_data dataset
          = concat (replicate (length groups) (GluonDataset.target_columns_names self))
    else TIMESERIES_KEYS.TARGET_NAME <$> list_data dataset
         = GluonDataset.target_columns_names self.
Proof.
  intros Hbuild. split; [by apply dataset_records in Hbuild as [? _] |].
  split.
  { eapply dataset_records_Forall; [exact Hbuild |].
    intros df target_column_name identifiers_values timeseries _ Hone.
    by apply univariate_fields in Hone as (_ & ? & _). }
  apply dataset_records in Hbuild as (_ & groups & per_group & -> & Hall & Hmode).
  assert (TIMESERIES_KEYS.TARGET_NAME <$> concat per_group
          = concat (replicate (length groups) (GluonDataset.target_columns_names self))) as Hnames.
  { clear Hmode. induction Hall as [| g records groups per_group Hhere _ IH]; [done |].
    cbn. rewrite fmap_app, IH. by rewrite (multivariate_target_names _ _ _ _ _ Hhere). }
  destruct (list_truthy (GluonDataset.timeseries_identifiers_names self)).
  - destruct Hmode as (grouped & Hgroupby & ->). exists grouped. split; [done |].
    by rewrite Hnames, length_fmap.
  - subst groups. rewrite Hnames. cbn. by rewrite app_nil_r.
Qed.

Lemma Forall2_and_left {A B} (P : A → B → Prop) (Q : A → Prop) (l : list A) (k : list B) :
  Forall Q l → Forall2 P l k → Forall2 (λ x y, Q x ∧ P x y) l k.
Proof.
  intros HQ HP. induction HP as [| x y l k Hxy _ IH]; [constructor |].
  apply Forall_cons in HQ as [Hx HQ]. constructor; [done | by apply IH].
Qed.

(** X8. The identifiers of the records. Without identifier columns no
    record has identifiers. With identifier columns the dataset holds the
    records of each group of the table, group after group; a group is the
    rows of the table that have its key in the identifier columns, and has
    one record for each target column. With two or more identifier
    columns each record of a group maps every identifier column to the
    value of the group's key for that column. With a single identifier
    column a record maps that column to the key of its group only when
    the key is truthy: the records of a group whose key is [0] or the
    empty string carry no identifiers at all. *)
Theorem records_identifiers self (cut_length : option Z) (dataset : ListDataset) :
  GluonDataset.create_list_dataset assert_time_column_valid self cut_length = Ok dataset →
  (if list_truthy (GluonDataset.timeseries_identifiers_names self) then
     ∃ groups per_group,
       groupby (GluonDataset.dataframe self)
         (default [] (GluonDataset.timeseries_identifiers_names self)) = Ok groups
       ∧ list_data dataset = concat per_group
       ∧ Forall2 (λ (g : list value * DataFrame) records,
                    length g.1
                    = length (default [] (GluonDataset.timeseries_identifiers_names self))
                    ∧ rows g.2
                      = filter (λ row,
                                  row_key (GluonDataset.dataframe self)
                                    (default [] (GluonDataset.timeseries_identifiers_names self))
                                    row = g.1)
                               (rows (GluonDataset.dataframe self))
                    ∧ Forall2 (λ target_column_name timeseries,
                                 TIMESERIES_KEYS.TARGET_NAME timeseries = target_column_name
                                 ∧ TIMESERIES_KEYS.IDENTIFIERS timeseries
                                   = match default []
                                             (GluonDataset.timeseries_identifiers_names self),
                                           g.1 with
                                     | [name], [v] =>
                                         if value_truthy v then Some [(name, v)] else None
                                     | names, key => Some (zip names key)
                                     end)
                              (GluonDataset.target_columns_names self) records)
                 groups per_group
   else Forall (λ timeseries, TIMESERIES_KEYS.IDENTIFIERS timeseries = None)
               (list_data dataset))
  ∧ ∀ df target_column_name length_ name v timeseries,
      GluonDataset.timeseries_identifiers_names self = Some [name] →
      GluonDataset._create_gluon_univariate_timeseries self df target_column_name length_
        (Some [v]) = Ok timeseries →
      TIMESERIES_KEYS.IDENTIFIERS timeseries
        = if value_truthy v then Some [(name, v)] else None.
Proof.
  intros Hbuild. split.
  - destruct (list_truthy (GluonDataset.timeseries_identifiers_names self)) eqn:Htruthy.
    + apply dataset_records in Hbuild as (_ & sources & per_group & Hdata & Hall & Hmode).
      rewrite Htruthy in Hmode. destruct Hmode as (groups & Hgroupby & ->).
      exists groups, per_group. split; [done |]. split; [done |].
      apply Forall2_fmap_l in Hall.
      pose proof (Forall2_and_left _ _ _ _ (groupby_groups _ _ _ Hgroupby) Hall) as Hboth.
      eapply Forall2_impl; [exact Hboth |].
      intros [key group] records [(Hlen & _ & Hrows) Hrecords]. cbn [fst snd] in *.
      split; [done |]. split; [done |].
      unfold GluonDataset._create_gluon_multivariate_timeseries in Hrecords.
      apply mapR_Forall2 in Hrecords.
      eapply Forall2_impl; [exact Hrecords |].
      intros target_column_name timeseries Hone.
      apply univariate_fields in Hone as (Hname & _ & _ & _ & -> & _).
      split; [done |].
      destruct (GluonDataset.timeseries_identifiers_names self) as [[| name1 [| name2 names]] |];
        try done; cbn [default] in *; unfold id in *;
        destruct key as [| v [| v2 key]]; try done; cbn; by destruct (value_truthy v).
    + eapply dataset_records_Forall; [exact Hbuild |].
      intros df target_column_name identifiers_values timeseries Hkey Hone.
      rewrite Htruthy in Hkey. subst identifiers_values.
      by apply univariate_fields in Hone as (_ & _ & _ & _ & -> & _).
  - intros df target_column_name length_ name v timeseries Hnames Hone.
    apply univariate_fields in Hone as (_ & _ & _ & _ & -> & _).
    rewrite Hnames. cbn. by destruct (value_truthy v).
Qed.

(** The features of the record of a table and a target column have one
    row for each feature column and one value for each value of the
    target. *)
Lemma univariate_features_aligned self df (target_column_name : string) (length_ : option Z)
    (identifiers_values : option (list value)) timeseries :
  GluonDataset._create_gluon_univariate_timeseries self df target_column_name length_
    identifiers_values = Ok timeseries →
  if list_truthy (GluonDataset.external_features_columns_names self) then
    ∃ feat names,
      GluonDataset.external_features_columns_names self = Some names
      ∧ TIMESERIES_KEYS.FEAT_DYNAMIC_REAL_COLUMNS_NAMES timeseries = Some names
      ∧ TIMESERIES_KEYS.FEAT_DYNAMIC_REAL timeseries = Some feat
      ∧ shape feat = (length names, length (TIMESERIES_KEYS.TARGET timeseries))
      ∧ length (data feat) = length names
      ∧ Forall (λ steps, length steps = length (TIMESERIES_KEYS.TARGET timeseries))
               (data feat)
  else TIMESERIES_KEYS.FEAT_DYNAMIC_REAL timeseries = None
       ∧ TIMESERIES_KEYS.FEAT_DYNAMIC_REAL_COLUMNS_NAMES timeseries = None.
Proof.
  intros Hone.
  apply univariate_fields in Hone as (_ & _ & _ & (column & Hcolumn & Htarget) & _ & Hfeat).
  destruct (list_truthy (GluonDataset.external_features_columns_names self)); [| done].
  destruct Hfeat as (sub & names & Hnames & Hsub & Hfeat & Hfeatnames).
  eexists _, names. split; [done |]. split; [done |]. split; [exact Hfeat |].
  assert (length (rows sub) = length column) as Hrows.
  { apply get_column_length in Hcolumn. rewrite Hcolumn.
    unfold select_columns in Hsub. apply bindR_Ok in Hsub as (idx & _ & [= <-]).
    unfold nrows; cbn. by rewrite length_fmap. }
  assert (columns sub = names) as Hcols.
  { unfold select_columns in Hsub. by apply bindR_Ok in Hsub as (idx & _ & [= <-]). }
  rewrite Htarget. unfold transpose, values, iloc_to, nrows; cbn.
  rewrite Hcols, (slice_to_length _ _ column Hrows).
  split; [done |]. split; [by rewrite length_fmap, length_seq |].
  apply Forall_fmap, Forall_forall. intros j _. cbn.
  rewrite length_fmap. by apply slice_to_length.
Qed.

(** X9. The features of a record are aligned with its target. When the
    builder has external feature columns every record of the dataset
    carries their names and an array with one row for each feature column
    and one value for each value of the target, also after a cut; when it
    has none, no record has features. *)
Theorem features_aligned_with_target self (cut_length : option Z) (dataset : ListDataset) :
  GluonDataset.create_list_dataset assert_time_column_valid self cut_length = Ok dataset →
  Forall (λ timeseries,
            if list_truthy (GluonDataset.external_features_columns_names self) then
              ∃ feat names,
                GluonDataset.external_features_columns_names self = Some names
                ∧ TIMESERIES_KEYS.FEAT_DYNAMIC_REAL_COLUMNS_NAMES timeseries = Some names
                ∧ TIMESERIES_KEYS.FEAT_DYNAMIC_REAL timeseries = Some feat
                ∧ shape feat = (length names, length (TIMESERIES_KEYS.TARGET timeseries))
                ∧ length (data feat) = length names
                ∧ Forall (λ steps, length steps = length (TIMESERIES_KEYS.TARGET timeseries))
                         (data feat)
            else TIMESERIES_KEYS.FEAT_DYNAMIC_REAL timeseries = None
                 ∧ TIMESERIES_KEYS.FEAT_DYNAMIC_REAL_COLUMNS_NAMES timeseries = None)
         (list_data dataset).
Proof.
  intros Hbuild. eapply dataset_records_Forall; [exact Hbuild |].
  intros df target_column_name identifiers_values timeseries _ Hone.
  by eapply univariate_features_aligned.
Qed.

(** X10. Degenerate cuts. A [cut_length] of zero cuts nothing: the call
    is the call without a cut. A negative [cut_length] does not lengthen
    the series: the target of a record is then the first [- cut_length]
    values of its target column. *)
Theorem cut_length_zero_or_negative self :
  GluonDataset.create_list_dataset assert_time_column_valid self (Some 0%Z)
    = GluonDataset.create_list_dataset assert_time_column_valid self None
  ∧ ∀ (k : Z) df target_column_name identifiers_values timeseries,
      (k < 0)%Z →
      GluonDataset._create_gluon_univariate_timeseries self df target_column_name
        (GluonDataset.cut_to_length (Some k)) identifiers_values = Ok timeseries →
      ∃ column,
        get_column df target_column_name = Ok column
        ∧ TIMESERIES_KEYS.TARGET timeseries = take (Z.to_nat (- k)) column.
Proof.
  split; [done |].
  intros k df target_column_name identifiers_values timeseries Hk Hone.
  apply univariate_fields in Hone as (_ & _ & _ & (column & Hcolumn & ->) & _).
  exists column. split; [done |].
  unfold GluonDataset.cut_to_length, slice_to.
  destruct (Z.eqb_spec k 0); [lia |].
  destruct (Z.leb_spec 0 (- k)); [done | lia].
Qed.

End Builder.

Lemma one_record_per_group_and_target_witness :
  ∃ dataset,
    GluonDataset.create_list_dataset assert_time_column_valid_spec stores_builder None
      = Ok dataset
    ∧ TIMESERIES_KEYS.TARGET_NAME <$> list_data dataset = ["sales"; "visits"; "sales"; "visits"].
Proof.
  eexists. split; [vm_compute; reflexivity |].
  destruct (one_record_per_group_and_target assert_time_column_valid_spec stores_builder None _
              ltac:(vm_compute; reflexivity)) as (_ & _ & groups & Hgroups & Hnames).
  vm_compute in Hgroups. injection Hgroups as <-. exact Hnames.
Defined.

Lemma records_identifiers_witness :
  ∃ dataset (groups : list (list value * DataFrame)) (per_group : list (list Timeseries)),
    GluonDataset.create_list_dataset assert_time_column_valid_spec stores_builder None
      = Ok dataset
    ∧ groupby stores_table ["store"] = Ok groups
    ∧ fst <$> groups = [[VNum 0]; [VNum 1]]
    ∧ list_data dataset = concat per_group
    ∧ (λ records : list Timeseries, TIMESERIES_KEYS.IDENTIFIERS <$> records) <$> per_group
      = [[None; None]; [Some [("store", VNum 1)]; Some [("store", VNum 1)]]].
Proof.
  destruct (records_identifiers assert_time_column_valid_spec stores_builder None _
              ltac:(vm_compute; reflexivity)) as [(groups & per_group & Hgroups & Hdata & Hall) _].
  eexists _, groups, per_group. split; [vm_compute; reflexivity |].
  split; [exact Hgroups |].
  vm_compute in Hgroups. injection Hgroups as <-.
  split; [reflexivity |]. split; [exact Hdata |].
  apply Forall2_cons_inv_l in Hall as (first & rest & (_ & _ & Hfirst) & Hall & ->).
  apply Forall2_cons_inv_l in Hall as (second & none & (_ & _ & Hsecond) & Hnone & ->).
  apply Forall2_nil_inv_l in Hnone as ->.
  apply Forall2_cons_inv_l in Hfirst as (a & l & [_ Ha] & Hfirst & ->).
  apply Forall2_cons_inv_l in Hfirst as (b & l' & [_ Hb] & Hfirst & ->).
  apply Forall2_nil_inv_l in Hfirst as ->.
  apply Forall2_cons_inv_l in Hsecond as (c & l & [_ Hc] & Hsecond & ->).
  apply Forall2_cons_inv_l in Hsecond as (d & l' & [_ Hd] & Hsecond & ->).
  apply Forall2_nil_inv_l in Hsecond as ->.
  cbn in Ha, Hb, Hc, Hd |- *. by rewrite Ha, Hb, Hc, Hd.
Defined.

Lemma features_aligned_with_target_witness :
  ∃ dataset,
    GluonDataset.create_list_dataset assert_time_column_valid_spec stores_builder (Some 1%Z)
      = Ok dataset
    ∧ Forall (λ timeseries,
                ∃ feat names,
                  GluonDataset.external_features_columns_names stores_builder = Some names
                  ∧ TIMESERIES_KEYS.FEAT_DYNAMIC_REAL_COLUMNS_NAMES timeseries = Some names
                  ∧ TIMESERIES_KEYS.FEAT_DYNAMIC_REAL timeseries = Some feat
                  ∧ shape feat = (length names, length (TIMESERIES_KEYS.TARGET timeseries))
                  ∧ length (data feat) = length names
                  ∧ Forall (λ steps, length steps = length (TIMESERIES_KEYS.TARGET timeseries))
                           (data feat))
             (list_data dataset).
Proof.
  eexists. split; [vm_compute; reflexivity |].
  apply (features_aligned_with_target assert_time_column_valid_spec stores_builder (Some 1%Z)).
  vm_compute. reflexivity.
Defined.

Lemma cut_length_zero_or_negative_witness :
  ∃ timeseries column,
    GluonDataset._create_gluon_univariate_timeseries stores_builder stores_table "sales"
      (GluonDataset.cut_to_length (Some (-3)%Z)) None = Ok timeseries
    ∧ get_column stores_table "sales" = Ok column
    ∧ TIMESERIES_KEYS.TARGET timeseries = take 3 column.
Proof.
  destruct (cut_length_zero_or_negative assert_time_column_valid_spec stores_builder) as [_ Hneg].
  eexists. 
  destruct (Hneg (-3)%Z stores_table "sales" None _ ltac:(lia) ltac:(vm_compute; reflexivity))
    as (column & Hcolumn & Htarget).
  exists column. split; [vm_compute; reflexivity |]. split; [exact Hcolumn | exact Htarget].
Defined.

(** ** The rows of the future table that belong to a record *)

Lemma mask_rows_fmap {A} (p : A → bool) (l : list A) :
  mask_rows l (p <$> l) = filter (λ x, p x) l.
Proof.
  induction l as [| x l IH]; [done |].
  rewrite fmap_cons, filter_cons. cbn [mask_rows]. rewrite IH.
  by destruct (p x).
Qed.

Lemma zip_with_fmap_diag {A B C D} (f : B → C → D) (g : A → B) (h : A → C) (l : list A) :
  zip_with f (g <$> l) (h <$> l) = (λ x, f (g x) (h x)) <$> l.
Proof. induction l as [| x l IH]; cbn; [done | by rewrite IH]. Qed.

Lemma foldl_zip_with_andb {A} (q : A → bool) (ps : list (A → bool)) (l : list A) :
  foldl (zip_with andb) (q <$> l) ((λ p, p <$> l) <$> ps)
  = (λ x, q x && forallb (λ p, p x) ps) <$> l.
Proof.
  revert q. induction ps as [| p ps IH]; intros q; cbn.
  - apply list_fmap_ext. intros _ x _. by rewrite andb_true_r.
  - rewrite zip_with_fmap_diag, IH. apply list_fmap_ext. intros _ x _.
    by rewrite andb_assoc.
Qed.

Lemma forallb_fmap {A B} (p : B → bool) (f : A → B) (l : list A) :
  forallb p (f <$> l) = forallb (λ x, p (f x)) l.
Proof. induction l as [| x l IH]; cbn; [done | by rewrite IH]. Qed.

(** Conditions that each test the rows with a predicate keep the rows that
    pass every test. *)
Lemma apply_filter_conditions_predicates (df : DataFrame) (ps : list (list value → bool)) :
  apply_filter_conditions df ((λ p, p <$> rows df) <$> ps)
  = {| columns := columns df;
       rows := filter (λ row, forallb (λ p, p row) ps) (rows df) |}.
Proof.
  destruct ps as [| p [| p' ps]].
  - cbn. destruct df as [cols rws]; cbn. f_equal.
    induction rws as [| r rws IH]; [done |]. rewrite filter_cons. cbn. by rewrite <- IH.
  - cbn -[filter]. unfold filter_mask. f_equal. rewrite mask_rows_fmap.
    apply list_filter_iff. intros row. by rewrite andb_true_r.
  - change (apply_filter_conditions df ((λ p0, p0 <$> rows df) <$> p :: p' :: ps))
      with (filter_mask df (foldl (zip_with andb) (p <$> rows df)
                              ((λ p0, p0 <$> rows df) <$> (p' :: ps)))).
    rewrite foldl_zip_with_andb. unfold filter_mask. f_equal.
    by rewrite mask_rows_fmap.
Qed.

(** X11. The slice of the future table taken for a record. A record
    without identifiers takes the whole table. A record with identifiers,
    all of them columns of the table, takes the rows that agree with every
    identifier, in their order and with all the columns; rows with a
    missing value in an identifier column are never taken. When an
    identifier is not a column of the table the first such identifier is
    reported by a [KeyError]. *)
Theorem filter_identifiers_keeps_matching_rows (external_features_future_df : DataFrame)
    (timeseries : Timeseries) :
  match TIMESERIES_KEYS.IDENTIFIERS timeseries with
  | None => filter_identifiers external_features_future_df timeseries
            = Ok external_features_future_df
  | Some identifiers =>
      (Forall (λ kv, kv.1 ∈ columns external_features_future_df) identifiers →
       filter_identifiers external_features_future_df timeseries
       = Ok {| columns := columns external_features_future_df;
               rows := filter (λ row, matches_identifiers external_features_future_df
                                        identifiers row)
                         (rows external_features_future_df) |})
      ∧ (∀ before k v after,
           identifiers = before ++ (k, v) :: after →
           Forall (λ kv, kv.1 ∈ columns external_features_future_df) before →
           k ∉ columns external_features_future_df →
           filter_identifiers external_features_future_df timeseries = Raise (KeyError k))
  end.
Proof.
  unfold filter_identifiers.
  destruct (TIMESERIES_KEYS.IDENTIFIERS timeseries) as [identifiers |]; [| done].
  set (df := external_features_future_df).
  assert (∀ ids, Forall (λ kv : string * value, kv.1 ∈ columns df) ids →
            mapR (λ '(k, v), mapOk (fmap (λ c, cell_eq c v)) (get_column df k)) ids
            = Ok ((λ p : list value → bool, p <$> rows df)
                    <$> ((λ (kv : string * value) row, cell_eq (row_cell df kv.1 row) kv.2)
                           <$> ids))) as Hconditions.
  { intros ids Hids. induction Hids as [| [k v] ids Hk _ IH]; [done |].
    cbn [mapR]. rewrite IH. unfold get_column, row_cell. cbn in Hk |- *.
    destruct (column_index_elem_of k _ Hk) as [i ->]. cbn.
    by rewrite <- list_fmap_compose. }
  split.
  - intros Hids. rewrite (Hconditions _ Hids). cbn [bindR].
    rewrite apply_filter_conditions_predicates. do 2 f_equal.
    apply list_filter_iff. intros row. unfold matches_identifiers.
    by rewrite forallb_fmap.
  - intros before k v after -> Hbefore Hmissing.
    erewrite mapR_app_raise; [done | exact (Hconditions _ Hbefore) |].
    unfold get_column. by rewrite (column_index_None _ _ Hmissing).
Qed.

Lemma filter_identifiers_keeps_matching_rows_witness :
  filter_identifiers stores_table
    (TIMESERIES_KEYS.mkTimeseries (VTime 0) [VNum 7; VNum 8] "sales" "date" None None
       (Some [("store", VNum 1)]))
  = Ok {| columns := columns stores_table;
          rows := [[VTime 0; VNum 1; VNum 7; VNum 70; VNum 20];
                   [VTime 86400000000000; VNum 1; VNum 8; VNum 80; VNum 21]] |}.
Proof.
  pose proof (filter_identifiers_keeps_matching_rows stores_table
                (TIMESERIES_KEYS.mkTimeseries (VTime 0) [VNum 7; VNum 8] "sales" "date" None None
                   (Some [("store", VNum 1)]))) as [Hrows _].
  rewrite Hrows; [reflexivity |]. repeat constructor.
Defined.

(** ** Extending the features with their future values *)

Lemma getitem_Ok {A} (key : string) (field : option A) (a : A) :
  getitem key field = Ok a → field = Some a.
Proof. destruct field; cbn; congruence. Qed.

Lemma select_columns_columns (df sub : DataFrame) (names : list string) :
  select_columns df names = Ok sub → columns sub = names ∧ nrows sub = nrows df.
Proof.
  unfold select_columns. intros (idx & _ & [= <-])%bindR_Ok. cbn.
  split; [done |]. unfold nrows; cbn. by rewrite length_fmap.
Qed.

Section Extension.
Variable prepare_timeseries_dataframe : DataFrame → string → string → result DataFrame.

(** What one turn of the loop does to a record. *)
Lemma add_future_record (external_features_future_df : DataFrame) (prediction_length : Z)
    (frequency : string) (timeseries extended : Timeseries) :
  add_future_external_features_to prepare_timeseries_dataframe external_features_future_df
    prediction_length frequency timeseries = Ok extended →
  (TIMESERIES_KEYS.START extended = TIMESERIES_KEYS.START timeseries
   ∧ TIMESERIES_KEYS.TARGET extended = TIMESERIES_KEYS.TARGET timeseries
   ∧ TIMESERIES_KEYS.TARGET_NAME extended = TIMESERIES_KEYS.TARGET_NAME timeseries
   ∧ TIMESERIES_KEYS.TIME_COLUMN_NAME extended = TIMESERIES_KEYS.TIME_COLUMN_NAME timeseries
   ∧ TIMESERIES_KEYS.FEAT_DYNAMIC_REAL_COLUMNS_NAMES extended
     = TIMESERIES_KEYS.FEAT_DYNAMIC_REAL_COLUMNS_NAMES timeseries
   ∧ TIMESERIES_KEYS.IDENTIFIERS extended = TIMESERIES_KEYS.IDENTIFIERS timeseries)
  ∧ (0 ≤ prediction_length)%Z
  ∧ ∃ feat feat' names future_steps,
      TIMESERIES_KEYS.FEAT_DYNAMIC_REAL timeseries = Some feat
      ∧ TIMESERIES_KEYS.FEAT_DYNAMIC_REAL_COLUMNS_NAMES timeseries = Some names
      ∧ TIMESERIES_KEYS.FEAT_DYNAMIC_REAL extended = Some feat'
      ∧ fst (shape feat) = length names
      ∧ shape feat' = (length names, (snd (shape feat) + Z.to_nat prediction_length)%nat)
      ∧ length future_steps = length names
      ∧ Forall (λ steps, length steps = Z.to_nat prediction_length) future_steps
      ∧ data feat' = zip_with app (data feat) future_steps.
Proof.
  unfold add_future_external_features_to.
  intros (slice & _ & (feat & Hfeat%getitem_Ok & (names & Hnames%getitem_Ok
            & (prepared & _ & (selected & Hselected & Hrest)%bindR_Ok)%bindR_Ok)%bindR_Ok)
            %bindR_Ok)%bindR_Ok.
  apply select_columns_columns in Hselected as [Hcols _].
  cbn [transpose values shape snd fst] in Hrest.
  destruct (Z.eqb_spec (Z.of_nat (nrows selected)) prediction_length) as [Hpl |]; [| done].
  cbn [negb] in Hrest. apply bindR_Ok in Hrest as (appended & Happend & [= <-]).
  unfold append_axis1 in Happend. cbn [transpose values shape snd fst data] in Happend.
  destruct (Nat.eqb_spec (fst (shape feat)) (length (columns selected))) as [Hfirst |]; [| done].
  cbn [negb] in Happend. injection Happend as <-. cbn.
  split; [done |]. split; [lia |].
  eexists feat, _, names, ((λ j, cell j <$> rows selected) <$> seq 0 (length names)).
  split; [done |]. split; [done |]. split; [reflexivity |].
  rewrite Hcols in *. cbn.
  split; [done |]. split; [by rewrite Hfirst, <- Hpl, Nat2Z.id |].
  split; [by rewrite length_fmap, length_seq |].
  split; [| done].
  apply Forall_fmap, Forall_forall. intros j _. cbn.
  rewrite length_fmap. unfold nrows in Hpl. lia.
Qed.

(** X12. When [add_future_external_features] returns, the dataset it
    returns has the frequency and the records of the training dataset, in
    their order, each with the same start, target, names and identifiers;
    the features of each record have one row for each feature name and
    exactly [prediction_length] more time steps than before, the new steps
    being appended to the old ones. *)
Theorem future_features_extend_each_record (gluon_train_dataset : ListDataset)
    (external_features_future_df : DataFrame) (prediction_length : Z) (frequency : string)
    (gluon_dataset : ListDataset) :
  add_future_external_features prepare_timeseries_dataframe gluon_train_dataset
    external_features_future_df prediction_length frequency = Ok gluon_dataset →
  freq gluon_dataset = freq gluon_train_dataset
  ∧ Forall2 (λ timeseries extended,
               (TIMESERIES_KEYS.START extended = TIMESERIES_KEYS.START timeseries
                ∧ TIMESERIES_KEYS.TARGET extended = TIMESERIES_KEYS.TARGET timeseries
                ∧ TIMESERIES_KEYS.TARGET_NAME extended = TIMESERIES_KEYS.TARGET_NAME timeseries
                ∧ TIMESERIES_KEYS.TIME_COLUMN_NAME extended
                  = TIMESERIES_KEYS.TIME_COLUMN_NAME timeseries
                ∧ TIMESERIES_KEYS.FEAT_DYNAMIC_REAL_COLUMNS_NAMES extended
                  = TIMESERIES_KEYS.FEAT_DYNAMIC_REAL_COLUMNS_NAMES timeseries
                ∧ TIMESERIES_KEYS.IDENTIFIERS extended = TIMESERIES_KEYS.IDENTIFIERS timeseries)
               ∧ (0 ≤ prediction_length)%Z
               ∧ ∃ feat feat' names future_steps,
                   TIMESERIES_KEYS.FEAT_DYNAMIC_REAL timeseries = Some feat
                   ∧ TIMESERIES_KEYS.FEAT_DYNAMIC_REAL_COLUMNS_NAMES timeseries = Some names
                   ∧ TIMESERIES_KEYS.FEAT_DYNAMIC_REAL extended = Some feat'
                   ∧ fst (shape feat) = length names
                   ∧ shape feat'
                     = (length names, (snd (shape feat) + Z.to_nat prediction_length)%nat)
                   ∧ length future_steps = length names
                   ∧ Forall (λ steps, length steps = Z.to_nat prediction_length) future_steps
                   ∧ data feat' = zip_with app (data feat) future_steps)
            (list_data gluon_train_dataset) (list_data gluon_dataset).
Proof.
  unfold add_future_external_features.
  intros (updated & Hupdated%mapR_Forall2 & [= <-])%bindR_Ok. cbn.
  split; [done |]. eapply Forall2_impl; [exact Hupdated |].
  intros timeseries extended. apply add_future_record.
Qed.

End Extension.

Lemma future_features_extend_each_record_witness :
  let record :=
    TIMESERIES_KEYS.mkTimeseries (VTime 0) [VNum 1; VNum 2] "sales" "date"
      (Some {| shape := (1, 2)%nat; data := [[VNum 10; VNum 11]] |}) (Some ["temp"])
      (Some [("store", VStr "a")]) in
  let future :=
    mkDataFrame ["date"; "store"; "temp"]
      [[VTime 172800000000000; VStr "a"; VNum 12]; [VTime 259200000000000; VStr "a"; VNum 13]] in
  ∃ gluon_dataset,
    add_future_external_features prepare_timeseries_dataframe_spec
      (mkListDataset [record] "1D") future 2 "1D" = Ok gluon_dataset
    ∧ freq gluon_dataset = "1D"
    ∧ (TIMESERIES_KEYS.FEAT_DYNAMIC_REAL <$> list_data gluon_dataset)
      = [Some {| shape := (1, 4)%nat; data := [[VNum 10; VNum 11; VNum 12; VNum 13]] |}].
Proof.
  intros record future. eexists. split; [vm_compute; reflexivity |].
  split; [| vm_compute; reflexivity].
  eapply (future_features_extend_each_record prepare_timeseries_dataframe_spec
            (mkListDataset [record] "1D") future 2 "1D").
  vm_compute. reflexivity.
Defined.

(** ** The history: assertion on the features *)

Lemma to_offset_raise (frequency : string) (e : exn) :
  to_offset frequency = Raise e → ∃ msg, e = ValueError msg.
Proof.
  unfold to_offset. destruct (span_digits frequency) as [ds alias].
  repeat match goal with
         | |- (if ?c then _ else _) = _ → _ => destruct c
         end;
    intros [= <-]; by eexists.
Qed.

Lemma date_range_periods_cells_raise (start : value) (periods : Z) (frequency : string) (e : exn) :
  date_range_periods_cells start periods frequency = Raise e → ∃ msg, e = ValueError msg.
Proof.
  unfold date_range_periods_cells.
  destruct (to_offset frequency) as [o |] eqn:Hoffset; cbn.
  - destruct (periods <? 0)%Z; [intros [= <-]; by eexists |].
    destruct start; intros [= <-]; by eexists.
  - intros [= <-]. by eapply to_offset_raise.
Qed.

Section History.
Context {F : Type} `{PyFloat F}.
Implicit Types (self : TrainedModel.t (F := F)) (timeseries : Timeseries).

Lemma target_series_raise self timeseries (frequency : string) (e : exn) :
  TrainedModel._generate_history_target_series self timeseries frequency = Raise e →
  ∃ msg, e = ValueError msg.
Proof.
  unfold TrainedModel._generate_history_target_series.
  destruct (TrainedModel.prediction_length self <? 0)%Z; cbn; [intros [= <-]; by eexists |].
  destruct (date_range_periods_cells _ _ _) as [index |] eqn:Hindex; cbn.
  - unfold make_series. destruct (negb _); [intros [= <-]; by eexists | done].
  - intros [= <-]. by eapply date_range_periods_cells_raise.
Qed.

Lemma external_features_dataframe_raise self timeseries (frequency : string) (e : exn) :
  TrainedModel._generate_history_external_features_dataframe self timeseries frequency = Raise e →
  e ≠ AssertionError.
Proof.
  unfold TrainedModel._generate_history_external_features_dataframe.
  destruct (TIMESERIES_KEYS.FEAT_DYNAMIC_REAL timeseries); cbn; [| by intros [= <-]].
  destruct (TIMESERIES_KEYS.FEAT_DYNAMIC_REAL_COLUMNS_NAMES timeseries); cbn; [| by intros [= <-]].
  destruct (date_range_periods_cells _ _ _) as [index |] eqn:Hindex; cbn.
  - unfold make_frame. destruct (negb _); [by intros [= <-] | done].
  - intros [= <-]. apply date_range_periods_cells_raise in Hindex as [msg ->]. done.
Qed.

Lemma history_loop_app self (frequency : string) (before after : list Timeseries)
    (history_timeseries : series_dict) :
  TrainedModel._retrieve_history_timeseries_loop self frequency (before ++ after)
    history_timeseries
  = let! reached :=
      TrainedModel._retrieve_history_timeseries_loop self frequency before history_timeseries in
    TrainedModel._retrieve_history_timeseries_loop self frequency after reached.
Proof.
  revert history_timeseries. induction before as [| timeseries before IH];
    intros history_timeseries; [done |].
  cbn [app TrainedModel._retrieve_history_timeseries_loop].
  destruct (TrainedModel._generate_history_target_series self timeseries frequency); [| done].
  cbn [bindR].
  match goal with |- bindR ?m _ = _ => destruct m end; [| done].
  cbn [bindR]. apply IH.
Qed.

(** The loop fails its assertion only on a record whose features have
    fewer time steps than its target and the horizon together. *)
Lemma history_assertion_fails_on_short_features self (frequency : string)
    (records : list Timeseries) (history_timeseries : series_dict) :
  TrainedModel._retrieve_history_timeseries_loop self frequency records history_timeseries
    = Raise AssertionError →
  Exists (λ timeseries,
            ∃ feat, TIMESERIES_KEYS.FEAT_DYNAMIC_REAL timeseries = Some feat
                    ∧ (Z.of_nat (snd (shape feat))
                       < Z.of_nat (length (TIMESERIES_KEYS.TARGET timeseries))
                         + TrainedModel.prediction_length self)%Z) records.
Proof.
  revert history_timeseries. induction records as [| timeseries records IH];
    intros history_timeseries; [done |].
  cbn [TrainedModel._retrieve_history_timeseries_loop].
  destruct (TrainedModel._generate_history_target_series self timeseries frequency)
    as [target_series |] eqn:Htarget; cbn [bindR].
  2: { intros [= ->]. by apply target_series_raise in Htarget as [msg ?]. }
  destruct (bool_decide (is_Some (TIMESERIES_KEYS.FEAT_DYNAMIC_REAL_COLUMNS_NAMES timeseries))).
  - destruct (TIMESERIES_KEYS.FEAT_DYNAMIC_REAL timeseries) as [feat |] eqn:Hfeat;
      cbn [getitem bindR]; [| done].
    destruct (Z.ltb_spec (Z.of_nat (snd (shape feat)))
                (Z.of_nat (length (TIMESERIES_KEYS.TARGET timeseries))
                 + TrainedModel.prediction_length self)) as [Hshort | _].
    { intros _. left. by exists feat. }
    destruct (bool_decide (is_Some (dict_get _ history_timeseries))); cbn [bindR].
    { intros Hrest. right. by eapply IH. }
    destruct (TrainedModel._generate_history_external_features_dataframe self timeseries frequency)
      as [external_features_df |] eqn:Hexternal; cbn [bindR].
    + intros Hrest. right. by eapply IH.
    + intros [= ->]. by apply external_features_dataframe_raise in Hexternal.
  - cbn [bindR]. intros Hrest. right. by eapply IH.
Qed.

(** X14. The history cannot be rebuilt from features that were not
    extended over the horizon. At the first record that has feature names
    and whose features have fewer time steps than the length of its target
    plus the prediction length, [_retrieve_history_timeseries] fails its
    assertion, and so does [_include_history]. *)
Theorem history_asserts_features_cover_horizon self (frequency : string)
    (before after : list Timeseries) timeseries (reached : series_dict)
    (target_series : TimeFrame) (feat : ndarray) (names : list string) :
  list_data (TrainedModel.gluon_dataset self) = before ++ timeseries :: after →
  TrainedModel._retrieve_history_timeseries_loop self frequency before [] = Ok reached →
  TrainedModel._generate_history_target_series self timeseries frequency = Ok target_series →
  TIMESERIES_KEYS.FEAT_DYNAMIC_REAL_COLUMNS_NAMES timeseries = Some names →
  TIMESERIES_KEYS.FEAT_DYNAMIC_REAL timeseries = Some feat →
  (Z.of_nat (snd (shape feat))
   < Z.of_nat (length (TIMESERIES_KEYS.TARGET timeseries)) + TrainedModel.prediction_length self)%Z →
  TrainedModel._retrieve_history_timeseries self frequency = Raise AssertionError
  ∧ TrainedModel._include_history self frequency = Raise AssertionError.
Proof.
  intros Hdata Hbefore Htarget Hnames Hfeat Hshort.
  assert (TrainedModel._retrieve_history_timeseries self frequency = Raise AssertionError)
    as Hraise.
  { unfold TrainedModel._retrieve_history_timeseries. rewrite Hdata, history_loop_app, Hbefore.
    cbn [bindR TrainedModel._retrieve_history_timeseries_loop].
    rewrite Htarget, Hnames, Hfeat. cbn [bindR getitem].
    rewrite bool_decide_eq_true_2 by (by eexists).
    by destruct (Z.ltb_spec (Z.of_nat (snd (shape feat)))
                   (Z.of_nat (length (TIMESERIES_KEYS.TARGET timeseries))
                    + TrainedModel.prediction_length self)); [| lia]. }
  split; [done |].
  unfold TrainedModel._include_history, TrainedModel.history_df. by rewrite Hraise.
Qed.

End History.

Lemma history_asserts_features_cover_horizon_witness :
  ∃ dataset,
    GluonDataset.create_list_dataset assert_time_column_valid_spec daily_builder None = Ok dataset
    ∧ TrainedModel._include_history (daily_model dataset) "1D" = Raise AssertionError.
Proof.
  eexists. split; [vm_compute; reflexivity |].
  eapply (history_asserts_features_cover_horizon (daily_model _) "1D" []).
  - vm_compute. reflexivity.
  - reflexivity.
  - vm_compute. reflexivity.
  - reflexivity.
  - reflexivity.
  - vm_compute. reflexivity.
Defined.

(** ** From the table to the history *)

Section Pipeline.
Variable assert_time_column_valid :
  DataFrame → string → string → option value → option nat → result ().
Variable prepare_timeseries_dataframe : DataFrame → string → string → result DataFrame.
Context {F : Type} `{PyFloat F}.

(** X13. The three stages fit together. Take a dataset built from a table
    by [create_list_dataset], extended by [add_future_external_features]
    over a horizon, and handed to a reconstructor whose prediction length
    does not exceed that horizon: [_retrieve_history_timeseries] does not
    fail its assertion on the features, at any frequency. *)
Theorem built_and_extended_dataset_passes_assertion (builder : GluonDataset.t)
    (cut_length : option Z) (gluon_train_dataset gluon_dataset : ListDataset)
    (external_features_future_df : DataFrame) (prediction_length : Z)
    (frequency history_frequency : string) (self : TrainedModel.t (F := F)) :
  GluonDataset.create_list_dataset assert_time_column_valid builder cut_length
    = Ok gluon_train_dataset →
  add_future_external_features prepare_timeseries_dataframe gluon_train_dataset
    external_features_future_df prediction_length frequency = Ok gluon_dataset →
  TrainedModel.gluon_dataset self = gluon_dataset →
  (TrainedModel.prediction_length self ≤ prediction_length)%Z →
  TrainedModel._retrieve_history_timeseries self history_frequency ≠ Raise AssertionError.
Proof.
  intros Hbuild Hextend Hdataset Hhorizon Hraise.
  unfold TrainedModel._retrieve_history_timeseries in Hraise.
  apply history_assertion_fails_on_short_features in Hraise.
  apply Exists_exists in Hraise as (extended & Hin & feat' & Hfeat' & Hshort).
  rewrite Hdataset in Hin.
  unfold add_future_external_features in Hextend.
  apply bindR_Ok in Hextend as (updated & Hupdated%mapR_Forall2 & [= <-]). cbn in Hin.
  apply list_elem_of_lookup in Hin as [i Hi].
  destruct (Forall2_lookup_r _ _ _ _ _ Hupdated Hi) as (timeseries & Hsource & Hone).
  apply add_future_record in Hone
    as ((_ & Htarget & _) & Hpositive & feat & feat'' & names & _ & Hfeat & _ & Hfeat'' & _
        & Hshape & _).
  assert (Forall (λ timeseries,
                    ∀ feat, TIMESERIES_KEYS.FEAT_DYNAMIC_REAL timeseries = Some feat →
                            snd (shape feat) = length (TIMESERIES_KEYS.TARGET timeseries))
                 (list_data gluon_train_dataset)) as Haligned.
  { eapply dataset_records_Forall; [exact Hbuild |].
    intros df target_column_name identifiers_values record _ Hrecord a Ha.
    apply univariate_features_aligned in Hrecord.
    destruct (list_truthy (GluonDataset.external_features_columns_names builder)).
    - destruct Hrecord as (a' & ? & _ & _ & Ha' & Hshape' & _).
      rewrite Ha in Ha'. injection Ha' as <-. by rewrite Hshape'.
    - destruct Hrecord as [Hnone _]. congruence. }
  rewrite Forall_forall in Haligned.
  specialize (Haligned timeseries (list_elem_of_lookup_2 _ _ _ Hsource) feat Hfeat).
  rewrite Hfeat' in Hfeat''. injection Hfeat'' as <-.
  rewrite Hshape, Htarget in Hshort. cbn in Hshort. lia.
Qed.

End Pipeline.

Lemma built_and_extended_dataset_passes_assertion_witness :
  ∃ gluon_train_dataset gluon_dataset,
    GluonDataset.create_list_dataset assert_time_column_valid_spec daily_builder None
      = Ok gluon_train_dataset
    ∧ add_future_external_features prepare_timeseries_dataframe_spec gluon_train_dataset
        daily_future_table 2 "1D" = Ok gluon_dataset
    ∧ TrainedModel._retrieve_history_timeseries (daily_model gluon_dataset) "1D"
      ≠ Raise AssertionError.
Proof.
  eexists _, _. split; [vm_compute; reflexivity |]. split; [vm_compute; reflexivity |].
  eapply (built_and_extended_dataset_passes_assertion assert_time_column_valid_spec
            prepare_timeseries_dataframe_spec daily_builder None _ _ daily_future_table 2 "1D").
  - vm_compute. reflexivity.
  - vm_compute. reflexivity.
  - reflexivity.
  - cbn. lia.
Defined.

(** ** The history: series, horizon and join *)

Section HistorySeries.
Context {F : Type} `{PyFloat F}.
Implicit Types (self : TrainedModel.t (F := F)) (timeseries : Timeseries).

(** X15. The history series of a record. With a negative prediction
    length it cannot be made: a [ValueError] is raised. With a prediction
    length that is not negative, a frequency that [to_offset] reads and a
    record that starts at a naive timestamp, it is made. Whenever it is
    made it has one column, named after the target, holding the target
    values followed by one missing value for each step of the horizon,
    over an index that is a regular grid at the frequency. *)
Theorem history_target_series_pads_horizon self timeseries (frequency : string) :
  ((TrainedModel.prediction_length self < 0)%Z →
   ∃ msg,
     TrainedModel._generate_history_target_series self timeseries frequency
     = Raise (ValueError msg))
  ∧ (∀ o start,
       (0 ≤ TrainedModel.prediction_length self)%Z →
       to_offset frequency = Ok o →
       TIMESERIES_KEYS.START timeseries = VTime start →
       ∃ target_series,
         TrainedModel._generate_history_target_series self timeseries frequency
         = Ok target_series)
  ∧ ∀ target_series,
      TrainedModel._generate_history_target_series self timeseries frequency = Ok target_series →
      (0 ≤ TrainedModel.prediction_length self)%Z
      ∧ tf_columns target_series = [TIMESERIES_KEYS.TARGET_NAME timeseries]
      ∧ tf_rows target_series
        = ((λ v, [v]) <$> TIMESERIES_KEYS.TARGET timeseries)
            ++ replicate (Z.to_nat (TrainedModel.prediction_length self)) [VNaN]
      ∧ length (tf_index target_series)
        = (length (TIMESERIES_KEYS.TARGET timeseries)
           + Z.to_nat (TrainedModel.prediction_length self))%nat
      ∧ ∃ o, to_offset frequency = Ok o ∧ regular_grid o (tf_index target_series).
Proof.
  unfold TrainedModel._generate_history_target_series, date_range_periods_cells, make_series.
  destruct (Z.ltb_spec (TrainedModel.prediction_length self) 0) as [Hneg | Hpos]; cbn [bindR].
  { split; [by eexists |]. split; [intros; lia | done]. }
  split; [intros; lia |].
  assert (∀ o start,
            length (date_range_periods o start
                      (Z.to_nat (Z.of_nat (length (TIMESERIES_KEYS.TARGET timeseries))
                                 + TrainedModel.prediction_length self)))
            = (length (TIMESERIES_KEYS.TARGET timeseries)
               + Z.to_nat (TrainedModel.prediction_length self))%nat) as Hlen.
  { intros o start. unfold date_range_periods. rewrite iterate_offset_length. lia. }
  destruct (Z.ltb_spec (Z.of_nat (length (TIMESERIES_KEYS.TARGET timeseries))
                        + TrainedModel.prediction_length self) 0); [lia |].
  split.
  - intros o start _ Hoffset Hstart. rewrite Hoffset, Hstart. cbn [bindR].
    rewrite length_app, length_replicate, Hlen, Nat.eqb_refl. by eexists.
  - destruct (to_offset frequency) as [o |] eqn:Hoffset; cbn [bindR]; [| done].
    destruct (TIMESERIES_KEYS.START timeseries) as [| | | start |] eqn:Hstart; cbn [bindR];
      try done.
    rewrite length_app, length_replicate, Hlen, Nat.eqb_refl. cbn [negb].
    intros target_series [= <-]. cbn.
    split; [done |]. split; [done |]. split; [by rewrite fmap_app, fmap_replicate |].
    split; [by apply Hlen |].
    exists o. split; [done |].
    pose proof (to_offset_regular _ _ Hoffset) as Hlaws.
    unfold date_range_periods. apply iterate_regular_grid.
    by apply (to_offset_adjust_start frequency).
Qed.

(** X17. A negative prediction length leaves no history to include.
    Whatever the dataset, [_include_history] raises a [ValueError]: from
    the first record when there is one, from concatenating nothing when
    there is none. *)
Theorem negative_horizon_has_no_history self (frequency : string) :
  (TrainedModel.prediction_length self < 0)%Z →
  ∃ msg, TrainedModel._include_history self frequency = Raise (ValueError msg).
Proof.
  intros Hneg.
  unfold TrainedModel._include_history, TrainedModel.history_df,
    TrainedModel._retrieve_history_timeseries.
  destruct (list_data (TrainedModel.gluon_dataset self)) as [| timeseries records].
  - cbn. by eexists.
  - cbn [TrainedModel._retrieve_history_timeseries_loop].
    unfold TrainedModel._generate_history_target_series.
    destruct (Z.ltb_spec (TrainedModel.prediction_length self) 0); [| lia].
    cbn. by eexists.
Qed.

(** X18. A reconstructor that has not predicted yet cannot describe or
    merge forecasts. Right after construction,
    [create_forecasts_column_description] raises [AttributeError], or the
    [ValueError] of [min] when no quantile was given, and
    [_include_history] raises [TypeError] once the history is rebuilt. *)
Theorem fresh_model_has_no_forecasts (predictor : Predictor.t) (gluon_dataset : ListDataset)
    (prediction_length : Z) (quantiles : list F) (include_history : bool) self
    (METRICS_COLUMNS_DESCRIPTIONS : gmap string string) (frequency : string) :
  TrainedModel.__init__ predictor gluon_dataset prediction_length quantiles include_history
    = Ok self →
  TrainedModel.create_forecasts_column_description self METRICS_COLUMNS_DESCRIPTIONS
    = Raise (match quantiles with
             | [] => ValueError "min() arg is an empty sequence"
             | _ => AttributeError
             end)
  ∧ ∀ history,
      TrainedModel.history_df self frequency = Ok history →
      TrainedModel._include_history self frequency = Raise TypeError.
Proof.
  unfold TrainedModel.__init__. intros (_ & _ & [= <-])%bindR_Ok. split.
  - unfold TrainedModel.create_forecasts_column_description,
      TrainedModel._retrieve_confidence_interval. cbn.
    by destruct quantiles.
  - intros history Hhistory. unfold TrainedModel._include_history. by rewrite Hhistory.
Qed.

End HistorySeries.

Lemma history_target_series_pads_horizon_witness :
  ∃ target_series,
    TrainedModel._generate_history_target_series history_example
      (TIMESERIES_KEYS.mkTimeseries (VTime 0) [VNum 1; VNum 2; VNum 3] "sales" "date"
         None None None) "1D" = Ok target_series
    ∧ tf_rows target_series = [[VNum 1]; [VNum 2]; [VNum 3]; [VNaN]; [VNaN]].
Proof.
  destruct (history_target_series_pads_horizon history_example
              (TIMESERIES_KEYS.mkTimeseries (VTime 0) [VNum 1; VNum 2; VNum 3] "sales" "date"
                 None None None) "1D") as (_ & Hmade & Hshape).
  edestruct Hmade as [target_series Hseries];
    [vm_compute; discriminate | reflexivity | reflexivity |].
  exists target_series. split; [exact Hseries |].
  apply Hshape in Hseries as (_ & _ & Hrows & _). exact Hrows.
Defined.

Lemma negative_horizon_has_no_history_witness :
  ∃ self msg,
    TrainedModel.__init__ (F := Q) (Predictor.mk 12)
      (mkListDataset
         [TIMESERIES_KEYS.mkTimeseries (VTime 0) [VNum 1; VNum 2; VNum 3] "sales" "date"
            None None None] "1D") (-3) [1 # 2]%Q true = Ok self
    ∧ TrainedModel._include_history self "1D" = Raise (ValueError msg).
Proof.
  eexists. 
  destruct (negative_horizon_has_no_history (F := Q)
              (TrainedModel.mk (Predictor.mk 12)
                 (mkListDataset
                    [TIMESERIES_KEYS.mkTimeseries (VTime 0) [VNum 1; VNum 2; VNum 3] "sales" "date"
                       None None None] "1D") (-3) [1 # 2]%Q true None None None) "1D")
    as [msg Hraise]; [cbn; lia |].
  exists msg. split; [vm_compute; reflexivity | exact Hraise].
Defined.

Lemma fresh_model_has_no_forecasts_witness :
  ∃ self,
    TrainedModel.__init__ (F := Q) (Predictor.mk 12) (mkListDataset [] "1D") 5 [1 # 2]%Q false
      = Ok self
    ∧ TrainedModel.create_forecasts_column_description self ∅ = Raise AttributeError.
Proof.
  eexists. split; [vm_compute; reflexivity |].
  eapply (fresh_model_has_no_forecasts (F := Q) (Predictor.mk 12) (mkListDataset [] "1D") 5
            [1 # 2]%Q false _ ∅ "1D").
  vm_compute. reflexivity.
Defined.

(** ** The size of the merged table *)

Lemma filter_key_at_most_one {K V} `{EqDecision K} (k : K) (l : list (K * V)) :
  NoDup l.*1 → (length (filter (λ kr : K * V, bool_decide (kr.1 = k)) l) ≤ 1)%nat.
Proof.
  induction l as [| [k' v] l IH]; [cbn; lia |].
  rewrite fmap_cons, NoDup_cons. intros [Hnotin Hnodup].
  destruct (decide (k' = k)) as [-> | Hne].
  - rewrite filter_cons_True by (cbn; by apply bool_decide_pack).
    destruct (filter _ l) as [| [k'' v''] rest] eqn:Hfilter; [cbn; lia |].
    assert ((k'', v'') ∈ filter (λ kr : K * V, bool_decide (kr.1 = k)) l) as Hin
      by (rewrite Hfilter; left).
    apply list_elem_of_filter in Hin as [Hkey Hin]. cbn in Hkey.
    apply bool_decide_unpack in Hkey. subst k''.
    destruct Hnotin. by apply (list_elem_of_fmap_2 fst) in Hin.
  - rewrite filter_cons_False by (cbn; by intros ?%bool_decide_unpack). by apply IH.
Qed.

(** A left join has at least the rows of its left table, and exactly as
    many when no two rows of the right table have the same key. *)
Lemma merge_left_nrows (left right res : DataFrame) (on : list string) :
  merge_left left right on = Ok res →
  (nrows left ≤ nrows res)%nat
  ∧ (NoDup (row_key right on <$> rows right) → nrows res = nrows left).
Proof.
  unfold merge_left.
  intros (? & _ & (? & _ & (right_values & Hvalues & [= <-])%bindR_Ok)%bindR_Ok)%bindR_Ok.
  unfold nrows; cbn. rewrite (select_columns_rows _ _ _ Hvalues), zip_fmap_diag.
  set (right_keyed := (λ x, (row_key right on x, _)) <$> rows right).
  assert (right_keyed.*1 = row_key right on <$> rows right) as Hkeys.
  { unfold right_keyed. rewrite <- list_fmap_compose. done. }
  split.
  - induction (rows left) as [| lrow lrows IH]; [done |].
    cbn. rewrite length_app.
    destruct (filter _ right_keyed); cbn; lia.
  - rewrite <- Hkeys. intros Hnodup.
    induction (rows left) as [| lrow lrows IH]; [done |].
    cbn. rewrite length_app, IH.
    pose proof (filter_key_at_most_one (row_key left on lrow) right_keyed Hnodup) as Hone.
    destruct (filter _ right_keyed) as [| m [| m' ms]]; cbn in Hone |- *; lia.
Qed.

Section MergedSize.
Context {F : Type}.
Implicit Types (self : TrainedModel.t (F := F)).

(** X16. Including the history never loses a row of the history and adds
    rows only for repeated forecasts: the merged table has at least as
    many rows as the history table, and exactly as many when no two
    forecast rows share a timestamp and identifiers. *)
Theorem include_history_row_count self (frequency : string)
    (history forecasts res : DataFrame) (on : list string) :
  TrainedModel.history_df self frequency = Ok history →
  TrainedModel.forecasts_df self = Some forecasts →
  TrainedModel.merge_columns self = Ok on →
  TrainedModel._include_history self frequency = Ok res →
  (nrows history ≤ nrows res)%nat
  ∧ (NoDup (row_key forecasts on <$> rows forecasts) → nrows res = nrows history).
Proof.
  intros Hhistory Hforecasts Hon Hres.
  apply (merge_left_nrows history forecasts res on).
  by eapply include_history_merge.
Qed.

End MergedSize.

Lemma include_history_row_count_witness :
  ∃ history res,
    TrainedModel.history_df history_example "1D" = Ok history
    ∧ TrainedModel._include_history history_example "1D" = Ok res
    ∧ nrows history = 5%nat
    ∧ nrows res = nrows history.
Proof.
  eexists _, _. split; [vm_compute; reflexivity |]. split; [vm_compute; reflexivity |].
  split; [reflexivity |].
  eapply (include_history_row_count history_example "1D" _ _ _ ["index"]).
  - vm_compute. reflexivity.
  - reflexivity.
  - reflexivity.
  - vm_compute. reflexivity.
  - vm_compute. repeat constructor; rewrite ?list_elem_of_In; cbn; intuition discriminate.
Defined.

(** ** Rounding the quantiles to those a forecast has *)

Section Rounding.
Context {F : Type} `{PyFloatOps F}.

(** The comparison of floats that are numbers is a strict weak order. *)
Hypothesis f_ltb_asym : ∀ a b : F, f_ltb a b = true → f_ltb b a = false.
Hypothesis f_ltb_cotrans : ∀ a b c : F, f_ltb a b = true → f_ltb a c = true ∨ f_ltb c b = true.

Lemma f_ltb_irrefl (a : F) : f_ltb a a = false.
Proof. destruct (f_ltb a a) eqn:Hlt; [| done]. by rewrite (f_ltb_asym _ _ Hlt) in Hlt. Qed.

Lemma fold_min_key {A} (key : A → F) (seen l : list A) (x : A) :
  (∀ p, p ∈ seen → f_ltb (key p) (key x) = false) →
  let m := foldl (λ m y, if f_ltb (key y) (key m) then y else m) x l in
  m ∈ x :: l ∧ ∀ p, p ∈ seen ++ x :: l → f_ltb (key p) (key m) = false.
Proof.
  revert seen x. induction l as [| y l IH]; intros seen x Hseen; cbn.
  - split; [by left |]. intros p [Hp | ->%list_elem_of_singleton]%elem_of_app;
      [by apply Hseen | apply f_ltb_irrefl].
  - destruct (f_ltb (key y) (key x)) eqn:Hlt.
    + destruct (IH (seen ++ [x]) y) as [Hin Hmin].
      { intros p [Hp | ->%list_elem_of_singleton]%elem_of_app; [| by apply f_ltb_asym].
        destruct (f_ltb (key p) (key y)) eqn:Hpy; [| done].
        destruct (f_ltb_cotrans _ _ (key x) Hpy) as [Hpx | Hxy].
        - by rewrite (Hseen p Hp) in Hpx.
        - by rewrite (f_ltb_asym _ _ Hlt) in Hxy. }
      split; [by right |]. intros p Hp. apply Hmin.
      rewrite <- app_assoc. exact Hp.
    + destruct (IH (seen ++ [y]) x) as [Hin Hmin].
      { intros p [Hp | ->%list_elem_of_singleton]%elem_of_app; [by apply Hseen | done]. }
      split.
      { apply elem_of_cons in Hin as [-> | Hin]; [by left | right; by right]. }
      intros p Hp. apply Hmin. rewrite <- app_assoc. cbn.
      rewrite elem_of_app, !elem_of_cons in Hp.
      rewrite elem_of_app, !elem_of_cons. tauto.
Qed.

Lemma py_min_key_nearest {A} (key : A → F) (l : list A) (m : A) :
  py_min_key key l = Ok m → m ∈ l ∧ ∀ p, p ∈ l → f_ltb (key p) (key m) = false.
Proof.
  destruct l as [| x l]; [done |]. cbn. intros [= <-].
  destruct (fold_min_key key [] l x) as [Hin Hmin]; [by intros ? ?%elem_of_nil |].
  done.
Qed.

(** X20. Rounding to existing quantiles. When it returns, the new list
    has one quantile for each selected quantile, in the same order; each
    is one of the quantiles the forecast has, and none of those is
    strictly closer to the selected quantile. With no selected quantile
    the result is empty; with a selected quantile and a forecast that has
    no quantile it raises the [ValueError] of [min]. *)
Theorem rounded_quantiles_are_nearest_existing (self : TrainedModel.t (F := F))
    (sample_forecasts : Forecast F) (possible_quantiles : list F) :
  mapR f_of_string (forecast_keys sample_forecasts) = Ok possible_quantiles →
  (∀ new_quantiles,
     _round_to_existing_quantiles self sample_forecasts = Ok new_quantiles →
     Forall2 (λ quantile new_quantile,
                new_quantile ∈ possible_quantiles
                ∧ ∀ x, x ∈ possible_quantiles →
                       f_ltb (f_abs (f_sub x quantile)) (f_abs (f_sub new_quantile quantile))
                       = false)
             (TrainedModel.quantiles self) new_quantiles)
  ∧ (possible_quantiles ≠ [] →
     ∃ new_quantiles, _round_to_existing_quantiles self sample_forecasts = Ok new_quantiles)
  ∧ (TrainedModel.quantiles self = [] →
     _round_to_existing_quantiles self sample_forecasts = Ok [])
  ∧ (possible_quantiles = [] → TrainedModel.quantiles self ≠ [] →
     _round_to_existing_quantiles self sample_forecasts
     = Raise (ValueError "min() arg is an empty sequence")).
Proof.
  intros Hkeys. unfold _round_to_existing_quantiles. rewrite Hkeys. cbn [bindR].
  split; [| split; [| split]].
  - intros new_quantiles Hnew%mapR_Forall2.
    eapply Forall2_impl; [exact Hnew |].
    intros quantile new_quantile Hmin. by apply py_min_key_nearest in Hmin.
  - intros Hne. destruct possible_quantiles as [| x possible]; [done |].
    induction (TrainedModel.quantiles self) as [| quantile quantiles [new IH]];
      [by eexists |].
    cbn [mapR]. rewrite IH. cbn. by eexists.
  - by intros ->.
  - intros -> Hne. by destruct (TrainedModel.quantiles self).
Qed.

End Rounding.

Lemma Q_ltb_asym (a b : Q) : f_ltb a b = true → f_ltb b a = false.
Proof.
  cbn. rewrite !negb_true_iff, !negb_false_iff. intros Hba.
  apply Qle_bool_iff. destruct (Qlt_le_dec b a) as [Hlt | Hle]; [| done].
  apply Qlt_le_weak, Qle_bool_iff in Hlt. congruence.
Qed.

Lemma Q_ltb_cotrans (a b c : Q) : f_ltb a b = true → f_ltb a c = true ∨ f_ltb c b = true.
Proof.
  cbn. rewrite !negb_true_iff. intros Hba.
  destruct (Qle_bool c a) eqn:Hca; [| by left]. right.
  destruct (Qle_bool b c) eqn:Hbc; [| done].
  apply Qle_bool_iff in Hca, Hbc.
  assert (Qle_bool b a = true) as Hcontra by (apply Qle_bool_iff; by eapply Qle_trans).
  congruence.
Qed.

Lemma rounded_quantiles_are_nearest_existing_witness :
  let self := set_quantiles (daily_model (mkListDataset [] "1D")) [1 # 10; 1 # 2; 19 # 20]%Q in
  let sample_forecasts :=
    mkForecast Q true ["0.1"; "0.5"; "0.9"] (λ _, Raise (KeyError "quantile")) "1D" in
  _round_to_existing_quantiles self sample_forecasts = Ok [1 # 10; 1 # 2; 9 # 10]%Q
  ∧ Forall2 (λ quantile new_quantile : Q,
               new_quantile ∈ [1 # 10; 1 # 2; 9 # 10]%Q
               ∧ ∀ x, x ∈ [1 # 10; 1 # 2; 9 # 10]%Q →
                      f_ltb (f_abs (f_sub x quantile)) (f_abs (f_sub new_quantile quantile))
                      = false)
            [1 # 10; 1 # 2; 19 # 20]%Q [1 # 10; 1 # 2; 9 # 10]%Q.
Proof.
  intros self sample_forecasts. split; [vm_compute; reflexivity |].
  eapply (rounded_quantiles_are_nearest_existing Q_ltb_asym Q_ltb_cotrans self sample_forecasts
            [1 # 10; 1 # 2; 9 # 10]%Q).
  - vm_compute. reflexivity.
  - vm_compute. reflexivity.
Defined.

(** ** Reordering the forecast table *)

Lemma str_in_spec (x : string) (l : list string) : str_in x l = true ↔ x ∈ l.
Proof.
  unfold str_in. rewrite existsb_exists. setoid_rewrite String.eqb_eq.
  setoid_rewrite <- list_elem_of_In. split; [by intros (? & ? & ->) | by exists x].
Qed.

Lemma cell_row_key (df : DataFrame) (names : list string) (row : list value)
    (c : string) (j : nat) :
  column_index c names = Some j → cell j (row_key df names row) = row_cell df c row.
Proof.
  intros Hj%column_index_lookup. unfold cell, row_key.
  apply nth_lookup_Some. rewrite list_lookup_fmap, Hj. done.
Qed.

(** A column of a sub-table holds what it holds in the table. *)
Lemma select_columns_get_column (df sub : DataFrame) (names : list string) (c : string) :
  select_columns df names = Ok sub → c ∈ names → c ∈ columns df →
  get_column sub c = get_column df c.
Proof.
  intros Hsub Hnames Hcols.
  pose proof (select_columns_rows _ _ _ Hsub) as Hrows.
  apply select_columns_columns in Hsub as [Hsubcols _].
  unfold get_column. rewrite Hsubcols, Hrows.
  destruct (column_index_elem_of _ _ Hnames) as [j Hj]. rewrite Hj.
  destruct (column_index_elem_of _ _ Hcols) as [i Hi]. rewrite Hi.
  f_equal. rewrite <- list_fmap_compose. apply list_fmap_ext. intros _ row _. cbn.
  rewrite (cell_row_key _ _ _ _ _ Hj). unfold row_cell. by rewrite Hi.
Qed.

Section Reordering.
Context {F : Type} `{PyFloatOps F}.
Implicit Types (self : TrainedModel.t (F := F)).

(** X21. Reordering the forecast table puts the time column first, the
    identifier columns next and the other columns after them in their
    original order. When the time and identifier columns are distinct
    columns of a table without repeated column names, the columns of the
    result are a permutation of the columns of the table, the number of
    rows is the same and every column holds the same values as before;
    only the table of the object changes. When an identifier column is
    missing from the table the first missing one is reported by a
    [KeyError]. *)
Theorem reorder_keeps_columns_and_cells self (forecasts_df : DataFrame)
    (time_column_name : string) (identifiers_columns : list string) :
  TrainedModel.forecasts_df self = Some forecasts_df →
  TrainedModel.time_column_name self = Some time_column_name →
  TrainedModel.identifiers_columns self = Some identifiers_columns →
  time_column_name ∈ columns forecasts_df →
  (NoDup (columns forecasts_df) →
   NoDup (time_column_name :: identifiers_columns) →
   (∀ c, c ∈ identifiers_columns → c ∈ columns forecasts_df) →
   ∃ reordered,
     _reorder_forecasts_df self = Ok (set_forecasts_df self reordered)
     ∧ columns reordered
       = time_column_name :: identifiers_columns
           ++ filter (λ c, c ∉ time_column_name :: identifiers_columns) (columns forecasts_df)
     ∧ columns reordered ≡ₚ columns forecasts_df
     ∧ nrows reordered = nrows forecasts_df
     ∧ ∀ c, c ∈ columns forecasts_df → get_column reordered c = get_column forecasts_df c)
  ∧ (∀ before c after,
       identifiers_columns = before ++ c :: after →
       (∀ b, b ∈ before → b ∈ columns forecasts_df) →
       c ∉ columns forecasts_df →
       _reorder_forecasts_df self = Raise (KeyError c)).
Proof.
  intros Hdf Htime Hids Htimein.
  unfold _reorder_forecasts_df. rewrite Hdf, Htime, Hids.
  set (leading := [time_column_name] ++ identifiers_columns).
  assert (filter (λ column, negb (str_in column leading)) (columns forecasts_df)
          = filter (λ c, c ∉ leading) (columns forecasts_df)) as ->.
  { apply list_filter_iff. intros c. rewrite <- str_in_spec.
    destruct (str_in c leading); cbn; split; try done. }
  split.
  - intros Hnodup Hleading Hidsin.
    destruct (select_columns_elem_of forecasts_df
                (leading ++ filter (λ c, c ∉ leading) (columns forecasts_df)))
      as (reordered & Hsub & Hrows & Hcols).
    { intros c [Hc | Hc%list_elem_of_filter]%elem_of_app; [| by destruct Hc].
      apply elem_of_cons in Hc as [-> | Hc]; [done | by apply Hidsin]. }
    exists reordered. rewrite Hsub. cbn [bindR].
    split; [done |]. split; [by rewrite Hcols |]. split; [| split; [done |]].
    + rewrite Hcols. apply NoDup_Permutation; [| done |].
      * apply NoDup_app. split; [done |]. split; [| by apply NoDup_filter].
        intros c Hc [Hnot _]%list_elem_of_filter. done.
      * intros c. rewrite elem_of_app, list_elem_of_filter. split.
        -- intros [Hc | [_ Hc]]; [| done].
           apply elem_of_cons in Hc as [-> | Hc]; [done | by apply Hidsin].
        -- intros Hc. destruct (decide (c ∈ leading)); [by left | by right].
    + intros c Hc. apply (select_columns_get_column _ _ _ _ Hsub); [| done].
      rewrite elem_of_app, list_elem_of_filter.
      destruct (decide (c ∈ leading)); [by left | by right].
  - intros before c after -> Hbefore Hmissing.
    unfold select_columns.
    destruct (select_columns_elem_of forecasts_df (time_column_name :: before))
      as (sub & Hsub & _).
    { intros b [-> | Hb]%elem_of_cons; [done | by apply Hbefore]. }
    unfold select_columns in Hsub.
    apply bindR_Ok in Hsub as (idx & Hidx & _).
    replace (leading ++ filter (λ c0, c0 ∉ leading) (columns forecasts_df))
      with ((time_column_name :: before)
              ++ c :: (after ++ filter (λ c0, c0 ∉ leading) (columns forecasts_df)))
      by (unfold leading; cbn; by rewrite <- app_assoc).
    erewrite mapR_app_raise; [done | exact Hidx |].
    by rewrite (column_index_None _ _ Hmissing).
Qed.

End Reordering.

Lemma reorder_keeps_columns_and_cells_witness :
  ∃ reordered,
    _reorder_forecasts_df stores_model = Ok (set_forecasts_df stores_model reordered)
    ∧ columns reordered = ["date"; "store"; "forecast_sales"]
    ∧ get_column reordered "forecast_sales" = Ok [VNum 4; VNum 5].
Proof.
  destruct (reorder_keeps_columns_and_cells stores_model
              (mkDataFrame ["date"; "forecast_sales"; "store"]
                 [[VTime 0; VNum 4; VStr "a"]; [VTime 0; VNum 5; VStr "b"]])
              "date" ["store"] eq_refl eq_refl eq_refl) as [Hreorder _].
  { apply list_elem_of_In. cbn. tauto. }
  destruct Hreorder as (reordered & Hok & Hcols & _ & _ & Hcells).
  - apply NoDup_ListNoDup. repeat constructor; cbn; intuition discriminate.
  - apply NoDup_ListNoDup. repeat constructor; cbn; intuition discriminate.
  - intros c Hc. apply list_elem_of_In in Hc. apply list_elem_of_In. cbn in *. tauto.
  - exists reordered. split; [exact Hok |]. split; [by rewrite Hcols |].
    rewrite Hcells; [reflexivity |]. apply list_elem_of_In. cbn. tauto.
Defined.

(** ** The forecast series *)

Lemma dict_append_cons (key : identifier_key) (x : TimeFrame) (k : identifier_key)
    (v : list TimeFrame) (d : series_dict) :
  dict_append key x ((k, v) :: d)
  = if bool_decide (k = key) then (k, v ++ [x]) :: d else (k, v) :: dict_append key x d.
Proof.
  unfold dict_append. cbn [dict_get].
  destruct (bool_decide (k = key)) eqn:Hk; cbn [dict_set]; rewrite Hk; [done |].
  by destruct (dict_get key d).
Qed.

(** Appending to a dictionary of series adds the one series and keeps the
    others. *)
Lemma all_series_dict_append (key : identifier_key) (x : TimeFrame) (d : series_dict) :
  all_series (dict_append key x d) ≡ₚ x :: all_series d.
Proof.
  unfold all_series. induction d as [| [k v] d IH]; [done |].
  rewrite dict_append_cons. destruct (bool_decide (k = key)); cbn.
  - rewrite <- app_assoc. cbn. by rewrite Permutation_middle.
  - cbn in IH. rewrite IH. by rewrite Permutation_middle.
Qed.

Lemma slice_to_length_le {A} (k : Z) (l : list A) :
  (0 ≤ k)%Z → (length (slice_to (Some k) l) ≤ Z.to_nat k)%nat.
Proof.
  intros Hk. unfold slice_to. destruct (Z.leb_spec 0 k); [| lia].
  rewrite length_take. lia.
Qed.

Lemma length_concat_uniform {A B} (n : nat) (xs : list B) (ls : list (list A)) :
  Forall2 (λ _ l, length l = n) xs ls → length (concat ls) = (length xs * n)%nat.
Proof.
  induction 1 as [| x l xs ls Hl _ IH]; [done |].
  cbn. rewrite length_app, IH, Hl. done.
Qed.

Section ForecastSeries.
Context {F : Type} `{PyFloatOps F}.
Implicit Types (self : TrainedModel.t (F := F)) (timeseries : Timeseries).

(** The series of one forecast: one for each quantile, named after the
    quantile and the target, cut at the prediction length. *)
Lemma forecasts_quantiles_series self (sample_forecasts : Forecast F) timeseries
    (quantiles : list F) (forecasts_timeseries reached : series_dict) :
  _compute_forecasts_quantiles self sample_forecasts timeseries quantiles forecasts_timeseries
    = Ok reached →
  ∃ new_series,
    all_series reached ≡ₚ new_series ++ all_series forecasts_timeseries
    ∧ Forall2 (λ quantile forecasts_series,
                 ∃ series,
                   quantile_ts sample_forecasts quantile = Ok series
                   ∧ forecasts_series
                     = series_iloc_to (Some (TrainedModel.prediction_length self))
                         (rename_series (forecasts_label_prefix quantile +:+ "_"
                                           +:+ TIMESERIES_KEYS.TARGET_NAME timeseries) series))
              quantiles new_series.
Proof.
  revert forecasts_timeseries. induction quantiles as [| quantile quantiles IH];
    intros forecasts_timeseries; cbn [_compute_forecasts_quantiles].
  - intros [= <-]. exists []. split; [done | constructor].
  - intros (series & Hseries & Hrest)%bindR_Ok.
    destruct (IH _ Hrest) as (new_series & Hall & Hnew).
    eexists (_ :: new_series). split.
    + rewrite Hall, all_series_dict_append. cbn. symmetry. apply Permutation_middle.
    + constructor; [by exists series | done].
Qed.

Lemma set_quantiles_same self : set_quantiles self (TrainedModel.quantiles self) = self.
Proof. by destruct self. Qed.

(** After the first forecast the loop leaves the object as it is and adds
    the series of each forecast it handles. *)
Lemma forecasts_timeseries_from_next self (i : nat) (forecasts_list : list (Forecast F))
    (forecasts_timeseries reached : series_dict) (self' : TrainedModel.t (F := F)) :
  _compute_forecasts_timeseries_from self (S i) forecasts_list forecasts_timeseries
    = (self', Ok reached) →
  self' = self
  ∧ ∃ per_forecast,
      all_series reached ≡ₚ concat per_forecast ++ all_series forecasts_timeseries
      ∧ Forall2 (λ (position : nat * Forecast F) new_series,
                   ∃ timeseries,
                     list_data (TrainedModel.gluon_dataset self) !! position.1 = Some timeseries
                     ∧ Forall2 (λ quantile forecasts_series,
                                  ∃ series,
                                    quantile_ts position.2 quantile = Ok series
                                    ∧ forecasts_series
                                      = series_iloc_to (Some (TrainedModel.prediction_length self))
                                          (rename_series
                                             (forecasts_label_prefix quantile +:+ "_"
                                                +:+ TIMESERIES_KEYS.TARGET_NAME timeseries)
                                             series))
                               (TrainedModel.quantiles self) new_series)
                (zip (seq (S i) (length forecasts_list)) forecasts_list) per_forecast.
Proof.
  revert i forecasts_timeseries.
  induction forecasts_list as [| sample_forecasts forecasts_list IH];
    intros i forecasts_timeseries; cbn [_compute_forecasts_timeseries_from].
  - intros [= <- <-]. split; [done |]. exists []. split; [done | constructor].
  - destruct (list_data (TrainedModel.gluon_dataset self) !! S i) as [timeseries |] eqn:Hrecord;
      [| done].
    cbn [Nat.eqb andb]. rewrite set_quantiles_same.
    destruct (_compute_forecasts_quantiles self sample_forecasts timeseries
                (TrainedModel.quantiles self) forecasts_timeseries) as [next |] eqn:Hquantiles;
      [| done].
    intros Hrest. destruct (IH _ _ Hrest) as (-> & per_forecast & Hall & Hnew).
    split; [done |].
    apply forecasts_quantiles_series in Hquantiles as (new_series & Hnext & Hseries).
    exists (new_series :: per_forecast). split.
    + rewrite Hall, Hnext. cbn. rewrite <- !app_assoc.
      apply Permutation_app_swap_app.
    + cbn. constructor; [| done]. by exists timeseries.
Qed.

(** X22. The forecast series. When [_compute_forecasts_timeseries]
    returns, every forecast has a record at its position in the dataset,
    and the dictionary holds, for each forecast and each quantile of the
    object, the series the forecast gives for that quantile, named
    [forecast_lower_], [forecast_upper_] or [forecast_] followed by the
    target name of the record, as the quantile is below, above or equal to
    one half, and cut to the first [prediction_length] steps. The
    quantiles of the object are replaced by the rounded ones when the
    first forecast is a [QuantileForecast], and are unchanged otherwise;
    nothing else of the object changes. *)
Theorem forecast_series_are_named_and_cut self (forecasts_list : list (Forecast F))
    (self' : TrainedModel.t (F := F)) (forecasts_timeseries : series_dict) :
  _compute_forecasts_timeseries self forecasts_list = (self', Ok forecasts_timeseries) →
  (length forecasts_list ≤ length (list_data (TrainedModel.gluon_dataset self)))%nat
  ∧ (∃ quantiles,
       self' = set_quantiles self quantiles
       ∧ match forecasts_list with
         | sample_forecasts :: _ =>
             if is_quantile_forecast sample_forecasts
             then _round_to_existing_quantiles self sample_forecasts = Ok quantiles
             else quantiles = TrainedModel.quantiles self
         | [] => quantiles = TrainedModel.quantiles self
         end)
  ∧ ∃ per_forecast,
      all_series forecasts_timeseries ≡ₚ concat per_forecast
      ∧ length (all_series forecasts_timeseries)
        = (length forecasts_list * length (TrainedModel.quantiles self'))%nat
      ∧ Forall2 (λ (position : nat * Forecast F) new_series,
                   ∃ timeseries,
                     list_data (TrainedModel.gluon_dataset self) !! position.1 = Some timeseries
                     ∧ Forall2 (λ quantile forecasts_series,
                                  ∃ series,
                                    quantile_ts position.2 quantile = Ok series
                                    ∧ tf_columns forecasts_series
                                      = [forecasts_label_prefix quantile +:+ "_"
                                           +:+ TIMESERIES_KEYS.TARGET_NAME timeseries]
                                    ∧ tf_index forecasts_series
                                      = slice_to (Some (TrainedModel.prediction_length self))
                                          (tf_index series)
                                    ∧ tf_rows forecasts_series
                                      = slice_to (Some (TrainedModel.prediction_length self))
                                          (tf_rows series)
                                    ∧ ((0 ≤ TrainedModel.prediction_length self)%Z →
                                       (length (tf_rows forecasts_series)
                                        ≤ Z.to_nat (TrainedModel.prediction_length self))%nat))
                               (TrainedModel.quantiles self') new_series)
                (zip (seq 0 (length forecasts_list)) forecasts_list) per_forecast.
Proof.
  unfold _compute_forecasts_timeseries.
  destruct forecasts_list as [| sample_forecasts forecasts_list];
    cbn [_compute_forecasts_timeseries_from].
  { intros [= <- <-]. split; [cbn; lia |]. split.
    - exists (TrainedModel.quantiles self). by rewrite set_quantiles_same.
    - exists []. split; [done |]. split; [done | constructor]. }
  destruct (list_data (TrainedModel.gluon_dataset self) !! 0%nat) as [timeseries |] eqn:Hrecord;
    [| done].
  cbn [Nat.eqb andb].
  destruct (if is_quantile_forecast sample_forecasts
            then _round_to_existing_quantiles self sample_forecasts
            else Ok (TrainedModel.quantiles self)) as [quantiles |] eqn:Hquantiles; [| done].
  destruct (_compute_forecasts_quantiles (set_quantiles self quantiles) sample_forecasts
              timeseries (TrainedModel.quantiles (set_quantiles self quantiles)) [])
    as [next |] eqn:Hfirst; [| done].
  intros Hrest.
  apply forecasts_timeseries_from_next in Hrest as (-> & per_forecast & Hall & Hnew).
  apply forecasts_quantiles_series in Hfirst as (new_series & Hnext & Hseries).
  cbn [set_quantiles TrainedModel.quantiles TrainedModel.prediction_length
       TrainedModel.gluon_dataset] in *.
  assert (∀ (sample : Forecast F) series_list record,
            Forall2 (λ quantile forecasts_series,
                       ∃ series,
                         quantile_ts sample quantile = Ok series
                         ∧ forecasts_series
                           = series_iloc_to (Some (TrainedModel.prediction_length self))
                               (rename_series
                                  (forecasts_label_prefix quantile +:+ "_"
                                     +:+ TIMESERIES_KEYS.TARGET_NAME record) series))
                    quantiles series_list →
            Forall2 (λ quantile forecasts_series,
                       ∃ series,
                         quantile_ts sample quantile = Ok series
                         ∧ tf_columns forecasts_series
                           = [forecasts_label_prefix quantile +:+ "_"
                                +:+ TIMESERIES_KEYS.TARGET_NAME record]
                         ∧ tf_index forecasts_series
                           = slice_to (Some (TrainedModel.prediction_length self))
                               (tf_index series)
                         ∧ tf_rows forecasts_series
                           = slice_to (Some (TrainedModel.prediction_length self))
                               (tf_rows series)
                         ∧ ((0 ≤ TrainedModel.prediction_length self)%Z →
                            (length (tf_rows forecasts_series)
                             ≤ Z.to_nat (TrainedModel.prediction_length self))%nat))
                    quantiles series_list) as Hshape.
  { intros sample series_list record Hlist.
    eapply Forall2_impl; [exact Hlist |].
    intros quantile forecasts_series (series & Hts & ->). exists series. cbn.
    split; [done |]. split; [done |]. split; [done |]. split; [done |].
    apply slice_to_length_le. }
  assert (length (zip (seq 1 (length forecasts_list)) forecasts_list) = length forecasts_list)
    as Hzip by (rewrite length_zip_with, length_seq; lia).
  split; [| split].
  - destruct (decide (length forecasts_list = 0%nat)) as [Hnone | Hsome].
    { cbn. rewrite Hnone. apply lookup_lt_Some in Hrecord. lia. }
    destruct (lookup_lt_is_Some_2 (zip (seq 1 (length forecasts_list)) forecasts_list)
                (length forecasts_list - 1)) as [[position sample] Hlast]; [lia |].
    destruct (Forall2_lookup_l _ _ _ _ _ Hnew Hlast) as (series_list & _ & record & Hlookup & _).
    apply lookup_zip_with_Some in Hlast as (n & ? & [= <- <-] & Hn & _).
    apply lookup_seq in Hn as [-> _]. cbn in Hlookup.
    apply lookup_lt_Some in Hlookup. cbn. lia.
  - exists quantiles. split; [done |].
    destruct (is_quantile_forecast sample_forecasts); [done | congruence].
  - exists (new_series :: per_forecast).
    assert (all_series forecasts_timeseries ≡ₚ concat (new_series :: per_forecast)) as Hconcat.
    { rewrite Hall, Hnext. unfold all_series. cbn. rewrite app_nil_r.
      apply Permutation_app_comm. }
    split; [done |]. split.
    + rewrite Hconcat. cbn. rewrite length_app.
      rewrite (length_concat_uniform (length quantiles)
                 (zip (seq 1 (length forecasts_list)) forecasts_list)).
      * apply Forall2_length in Hseries. rewrite <- Hseries, Hzip. lia.
      * eapply Forall2_impl; [exact Hnew |].
        intros position series_list (record & _ & Hlist).
        apply Forall2_length in Hlist. done.
    + cbn. constructor.
      * exists timeseries. split; [done |]. by apply Hshape.
      * eapply Forall2_impl; [exact Hnew |].
        intros position series_list (record & Hlookup & Hlist).
        exists record. split; [done |]. by apply Hshape.
Qed.

End ForecastSeries.

Lemma forecast_series_are_named_and_cut_witness :
  let self :=
    set_quantiles
      (daily_model
         (mkListDataset
            [TIMESERIES_KEYS.mkTimeseries (VTime 0) [VNum 5; VNum 6; VNum 7] "sales" "date"
               None None None] "1D"))
      [1 # 10; 1 # 2; 9 # 10]%Q in
  ∃ self' forecasts_timeseries,
    _compute_forecasts_timeseries self [three_day_forecast] = (self', Ok forecasts_timeseries)
    ∧ length (all_series forecasts_timeseries) = (1 * 3)%nat
    ∧ tf_columns <$> all_series forecasts_timeseries
      = [["forecast_lower_sales"]; ["forecast_sales"]; ["forecast_upper_sales"]]
    ∧ tf_rows <$> all_series forecasts_timeseries
      = [[[VNum 8]; [VNum 9]]; [[VNum 8]; [VNum 9]]; [[VNum 8]; [VNum 9]]].
Proof.
  intros self. eexists _, _. split; [vm_compute; reflexivity |].
  split; [| split; vm_compute; reflexivity].
  destruct (forecast_series_are_named_and_cut self [three_day_forecast] _ _
              ltac:(vm_compute; reflexivity)) as (_ & _ & per_forecast & _ & Hcount & _).
  exact Hcount.
Defined.

(** ** Stacking the tables of the series *)

Lemma union_columns_spec (seen cols : list string) :
  NoDup seen →
  NoDup (union_columns seen cols)
  ∧ ∀ c, c ∈ union_columns seen cols ↔ c ∈ seen ∨ c ∈ cols.
Proof.
  revert seen. induction cols as [| c cols IH]; intros seen Hseen; cbn.
  - split; [done |]. intros c. rewrite elem_of_nil. tauto.
  - destruct (str_in c seen) eqn:Hin.
    + apply str_in_spec in Hin. destruct (IH seen Hseen) as [Hnodup Hiff].
      split; [done |]. intros c'. rewrite Hiff, elem_of_cons.
      split; [tauto |]. intros [? | [-> | ?]]; tauto.
    + assert (c ∉ seen) as Hnotin.
      { intros Hc%str_in_spec. congruence. }
      destruct (IH (seen ++ [c])) as [Hnodup Hiff].
      { apply NoDup_app. split; [done |]. split; [| apply NoDup_singleton].
        intros c' Hc' ->%list_elem_of_singleton. done. }
      split; [done |]. intros c'.
      rewrite Hiff, elem_of_app, list_elem_of_singleton, elem_of_cons. tauto.
Qed.

Lemma length_concat_reindex (cols : list string) (frames : list DataFrame) :
  length (concat (reindex_columns cols <$> frames)) = sum_list (nrows <$> frames).
Proof.
  induction frames as [| df frames IH]; [done |].
  rewrite !fmap_cons, concat_cons, length_app, IH. cbn [sum_list sum_list_with].
  unfold reindex_columns, nrows. by rewrite length_fmap.
Qed.

(** X19. Stacking tables. Stacking no table raises a [ValueError].
    Stacking one or more tables, none of which has a repeated column
    name, gives a table whose columns are the columns of the tables, each
    once; it has the rows of the tables, table after table: a row keeps
    the cell it had in each column of its table and has a missing value
    in the columns its table lacks, so the number of rows is the sum of
    the numbers of rows and every row has a cell for every column. *)
Theorem concat_all_timeseries_stacks_rows (multiple_df : list DataFrame) :
  concat_all_timeseries [] = Raise (ValueError "No objects to concatenate")
  ∧ (multiple_df ≠ [] →
     Forall (λ df, NoDup (columns df)) multiple_df →
     ∃ out,
       concat_all_timeseries multiple_df = Ok out
       ∧ NoDup (columns out)
       ∧ (∀ c, c ∈ columns out ↔ ∃ df, df ∈ multiple_df ∧ c ∈ columns df)
       ∧ rows out
         = concat ((λ df, (λ row, (λ c, row_cell df c row) <$> columns out) <$> rows df)
                     <$> multiple_df)
       ∧ nrows out = sum_list (nrows <$> multiple_df)
       ∧ Forall (λ row, length row = length (columns out)) (rows out)).
Proof.
  split; [done |]. intros Hne _.
  unfold concat_all_timeseries, concat_axis0.
  destruct multiple_df as [| df0 frames]; [done |].
  set (multiple_df := df0 :: frames). set (cols := union_columns [] _).
  destruct (union_columns_spec [] (concat (columns <$> multiple_df)) (NoDup_nil_2))
    as [Hnodup Hiff].
  eexists. split; [reflexivity |]. cbn [columns rows]. fold cols.
  split; [done |]. split.
  { intros c. unfold cols. rewrite Hiff, elem_of_nil, elem_of_concat.
    setoid_rewrite list_elem_of_fmap. split.
    - intros [[] | (l & (df & -> & Hdf) & Hc)]. by exists df.
    - intros (df & Hdf & Hc). right. exists (columns df). split; [by exists df | done]. }
  split; [done |]. split.
  - unfold nrows at 1; cbn [rows]. apply length_concat_reindex.
  - apply Forall_concat, Forall_fmap, Forall_forall. intros df _.
    unfold reindex_columns. apply Forall_fmap, Forall_forall. intros row _. cbn.
    by rewrite length_fmap.
Qed.

Lemma concat_all_timeseries_stacks_rows_witness :
  ∃ out,
    concat_all_timeseries
      [mkDataFrame ["index"; "sales"; "store"] [[VTime 0; VNum 5; VStr "a"]];
       mkDataFrame ["index"; "visits"; "store"] [[VTime 0; VNum 50; VStr "b"]]] = Ok out
    ∧ columns out = ["index"; "sales"; "store"; "visits"]
    ∧ rows out = [[VTime 0; VNum 5; VStr "a"; VNaN]; [VTime 0; VNaN; VStr "b"; VNum 50]]
    ∧ nrows out = 2%nat.
Proof.
  destruct (concat_all_timeseries_stacks_rows
              [mkDataFrame ["index"; "sales"; "store"] [[VTime 0; VNum 5; VStr "a"]];
               mkDataFrame ["index"; "visits"; "store"] [[VTime 0; VNum 50; VStr "b"]]])
    as [_ Hstack].
  destruct Hstack as (out & Hout & _ & _ & _ & Hrows & _); [discriminate | |].
  { repeat constructor; rewrite ?list_elem_of_In; cbn; intuition discriminate. }
  exists out. split; [exact Hout |].
  vm_compute in Hout. injection Hout as <-.
  split; [reflexivity |]. split; [reflexivity | exact Hrows].
Defined.

(** ** The identifier columns of the tables of the series *)

Lemma column_index_app (name : string) (cols more : list string) :
  column_index name (cols ++ more)
  = match column_index name cols with
    | Some i => Some i
    | None => (λ j, length cols + j)%nat <$> column_index name more
    end.
Proof.
  induction cols as [| c cols IH]; cbn.
  - by destruct (column_index name more).
  - destruct (String.eqb c name); [done |]. rewrite IH.
    destruct (column_index name cols); [done |].
    by destruct (column_index name more).
Qed.

Lemma column_index_lt (name : string) (cols : list string) (i : nat) :
  column_index name cols = Some i → (i < length cols)%nat.
Proof. intros Hi%column_index_lookup. by apply lookup_lt_Some in Hi. Qed.

Section SetColumn.
Context (df : DataFrame) (name : string) (vals : list value).
Hypothesis rows_complete : Forall (λ row, length row = length (columns df)) (rows df).
Hypothesis vals_aligned : length vals = nrows df.

Lemma set_column_complete :
  Forall (λ row, length row = length (columns (set_column df name vals)))
         (rows (set_column df name vals)).
Proof.
  unfold set_column. destruct (column_index name (columns df)) as [i |]; cbn.
  - apply Forall_forall. intros row (r & v & -> & Hr & _)%elem_of_zip_with.
    rewrite length_insert. exact (proj1 (Forall_forall _ _) rows_complete r Hr).
  - apply Forall_forall. intros row (r & v & -> & Hr & _)%elem_of_zip_with.
    rewrite !length_app. cbn. f_equal. exact (proj1 (Forall_forall _ _) rows_complete r Hr).
Qed.

Lemma get_set_column_any : get_column (set_column df name vals) name = Ok vals.
Proof.
  destruct (column_index name (columns df)) as [i |] eqn:Hi.
  { apply get_set_column; [by eexists | done | done]. }
  unfold get_column, set_column. rewrite Hi. cbn [columns rows].
  rewrite column_index_app, Hi. cbn. rewrite String.eqb_refl. cbn. f_equal.
  unfold nrows in vals_aligned. revert vals vals_aligned rows_complete.
  induction (rows df) as [| row rws IH]; intros [| v vs] Hlen Hrows; try done.
  apply Forall_cons in Hrows as [Hrow Hrows]. cbn. f_equal.
  - unfold cell. rewrite Nat.add_0_r, <- Hrow, app_nth2 by lia.
    by rewrite Nat.sub_diag.
  - apply IH; [cbn in Hlen; lia | done].
Qed.

Lemma set_column_other_any (c : string) :
  c ≠ name → get_column (set_column df name vals) c = get_column df c.
Proof.
  intros Hne. destruct (column_index name (columns df)) as [i |] eqn:Hi.
  { apply set_column_other; [by eexists | done | done]. }
  unfold get_column, set_column. rewrite Hi. cbn [columns rows].
  rewrite column_index_app. destruct (column_index c (columns df)) as [j |] eqn:Hj.
  - f_equal. apply column_index_lt in Hj.
    unfold nrows in vals_aligned. revert vals vals_aligned rows_complete.
    induction (rows df) as [| row rws IH]; intros [| v vs] Hlen Hrows; try done.
    apply Forall_cons in Hrows as [Hrow Hrows]. cbn. f_equal.
    + unfold cell. rewrite app_nth1 by lia. done.
    + apply IH; [cbn in Hlen; lia | done].
  - cbn. destruct (String.eqb_spec name c) as [-> | _]; done.
Qed.

Lemma nrows_set_column_any : nrows (set_column df name vals) = nrows df.
Proof. by apply nrows_set_column. Qed.

End SetColumn.

(** Writing scalar columns one after the other: each written column holds
    its value in every row, the other columns are kept. *)
Lemma set_scalar_columns (df : DataFrame) (identifiers : list (string * value)) :
  Forall (λ row, length row = length (columns df)) (rows df) →
  NoDup identifiers.*1 →
  let out := foldl (λ df '(identifier_key, identifier_value),
                      set_column_scalar df identifier_key identifier_value) df identifiers in
  nrows out = nrows df
  ∧ Forall (λ row, length row = length (columns out)) (rows out)
  ∧ (∀ k v, (k, v) ∈ identifiers → get_column out k = Ok (replicate (nrows df) v))
  ∧ (∀ c, c ∉ identifiers.*1 → get_column out c = get_column df c).
Proof.
  revert df. induction identifiers as [| [k v] identifiers IH]; intros df Hrows Hnodup; cbn.
  - split; [done |]. split; [done |]. split; [by intros ? ? ?%elem_of_nil | done].
  - apply NoDup_cons in Hnodup as [Hk Hnodup].
    assert (length (replicate (nrows df) v) = nrows df) as Hlen by apply length_replicate.
    destruct (IH (set_column_scalar df k v)) as (Hn & Hcomplete & Hwritten & Hkept);
      [by apply set_column_complete | done |].
    unfold set_column_scalar in Hn, Hwritten, Hkept at 2.
    rewrite nrows_set_column_any in Hn, Hwritten by done.
    split; [done |]. split; [done |]. split.
    + intros k' v' [[= -> ->] | Hin]%elem_of_cons; [| by apply Hwritten].
      rewrite Hkept by done. by apply get_set_column_any.
    + intros c Hc. rewrite not_elem_of_cons in Hc. destruct Hc as [Hne Hc].
      rewrite Hkept by done. by apply set_column_other_any.
Qed.

Lemma row_at_length (t : Z) (index : list Z) (rws : list (list value)) (width : nat) :
  Forall (λ row, length row = width) rws → length (row_at t index rws width) = width.
Proof.
  revert rws. induction index as [| t' index IH]; intros [| row rws] Hrows; cbn;
    try (by rewrite length_replicate).
  apply Forall_cons in Hrows as [Hrow Hrows].
  destruct (t' =? t)%Z; [done | by apply IH].
Qed.

Lemma concat_row_at_length (t : Z) (frames : list TimeFrame) :
  Forall (λ series, length (tf_index series) = length (tf_rows series)
                    ∧ Forall (λ row, length row = length (tf_columns series))
                             (tf_rows series)) frames →
  length (concat ((λ f, row_at t (tf_index f) (tf_rows f) (length (tf_columns f))) <$> frames))
  = length (concat (tf_columns <$> frames)).
Proof.
  induction 1 as [| f frames [_ Hrows] _ IH]; [done |].
  rewrite !fmap_cons, !concat_cons, !length_app, IH. f_equal. by apply row_at_length.
Qed.

(** X23. The table of one identifier combination. Its rows are the
    timestamps of the series placed side by side. When the combination
    has identifiers, each identifier column holds the identifier value in
    every row and the other columns are those of the series; without
    identifiers the table is just the series with their index as a
    column. *)
Theorem identifier_columns_hold_identifier_values (all_timeseries : series_dict)
    (multiple_df : list DataFrame) :
  concat_timeseries_per_identifiers all_timeseries = Ok multiple_df →
  Forall (λ entry : identifier_key * list TimeFrame,
            NoDup (default [] entry.1).*1
            ∧ Forall (λ series, length (tf_index series) = length (tf_rows series)
                                ∧ Forall (λ row, length row = length (tf_columns series))
                                         (tf_rows series)) entry.2) all_timeseries →
  Forall2 (λ (entry : identifier_key * list TimeFrame) unique_identifiers_df,
             ∃ unique_identifiers,
               concat_axis1 entry.2 = Ok unique_identifiers
               ∧ nrows unique_identifiers_df = length (tf_index unique_identifiers)
               ∧ (∀ k v, (k, v) ∈ default [] entry.1 →
                         get_column unique_identifiers_df k
                         = Ok (replicate (length (tf_index unique_identifiers)) v))
               ∧ (∀ c, c ∉ (default [] entry.1).*1 →
                       get_column unique_identifiers_df c
                       = get_column (reset_index unique_identifiers) c)
               ∧ (list_truthy entry.1 = false →
                  unique_identifiers_df = reset_index unique_identifiers))
          all_timeseries multiple_df.
Proof.
  unfold concat_timeseries_per_identifiers. intros Hall%mapR_Forall2 Hwf.
  induction Hall as [| [key series_list] df entries dfs Hone _ IH]; [constructor |].
  apply Forall_cons in Hwf as [[Hnodup Hseries] Hwf].
  constructor; [| by apply IH]. clear IH Hwf.
  apply bindR_Ok in Hone as (frame & Hframe & [= <-]). cbn [fst snd] in *.
  exists frame. split; [done |].
  assert (nrows (reset_index frame) = length (tf_index frame)
          ∧ Forall (λ row, length row = length (columns (reset_index frame)))
                   (rows (reset_index frame))) as [Hn Hcomplete].
  { unfold concat_axis1 in Hframe. destruct series_list as [| f0 others]; [done |].
    injection Hframe as <-. unfold reset_index, nrows. cbn [tf_index tf_rows tf_columns rows columns].
    set (index := if forallb _ others then _ else _).
    split.
    - rewrite length_zip_with, length_fmap. lia.
    - apply Forall_forall. intros row (t & r & -> & _ & Hr)%elem_of_zip_with.
      apply list_elem_of_fmap in Hr as (t' & -> & _). cbn [length]. f_equal.
      exact (concat_row_at_length t' (f0 :: others) Hseries). }
  destruct key as [[| item key] |]; cbn [list_truthy default].
  - split; [done |]. split; [by intros ? ? ?%elem_of_nil |]. done.
  - destruct (set_scalar_columns (reset_index frame) (item :: key) Hcomplete Hnodup)
      as (Hrows & _ & Hwritten & Hkept).
    rewrite Hn in Hrows, Hwritten. done.
  - split; [done |]. split; [by intros ? ? ?%elem_of_nil |]. done.
Qed.

Lemma identifier_columns_hold_identifier_values_witness :
  ∃ unique_identifiers_df,
    concat_timeseries_per_identifiers
      [(Some [("store", VStr "a")],
        [mkTimeFrame [0; 86400000000000]%Z ["sales"] [[VNum 5]; [VNum 6]];
         mkTimeFrame [0; 86400000000000]%Z ["visits"] [[VNum 50]; [VNum 60]]])]
      = Ok [unique_identifiers_df]
    ∧ get_column unique_identifiers_df "store" = Ok [VStr "a"; VStr "a"]
    ∧ get_column unique_identifiers_df "visits" = Ok [VNum 50; VNum 60].
Proof.
  eexists. split; [vm_compute; reflexivity |].
  pose proof (identifier_columns_hold_identifier_values
                [(Some [("store", VStr "a")],
                  [mkTimeFrame [0; 86400000000000]%Z ["sales"] [[VNum 5]; [VNum 6]];
                   mkTimeFrame [0; 86400000000000]%Z ["visits"] [[VNum 50]; [VNum 60]]])]
                _ ltac:(vm_compute; reflexivity)) as Hcolumns.
  apply Forall2_cons_1 in Hcolumns as [(frame & Hframe & _ & Hwritten & Hkept & _) _].
  - vm_compute in Hframe. injection Hframe as <-. split.
    + apply (Hwritten "store" (VStr "a")). by left.
    + rewrite Hkept; [reflexivity |]. cbn. by intros [=]%list_elem_of_singleton.
  - constructor; [| constructor]. split; [cbn; apply NoDup_singleton |].
    by repeat constructor.
Defined.

(** ** The dictionary of the history *)

Lemma dict_get_set (key key' : identifier_key) (v : list TimeFrame) (d : series_dict) :
  dict_get key' (dict_set key v d)
  = if bool_decide (key = key') then Some v else dict_get key' d.
Proof.
  induction d as [| [k v'] d IH]; cbn [dict_set dict_get].
  - destruct (bool_decide (key = key')); done.
  - destruct (decide (k = key)) as [-> | Hne].
    + rewrite bool_decide_eq_true_2 by done. cbn [dict_get].
      destruct (bool_decide (key = key')); done.
    + rewrite (bool_decide_eq_false_2 (k = key)) by done. cbn [dict_get]. rewrite IH.
      destruct (decide (k = key')) as [-> | Hne'].
      * rewrite bool_decide_eq_true_2 by done.
        by rewrite bool_decide_eq_false_2 by congruence.
      * by rewrite (bool_decide_eq_false_2 (k = key')) by done.
Qed.

Lemma dict_get_append (key key' : identifier_key) (x : TimeFrame) (d : series_dict) :
  dict_get key' (dict_append key x d)
  = if bool_decide (key = key') then Some (default [] (dict_get key d) ++ [x])
    else dict_get key' d.
Proof.
  unfold dict_append. destruct (dict_get key d); by rewrite dict_get_set.
Qed.

Section HistoryDictionary.
Context {F : Type} `{PyFloat F}.
Implicit Types (self : TrainedModel.t (F := F)) (timeseries : Timeseries).

(** One turn of the loop: the entry of the record's key gains the target
    series, after the features of the record when the key is new and the
    record has feature names; the other entries are kept. *)
Lemma history_loop_step self (frequency : string) timeseries (records : list Timeseries)
    (history_timeseries reached : series_dict) :
  TrainedModel._retrieve_history_timeseries_loop self frequency (timeseries :: records)
    history_timeseries = Ok reached →
  ∃ target_series next features,
    TrainedModel._generate_history_target_series self timeseries frequency = Ok target_series
    ∧ TrainedModel._retrieve_history_timeseries_loop self frequency records next = Ok reached
    ∧ (∀ key, key ≠ timeseries_identifier_key_of timeseries →
              dict_get key next = dict_get key history_timeseries)
    ∧ dict_get (timeseries_identifier_key_of timeseries) next
      = Some (default features
                (dict_get (timeseries_identifier_key_of timeseries) history_timeseries)
              ++ [target_series])
    ∧ (dict_get (timeseries_identifier_key_of timeseries) history_timeseries = None →
       if bool_decide (is_Some (TIMESERIES_KEYS.FEAT_DYNAMIC_REAL_COLUMNS_NAMES timeseries)) then
         ∃ external_features_df,
           TrainedModel._generate_history_external_features_dataframe self timeseries frequency
             = Ok external_features_df
           ∧ features = [external_features_df]
       else features = []).
Proof.
  cbn [TrainedModel._retrieve_history_timeseries_loop].
  set (key := timeseries_identifier_key_of timeseries).
  intros (target_series & Htarget & (updated & Hupdated & Hrest)%bindR_Ok)%bindR_Ok.
  exists target_series, (dict_append key target_series updated).
  destruct (dict_get key history_timeseries) as [frames |] eqn:Hpresent.
  - assert (updated = history_timeseries) as ->.
    { destruct (bool_decide (is_Some _)); [| congruence].
      apply bindR_Ok in Hupdated as (feat & _ & Hupdated).
      destruct (_ <? _)%Z; [done |].
      rewrite bool_decide_eq_true_2 in Hupdated by (by eexists). congruence. }
    exists []. split; [done |]. split; [done |]. split; [| split; [| done]].
    + intros key' Hne. by rewrite dict_get_append, bool_decide_eq_false_2.
    + by rewrite dict_get_append, bool_decide_eq_true_2, Hpresent.
  - destruct (bool_decide (is_Some (TIMESERIES_KEYS.FEAT_DYNAMIC_REAL_COLUMNS_NAMES timeseries))).
    + apply bindR_Ok in Hupdated as (feat & _ & Hupdated).
      destruct (_ <? _)%Z; [done |].
      rewrite bool_decide_eq_false_2 in Hupdated by (by intros [? ?]).
      apply bindR_Ok in Hupdated as (external_features_df & Hexternal & [= <-]).
      exists [external_features_df]. split; [done |]. split; [done |].
      split; [| split; [| by eexists]].
      * intros key' Hne.
        rewrite dict_get_append, bool_decide_eq_false_2 by done.
        by rewrite dict_get_set, bool_decide_eq_false_2.
      * rewrite dict_get_append, bool_decide_eq_true_2 by done.
        by rewrite dict_get_set, bool_decide_eq_true_2.
    + injection Hupdated as <-.
      exists []. split; [done |]. split; [done |]. split; [| split; [| done]].
      * intros key' Hne. by rewrite dict_get_append, bool_decide_eq_false_2.
      * by rewrite dict_get_append, bool_decide_eq_true_2, Hpresent.
Qed.

(** An entry that exists gains the target series of the records with its
    key, in their order. *)
Lemma history_loop_present self (frequency : string) (records : list Timeseries)
    (history_timeseries reached : series_dict) (key : identifier_key) (frames : list TimeFrame) :
  TrainedModel._retrieve_history_timeseries_loop self frequency records history_timeseries
    = Ok reached →
  dict_get key history_timeseries = Some frames →
  ∃ targets,
    mapR (λ timeseries, TrainedModel._generate_history_target_series self timeseries frequency)
         (filter (λ timeseries, timeseries_identifier_key_of timeseries = key) records)
      = Ok targets
    ∧ dict_get key reached = Some (frames ++ targets).
Proof.
  revert history_timeseries frames.
  induction records as [| timeseries records IH]; intros history_timeseries frames.
  - intros [= <-] Hframes. exists []. by rewrite app_nil_r.
  - intros (target_series & next & features & Htarget & Hrest & Hothers & Hkey & _)
             %history_loop_step Hframes.
    destruct (decide (timeseries_identifier_key_of timeseries = key)) as [Heq | Hne].
    + rewrite filter_cons_True by done. subst key. rewrite Hframes in Hkey. cbn in Hkey.
      destruct (IH _ _ Hrest Hkey) as (targets & Htargets & Hreached).
      exists (target_series :: targets). cbn [mapR]. rewrite Htarget, Htargets. cbn.
      split; [done |]. by rewrite Hreached, <- app_assoc.
    + rewrite filter_cons_False by done. apply (IH next); [done |].
      rewrite Hothers by done. done.
Qed.

(** X24. The dictionary of the history. For every identifier
    combination, the entry of the dictionary holds the target series of
    the records with that combination, in the order of the dataset,
    preceded by the table of the features of the first of these records
    when that record has feature names; a combination that no record has
    has no entry. *)
Theorem history_groups_series_by_identifiers self (frequency : string)
    (history_timeseries : series_dict) (key : identifier_key) :
  TrainedModel._retrieve_history_timeseries self frequency = Ok history_timeseries →
  match filter (λ timeseries, timeseries_identifier_key_of timeseries = key)
               (list_data (TrainedModel.gluon_dataset self)) with
  | [] => dict_get key history_timeseries = None
  | first :: others =>
      ∃ features targets,
        dict_get key history_timeseries = Some (features ++ targets)
        ∧ mapR (λ timeseries,
                  TrainedModel._generate_history_target_series self timeseries frequency)
               (first :: others) = Ok targets
        ∧ if bool_decide (is_Some (TIMESERIES_KEYS.FEAT_DYNAMIC_REAL_COLUMNS_NAMES first)) then
            ∃ external_features_df,
              TrainedModel._generate_history_external_features_dataframe self first frequency
                = Ok external_features_df
              ∧ features = [external_features_df]
          else features = []
  end.
Proof.
  unfold TrainedModel._retrieve_history_timeseries.
  assert (dict_get key [] = None) as Hempty by done. revert Hempty.
  generalize (@nil (identifier_key * list TimeFrame)) as initial.
  induction (list_data (TrainedModel.gluon_dataset self)) as [| timeseries records IH];
    intros initial Hinitial.
  - by intros [= <-].
  - intros (target_series & next & features & Htarget & Hrest & Hothers & Hkey & Hfeatures)
             %history_loop_step.
    destruct (decide (timeseries_identifier_key_of timeseries = key)) as [Heq | Hne].
    + rewrite filter_cons_True by done. subst key.
      rewrite Hinitial in Hkey. cbn in Hkey.
      destruct (history_loop_present _ _ _ _ _ _ _ Hrest Hkey) as (targets & Htargets & Hreached).
      exists features, (target_series :: targets).
      split; [by rewrite Hreached, <- app_assoc |]. split.
      * cbn [mapR]. rewrite Htarget. cbn [bindR]. by rewrite Htargets.
      * by apply Hfeatures.
    + rewrite filter_cons_False by done. apply (IH next); [| done].
      rewrite Hothers by done. done.
Qed.

End HistoryDictionary.

Lemma history_groups_series_by_identifiers_witness :
  let record store target :=
    TIMESERIES_KEYS.mkTimeseries (VTime 0) [VNum 1; VNum 2] target "date" None None
      (Some [("store", VStr store)]) in
  let self :=
    daily_model (mkListDataset [record "a" "sales"; record "b" "sales"; record "a" "visits"] "1D") in
  ∃ history_timeseries sales visits,
    TrainedModel._retrieve_history_timeseries self "1D" = Ok history_timeseries
    ∧ dict_get (Some [("store", VStr "a")]) history_timeseries = Some [sales; visits]
    ∧ tf_columns sales = ["sales"]
    ∧ tf_columns visits = ["visits"].
Proof.
  intros record self. eexists _, _, _. split; [vm_compute; reflexivity |].
  pose proof (history_groups_series_by_identifiers self "1D" _ (Some [("store", VStr "a")])
                ltac:(vm_compute; reflexivity)) as Hentry.
  cbn in Hentry. destruct Hentry as (features & targets & Hget & Htargets & Hfeatures).
  vm_compute in Htargets. injection Htargets as <-.
  vm_compute in Hfeatures. subst features.
  split; [exact Hget |]. split; reflexivity.
Defined.

(** ** Missing timestamps *)

Lemma parsed_check (df : DataFrame) (col unit : string) (step : pyval)
    (vals parsed : list value) :
  get_column df col = Ok vals →
  to_datetime vals = Ok parsed →
  Forall (λ row, length row = length (columns df)) (rows df) →
  let normalized := set_column df col (tz_localize_none parsed) in
  check_continuous_time_column df col unit step
    = (normalized, check_normalized_time_column normalized col unit step)
  ∧ get_column normalized col = Ok (tz_localize_none parsed)
  ∧ nrows normalized = length (tz_localize_none parsed).
Proof.
  intros Hcol Hparsed Hrows normalized.
  assert (length (tz_localize_none parsed) = nrows df) as Hlen.
  { unfold tz_localize_none. rewrite length_fmap.
    rewrite (mapR_length _ _ _ Hparsed). by apply get_column_length in Hcol. }
  split; [| split].
  - unfold check_continuous_time_column. rewrite Hcol; cbn [bindR]. by rewrite Hparsed.
  - by apply get_set_column_any.
  - unfold normalized. by rewrite nrows_set_column.
Qed.

(** X25. Missing timestamps in the time column. When the first or the
    last timestamp is missing, the validator does not answer: both
    functions raise the [ValueError] of [date_range] on a missing bound.
    When the first and the last are timestamps and one in between is
    missing, the table is rejected. *)
Theorem missing_timestamps_fail_validation (df : DataFrame) (col unit : string) (step : pyval)
    (o : DateOffset) (vals parsed : list value) :
  to_offset (frequency_of step unit) = Ok o →
  get_column df col = Ok vals →
  to_datetime vals = Ok parsed →
  Forall (λ row, length row = length (columns df)) (rows df) →
  let time_column := tz_localize_none parsed in
  (head time_column = Some VNaN ∨ last time_column = Some VNaN →
   (check_continuous_time_column df col unit step).2
     = Raise (ValueError "Neither `start` nor `end` can be NaT")
   ∧ (assert_continuous_time_column df col unit step).2
     = Raise (ValueError "Neither `start` nor `end` can be NaT"))
  ∧ ((∃ start_date, head time_column = Some (VTime start_date)) →
     (∃ end_date, last time_column = Some (VTime end_date)) →
     VNaN ∈ time_column →
     rejects df col unit step).
Proof.
  intros Hoffset Hcol Hparsed Hrows time_column.
  destruct (parsed_check df col unit step vals parsed Hcol Hparsed Hrows)
    as (Hcheck & Hget & Hn).
  fold time_column in Hcheck, Hget, Hn. clearbody time_column.
  split.
  - intros Hmissing.
    assert (check_normalized_time_column (set_column df col time_column) col unit step
            = Raise (ValueError "Neither `start` nor `end` can be NaT")) as Hraise.
    { unfold check_normalized_time_column. rewrite Hget. cbn [bindR].
      unfold iloc_first, iloc_last, date_range_cells.
      destruct time_column as [| first rest]; [by destruct Hmissing as [? | ?] |].
      destruct (last (first :: rest)) as [last_ |] eqn:Hlast;
        [| by rewrite last_cons in Hlast; destruct (last rest)].
      cbn [bindR]. rewrite Hoffset. cbn [bindR].
      destruct Hmissing as [Hfirst | Hend].
      - injection Hfirst as ->. done.
      - injection Hend as ->. by destruct first. }
    split; [by rewrite Hcheck |].
    unfold assert_continuous_time_column. rewrite Hcheck. cbn. by rewrite Hraise.
  - intros [start_date Hfirst] [end_date Hlast] Hnan.
    pose proof (to_offset_regular _ _ Hoffset) as Hlaws.
    destruct (generate_range_fuel o
                (S (Z.to_nat ((end_date - adjust_start o start_date) / resolution o)))
                (adjust_start o start_date) end_date) as [r Hr]; [lia |].
    eapply verdict_rejects. rewrite Hcheck. f_equal.
    unfold check_normalized_time_column. rewrite Hget. cbn [bindR].
    unfold iloc_first, iloc_last, date_range_cells. rewrite Hlast.
    destruct time_column as [| first rest]; [done |].
    injection Hfirst as ->. cbn [bindR]. rewrite Hoffset. cbn [bindR].
    unfold date_range. rewrite Hr. cbn [bindR].
    rewrite (bool_decide_eq_false_2 (_ = _)); [by rewrite orb_true_r |].
    intros Heq. rewrite Heq in Hnan. by apply list_elem_of_fmap in Hnan as (? & ? & _).
Qed.

Lemma missing_timestamps_fail_validation_witness :
  (check_continuous_time_column
     (mkDataFrame ["date"] [[VNaN]; [VTime 86400000000000]]) "date" "D" (PyInt 1)).2
    = Raise (ValueError "Neither `start` nor `end` can be NaT")
  ∧ rejects (mkDataFrame ["date"] [[VTime 0]; [VNaN]; [VTime 172800000000000]])
      "date" "D" (PyInt 1).
Proof.
  split.
  - eapply (missing_timestamps_fail_validation
              (mkDataFrame ["date"] [[VNaN]; [VTime 86400000000000]]) "date" "D" (PyInt 1)).
    + reflexivity.
    + reflexivity.
    + reflexivity.
    + by repeat constructor.
    + left. reflexivity.
  - eapply (missing_timestamps_fail_validation
              (mkDataFrame ["date"] [[VTime 0]; [VNaN]; [VTime 172800000000000]])
              "date" "D" (PyInt 1)).
    + reflexivity.
    + reflexivity.
    + reflexivity.
    + by repeat constructor.
    + by eexists.
    + by eexists.
    + apply list_elem_of_In. cbn. tauto.
Defined.

(** ** Validation of the groups *)

Section GroupValidation.
Variable assert_time_column_valid :
  DataFrame → string → string → option value → option nat → result ().
Implicit Types (self : GluonDataset.t).

Lemma groups_validation_raise self (length_ : option Z) (first : value * nat)
    (before after : list (list value * DataFrame)) (g : list value * DataFrame) (e : exn) :
  Forall (λ b, assert_time_column_valid b.2 (GluonDataset.time_column_name self)
                 (GluonDataset.frequency self) (Some first.1) (Some first.2) = Ok ()
               ∧ ∃ records,
                   GluonDataset._create_gluon_multivariate_timeseries self b.2 length_
                     (Some b.1) = Ok records) before →
  assert_time_column_valid g.2 (GluonDataset.time_column_name self)
    (GluonDataset.frequency self) (Some first.1) (Some first.2) = Raise e →
  GluonDataset.create_list_dataset_groups assert_time_column_valid self length_ (Some first)
    (before ++ g :: after) = Raise e.
Proof.
  intros Hbefore Hraise. induction Hbefore as [| [key df] before [Hvalid [records Hrecords]] _ IH].
  - destruct g as [key df]. cbn in *. by rewrite Hraise.
  - cbn in *. rewrite Hvalid. cbn. rewrite Hrecords. cbn. by rewrite IH.
Qed.

(** X26. Every group after the first is validated against the first.
    The time column of the first group is validated on its own; the time
    column of each later group is validated with the first timestamp and
    the number of rows of the first group as expected start and number of
    periods. When that validation fails for a group, the groups before it
    having passed, [create_list_dataset] raises its error. *)
Theorem later_groups_are_validated_against_first self (cut_length : option Z)
    (first_group g : list value * DataFrame) (before after : list (list value * DataFrame))
    (start_date : value) (e : exn) :
  list_truthy (GluonDataset.timeseries_identifiers_names self) = true →
  groupby (GluonDataset.dataframe self)
    (default [] (GluonDataset.timeseries_identifiers_names self))
    = Ok (first_group :: before ++ g :: after) →
  assert_time_column_valid first_group.2 (GluonDataset.time_column_name self)
    (GluonDataset.frequency self) None None = Ok () →
  bindR (get_column first_group.2 (GluonDataset.time_column_name self)) iloc_first
    = Ok start_date →
  (∃ records,
     GluonDataset._create_gluon_multivariate_timeseries self first_group.2
       (GluonDataset.cut_to_length cut_length) (Some first_group.1) = Ok records) →
  Forall (λ b, assert_time_column_valid b.2 (GluonDataset.time_column_name self)
                 (GluonDataset.frequency self) (Some start_date) (Some (nrows first_group.2))
               = Ok ()
               ∧ ∃ records,
                   GluonDataset._create_gluon_multivariate_timeseries self b.2
                     (GluonDataset.cut_to_length cut_length) (Some b.1) = Ok records) before →
  assert_time_column_valid g.2 (GluonDataset.time_column_name self)
    (GluonDataset.frequency self) (Some start_date) (Some (nrows first_group.2)) = Raise e →
  GluonDataset.create_list_dataset assert_time_column_valid self cut_length = Raise e.
Proof.
  intros Hgrouped Hgroups Hfirst Hstart [records Hrecords] Hbefore Hraise.
  unfold GluonDataset.create_list_dataset. rewrite Hgrouped, Hgroups. cbn [bindR].
  destruct first_group as [key df].
  cbn [GluonDataset.create_list_dataset_groups fmap option_fmap option_map fst snd] in *.
  rewrite Hfirst. cbn [bindR]. rewrite Hstart. cbn [bindR]. rewrite Hrecords. cbn [bindR].
  by rewrite (groups_validation_raise self _ (start_date, nrows df) before after g e).
Qed.

End GroupValidation.

Lemma later_groups_are_validated_against_first_witness :
  GluonDataset.create_list_dataset assert_time_column_valid_spec ragged_builder None
  = Raise (ValueError "Time column date doesn't have regular time intervals of frequency 1D").
Proof.
  eapply (later_groups_are_validated_against_first assert_time_column_valid_spec ragged_builder
            None _ _ []).
  - reflexivity.
  - vm_compute. reflexivity.
  - vm_compute. reflexivity.
  - vm_compute. reflexivity.
  - eexists. vm_compute. reflexivity.
  - constructor.
  - vm_compute. reflexivity.
Defined.

(** ** From the feature columns to the history and back *)

Lemma fmap_nth_seq {A} (d : A) (l : list A) : (λ j, nth j l d) <$> seq 0 (length l) = l.
Proof.
  induction l as [| x l IH]; [done |].
  cbn [length seq]. rewrite fmap_cons. f_equal.
  rewrite <- fmap_S_seq, <- list_fmap_compose. exact IH.
Qed.

Lemma cell_fmap (i j : nat) (rws : list (list value)) :
  cell j (cell i <$> rws) = cell i (nth j rws []).
Proof.
  unfold cell at 1. rewrite list_fmap_alt.
  replace VNaN with (cell i []) at 1 by (by destruct i).
  apply map_nth.
Qed.

(** Transposing the transposed rows of a table gives back the rows. *)
Lemma transpose_rows_back (rws : list (list value)) (width : nat) :
  Forall (λ row, length row = width) rws →
  (λ j, cell j <$> ((λ i, cell i <$> rws) <$> seq 0 width)) <$> seq 0 (length rws) = rws.
Proof.
  intros Hrows.
  transitivity ((λ j, nth j rws []) <$> seq 0 (length rws)); [| apply fmap_nth_seq].
  apply list_fmap_ext. intros k j Hj. apply lookup_seq in Hj as [-> Hj]. cbn.
  rewrite <- list_fmap_compose. set (j := k).
  assert (length (nth j rws []) = width) as <-.
  { rewrite Forall_forall in Hrows. apply Hrows, list_elem_of_In, nth_In. lia. }
  transitivity ((λ i, nth i (nth j rws []) VNaN) <$> seq 0 (length (nth j rws [])));
    [| apply fmap_nth_seq].
  apply list_fmap_ext. intros _ i _. cbn. apply cell_fmap.
Qed.

Lemma select_columns_complete (df sub : DataFrame) (names : list string) :
  select_columns df names = Ok sub →
  Forall (λ row, length row = length names) (rows sub).
Proof.
  intros Hsub. rewrite (select_columns_rows _ _ _ Hsub).
  apply Forall_fmap, Forall_forall. intros row _. cbn. unfold row_key. by rewrite length_fmap.
Qed.

Section RoundTrip.
Variable prepare_timeseries_dataframe : DataFrame → string → string → result DataFrame.
Context {F : Type} `{PyFloat F}.

(** X27. The features make the round trip. Take the record of a table
    and a target column, built without a cut, extend it with the future
    values over the horizon, and rebuild the table of its features for
    the history with that horizon as prediction length: the table has the
    feature columns, and its rows are the rows of the feature columns of
    the original table followed by the rows of the feature columns of the
    prepared future table. *)
Theorem history_features_are_table_then_future_rows (builder : GluonDataset.t) (df : DataFrame)
    (target_column_name : string) (identifiers_values : option (list value))
    (timeseries extended : Timeseries) (external_features_future_df : DataFrame)
    (prediction_length : Z) (frequency history_frequency : string)
    (self : TrainedModel.t (F := F)) (external_features_df : TimeFrame) :
  GluonDataset._create_gluon_univariate_timeseries builder df target_column_name None
    identifiers_values = Ok timeseries →
  add_future_external_features_to prepare_timeseries_dataframe external_features_future_df
    prediction_length frequency timeseries = Ok extended →
  TrainedModel.prediction_length self = prediction_length →
  TrainedModel._generate_history_external_features_dataframe self extended history_frequency
    = Ok external_features_df →
  ∃ names sub slice prepared selected,
    GluonDataset.external_features_columns_names builder = Some names
    ∧ select_columns df names = Ok sub
    ∧ filter_identifiers external_features_future_df timeseries = Ok slice
    ∧ prepare_timeseries_dataframe slice (GluonDataset.time_column_name builder) frequency
      = Ok prepared
    ∧ select_columns prepared names = Ok selected
    ∧ tf_columns external_features_df = names
    ∧ tf_rows external_features_df = rows sub ++ rows selected.
Proof.
  intros Hbuilt Hextended Hhorizon Hframe.
  apply univariate_fields in Hbuilt
    as (_ & Htime & _ & (column & Hcolumn & Htarget) & _ & Hfeat).
  unfold add_future_external_features_to in Hextended.
  apply bindR_Ok in Hextended as (slice & Hslice & Hextended).
  apply bindR_Ok in Hextended as (feat & Hfeat'%getitem_Ok & Hextended).
  apply bindR_Ok in Hextended as (names & Hnames%getitem_Ok & Hextended).
  apply bindR_Ok in Hextended as (prepared & Hprepared & Hextended).
  apply bindR_Ok in Hextended as (selected & Hselected & Hextended).
  destruct (list_truthy (GluonDataset.external_features_columns_names builder));
    [| destruct Hfeat as [Hnone _]; congruence].
  destruct Hfeat as (sub & names' & Hbuilder & Hsub & Hfeat & Hfeatnames).
  rewrite Hnames in Hfeatnames. injection Hfeatnames as <-.
  rewrite Hfeat' in Hfeat. injection Hfeat as ->.
  exists names, sub, slice, prepared, selected.
  rewrite Htime in Hprepared.
  split; [done |]. split; [done |]. split; [done |]. split; [done |]. split; [done |].
  pose proof (select_columns_columns _ _ _ Hsub) as [Hsubcols Hsubrows].
  pose proof (select_columns_columns _ _ _ Hselected) as [Hselcols _].
  pose proof (select_columns_complete _ _ _ Hsub) as Hsubwide.
  pose proof (select_columns_complete _ _ _ Hselected) as Hselwide.
  cbn [transpose values shape snd fst] in Hextended.
  destruct (Z.eqb_spec (Z.of_nat (nrows selected)) prediction_length) as [Hpl |]; [| done].
  cbn [negb] in Hextended. apply bindR_Ok in Hextended as (appended & Happend & [= <-]).
  unfold append_axis1 in Happend.
  cbn [transpose values iloc_to slice_to shape data snd fst columns rows] in Happend.
  destruct (negb _); [done |]. injection Happend as <-.
  unfold TrainedModel._generate_history_external_features_dataframe in Hframe.
  cbn [TIMESERIES_KEYS.TARGET TIMESERIES_KEYS.FEAT_DYNAMIC_REAL
       TIMESERIES_KEYS.FEAT_DYNAMIC_REAL_COLUMNS_NAMES TIMESERIES_KEYS.START
       getitem bindR] in Hframe.
  rewrite Hnames in Hframe. cbn [getitem bindR] in Hframe.
  apply bindR_Ok in Hframe as (index & _ & Hframe).
  unfold make_frame in Hframe. destruct (negb _); [done |]. injection Hframe as <-.
  cbn [tf_columns tf_rows]. split; [done |].
  unfold array_rows_to, transpose. cbn [data shape snd fst].
  rewrite Hsubcols, Hselcols.
  change (slice_to None (rows sub)) with (rows sub).
  change (nrows (iloc_to None sub)) with (length (rows sub)).
  assert (zip_with app ((λ j, cell j <$> rows sub) <$> seq 0 (length names))
                       ((λ j, cell j <$> rows selected) <$> seq 0 (length names))
          = (λ i, cell i <$> (rows sub ++ rows selected)) <$> seq 0 (length names)) as ->.
  { rewrite zip_with_fmap_diag. apply list_fmap_ext. intros _ i _. cbn.
    by rewrite fmap_app. }
  replace (length (rows sub) + nrows selected)%nat with (length (rows sub ++ rows selected))
    by (rewrite length_app; done).
  rewrite transpose_rows_back by (by apply Forall_app).
  assert (Z.of_nat (length (TIMESERIES_KEYS.TARGET timeseries))
          + TrainedModel.prediction_length self
          = Z.of_nat (length (rows sub ++ rows selected)))%Z as ->.
  { rewrite Htarget, Hhorizon, <- Hpl, length_app.
    change (slice_to None column) with column.
    apply get_column_length in Hcolumn. unfold nrows in *. lia. }
  unfold slice_to. destruct (Z.leb_spec 0 (Z.of_nat (length (rows sub ++ rows selected))));
    [| lia].
  rewrite Nat2Z.id. by apply take_ge.
Qed.

End RoundTrip.

Lemma history_features_are_table_then_future_rows_witness :
  ∃ timeseries extended external_features_df,
    GluonDataset._create_gluon_univariate_timeseries daily_builder daily_table "sales" None None
      = Ok timeseries
    ∧ add_future_external_features_to prepare_timeseries_dataframe_spec daily_future_table
        2 "1D" timeseries = Ok extended
    ∧ TrainedModel._generate_history_external_features_dataframe
        (daily_model (mkListDataset [extended] "1D")) extended "1D" = Ok external_features_df
    ∧ tf_columns external_features_df = ["temp"]
    ∧ tf_rows external_features_df = [[VNum 20]; [VNum 21]; [VNum 22]; [VNum 23]; [VNum 24]].
Proof.
  eexists _, _, _. split; [vm_compute; reflexivity |]. split; [vm_compute; reflexivity |].
  split; [vm_compute; reflexivity |].
  destruct (history_features_are_table_then_future_rows prepare_timeseries_dataframe_spec
              daily_builder daily_table "sales" None _ _ daily_future_table 2 "1D" "1D"
              (daily_model (mkListDataset [] "1D")) _
              ltac:(vm_compute; reflexivity) ltac:(vm_compute; reflexivity) eq_refl
              ltac:(vm_compute; reflexivity))
    as (names & sub & slice & prepared & selected & Hnames & Hsub & Hslice & Hprepared
        & Hselected & Hcolumns & Hrows).
  injection Hnames as <-. vm_compute in Hsub. injection Hsub as <-.
  vm_compute in Hslice. injection Hslice as <-.
  vm_compute in Hprepared. injection Hprepared as <-.
  vm_compute in Hselected. injection Hselected as <-.
  split; [exact Hcolumns | exact Hrows].
Defined.

(** ** What a built dataset asks of the future dataset *)

Section BuiltDatasetCheck.
Variable assert_time_column_valid :
  DataFrame → string → string → option value → option nat → result ().
Implicit Types (self : GluonDataset.t).

(** X28. The check of the future dataset on a dataset that
    [create_list_dataset] built. When the builder has external feature
    columns, prediction needs a future dataset, and a future dataset is
    accepted exactly when its columns are, as a set, the time column, the
    feature columns and the identifier columns of the first record (all
    the identifier columns when there are two or more). When the builder
    has none, a future dataset is refused and prediction goes without. *)
Theorem built_dataset_decides_future_dataset self (cut_length : option Z)
    (dataset : ListDataset) (sample : Timeseries) (others : list Timeseries) :
  GluonDataset.create_list_dataset assert_time_column_valid self cut_length = Ok dataset →
  list_data dataset = sample :: others →
  (if list_truthy (GluonDataset.external_features_columns_names self) then
     external_features_check dataset None = Raise (ValueError missing_future_dataset_message)
     ∧ ∀ external_features_future_dataset,
         external_features_check dataset (Some external_features_future_dataset) = Ok true
         ↔ ∀ c, c ∈ read_schema external_features_future_dataset
                ↔ c ∈ GluonDataset.time_column_name self
                      :: default [] (GluonDataset.external_features_columns_names self)
                      ++ default [] (fmap (M := option) (fmap fst)
                                       (TIMESERIES_KEYS.IDENTIFIERS sample))
   else
     external_features_check dataset None = Ok false
     ∧ ∀ external_features_future_dataset,
         external_features_check dataset (Some external_features_future_dataset)
         = Raise (ValueError unexpected_future_dataset_message))
  ∧ match GluonDataset.timeseries_identifiers_names self with
    | Some (name1 :: name2 :: names) =>
        default [] (fmap (M := option) (fmap fst) (TIMESERIES_KEYS.IDENTIFIERS sample))
        = name1 :: name2 :: names
    | Some [name] =>
        default [] (fmap (M := option) (fmap fst) (TIMESERIES_KEYS.IDENTIFIERS sample)) = [name]
        ∨ TIMESERIES_KEYS.IDENTIFIERS sample = None
    | _ => TIMESERIES_KEYS.IDENTIFIERS sample = None
    end.
Proof.
  intros Hbuild Hdata.
  assert (Forall (λ timeseries,
                    TIMESERIES_KEYS.TIME_COLUMN_NAME timeseries = GluonDataset.time_column_name self
                    ∧ TIMESERIES_KEYS.FEAT_DYNAMIC_REAL_COLUMNS_NAMES timeseries
                      = (if list_truthy (GluonDataset.external_features_columns_names self)
                         then GluonDataset.external_features_columns_names self else None)
                    ∧ ∃ identifiers_values,
                        (if list_truthy (GluonDataset.timeseries_identifiers_names self) then
                           ∃ key, identifiers_values = Some key
                                  ∧ length key
                                    = length (default []
                                                (GluonDataset.timeseries_identifiers_names self))
                         else identifiers_values = None)
                        ∧ TIMESERIES_KEYS.IDENTIFIERS timeseries
                          = match identifiers_values with
                            | Some vals =>
                                let names :=
                                  default [] (GluonDataset.timeseries_identifiers_names self) in
                                if GluonDataset.identifiers_values_truthy names vals then
                                  if (1 <? length names)%nat then Some (zip names vals)
                                  else Some (zip (take 1 names) vals)
                                else None
                            | None => None
                            end)
                 (list_data dataset)) as Hrecords.
  { eapply dataset_records_Forall; [exact Hbuild |].
    intros df target_column_name identifiers_values timeseries Hkey Hone.
    apply univariate_fields in Hone as (_ & Htime & _ & _ & Hids & Hfeat).
    split; [done |]. split; [| by exists identifiers_values].
    destruct (list_truthy (GluonDataset.external_features_columns_names self)).
    - destruct Hfeat as (sub & names & Hnames & _ & _ & Hfeatnames). congruence.
    - by destruct Hfeat. }
  rewrite Hdata in Hrecords. apply Forall_cons in Hrecords as [(Htime & Hfeat & Hids) _].
  split.
  - unfold external_features_check. rewrite Hdata. cbn [bindR].
    destruct (list_truthy (GluonDataset.external_features_columns_names self)) eqn:Htruthy.
    + destruct (GluonDataset.external_features_columns_names self) as [names |] eqn:Hnames;
        [| done].
      rewrite bool_decide_eq_true_2 by (rewrite Hfeat; by eexists).
      split; [done |]. intros fd.
      destruct (schema_check_verdict sample fd names Hfeat) as [Hiff _].
      rewrite Htime in Hiff. cbn [default]. rewrite <- Hiff.
      destruct (external_features_future_dataset_schema_check sample fd) as [[] | e]; cbn;
        split; done.
    + rewrite bool_decide_eq_false_2 by (rewrite Hfeat; by intros [? ?]). done.
  - destruct Hids as (identifiers_values & Hkey & ->).
    destruct (GluonDataset.timeseries_identifiers_names self) as [[| name1 [| name2 names]] |];
      cbn [list_truthy default length] in Hkey.
    + by subst.
    + destruct Hkey as (key & -> & Hlen). destruct key as [| v [| ? ?]]; try done. cbn.
      destruct (value_truthy v); [by left | by right].
    + destruct Hkey as (key & -> & Hlen). cbn [default]. unfold id.
      assert (GluonDataset.identifiers_values_truthy (name1 :: name2 :: names) key = true) as ->
        by (by destruct key).
      change (1 <? length (name1 :: name2 :: names))%nat with true.
      cbn [default fmap option_fmap option_map].
      apply fst_zip. unfold id in Hlen. cbn [length] in Hlen |- *. lia.
    + by subst.
Qed.

End BuiltDatasetCheck.

Lemma built_dataset_decides_future_dataset_witness :
  ∃ dataset,
    GluonDataset.create_list_dataset assert_time_column_valid_spec daily_builder None = Ok dataset
    ∧ external_features_check dataset None = Raise (ValueError missing_future_dataset_message)
    ∧ external_features_check dataset (Some {| read_schema := ["temp"; "date"] |}) = Ok true.
Proof.
  eexists. split; [vm_compute; reflexivity |].
  destruct (built_dataset_decides_future_dataset assert_time_column_valid_spec daily_builder None
              _ _ _ ltac:(vm_compute; reflexivity) eq_refl) as [[Hmissing Hschema] _].
  split; [exact Hmissing |].
  apply Hschema. intros c. rewrite !list_elem_of_In. cbn. tauto.
Defined.
